(** * Payment issuance and verification engine

    A shallow embedding of the payment core of the crypto-signals platform:

    - [models/payment.py]            the [Payment] record and its status methods;
    - [routes/payments.py]           the sync, cancel and force-confirm routes;
    - [utils/auth.py], [models/user.py] the permission decorator of the routes;
    - [services/payment_service.py]  provider selection and status checks;
    - [services/blockchain_service.py] the four chain verifiers and the balances.

    Conventions.  Python dictionaries that the code reads with [.get] become
    records.  A field that the code only compares or hands on is an [option]
    ([None] = key absent or JSON null, which a plain [.get] does not tell
    apart).  A field that is read with a default and then computed with is a
    [Py.field]: a missing key takes the default, a JSON null is handed to
    the computation, which raises.  The amounts of the chain verifiers and
    of the balances are Python floats: they are the binary64 floats of the
    standard library, and [float(str)], [int / int] and [float / int] round
    as CPython does.  The amounts of invoices, status reports and fee
    estimates are only handed on by the code and are rationals.  Upstream
    HTTP services are explicit oracles passed as arguments, and the clock,
    the random source and the uuid source are explicit arguments too. *)

From Stdlib Require Import ZArith QArith String Ascii List Bool Lia.
From Stdlib Require Import Floats.
From stdpp Require Import gmap strings list fin_maps.

Local Open Scope string_scope.

(* ===================================================================== *)
(** ** Python helpers *)
(* ===================================================================== *)

Module Py.

(** Truthiness of a string-or-None value: [None] and [''] are falsy. *)
Definition truthy (v : option string) : bool :=
  match v with
  | None => false
  | Some s => negb (String.eqb s "")
  end.

(** [x in xs] for a list of strings. *)
Fixpoint str_in (x : string) (xs : list string) : bool :=
  match xs with
  | [] => false
  | y :: ys => String.eqb x y || str_in x ys
  end.

(** A dictionary field as a request body or an API answer presents it:
    the key may be missing, or present with a value that may be null. *)
Inductive field (A : Type) : Type :=
| Absent
| Present (v : option A).
Arguments Absent {A}.
Arguments Present {A} v.

(** [d.get(key, default)]: the default is used only when the key is
    missing; a key present with null yields [None]. *)
Definition get_default {A} (f : field A) (default : A) : option A :=
  match f with
  | Absent => Some default
  | Present v => v
  end.

(** [str.lower()] / [str.upper()] on the ASCII range (addresses and
    currency codes are ASCII). *)
Definition lower_ascii (c : ascii) : ascii :=
  let n := nat_of_ascii c in
  if (65 <=? n)%nat && (n <=? 90)%nat then ascii_of_nat (n + 32) else c.

Definition upper_ascii (c : ascii) : ascii :=
  let n := nat_of_ascii c in
  if (97 <=? n)%nat && (n <=? 122)%nat then ascii_of_nat (n - 32) else c.

Fixpoint map_string (f : ascii -> ascii) (s : string) : string :=
  match s with
  | EmptyString => EmptyString
  | String c s' => String (f c) (map_string f s')
  end.

Definition lower : string -> string := map_string lower_ascii.
Definition upper : string -> string := map_string upper_ascii.

(** [random.choice(xs)] driven by an explicit draw [r]. *)
Definition random_choice (xs : list string) (r : nat) : string :=
  nth (r mod length xs) xs "".

(** *** Numbers *)

(** An expression that evaluates to a value or raises; [e] is [str(e)]
    of the exception (the texts are those of CPython 3.11). *)
Inductive raising (A : Type) : Type :=
| Value (a : A)
| Raises (e : string).
Arguments Value {A} a.
Arguments Raises {A} e.

(** A number as a returned dictionary holds it: an [int] or a [float]. *)
Inductive number : Type :=
| Int (z : Z)
| Float (f : float).

Definition msg_float_none : string :=
  "float() argument must be a string or a real number, not 'NoneType'".
Definition msg_int_none : string :=
  "int() argument must be a string, a bytes-like object or a real number, not 'NoneType'".
Definition msg_truediv_none : string :=
  "unsupported operand type(s) for /: 'NoneType' and 'int'".
Definition msg_none_iter : string := "'NoneType' object is not iterable".
Definition msg_none_get : string := "'NoneType' object has no attribute 'get'".
Definition msg_none_subscript : string := "'NoneType' object is not subscriptable".
Definition msg_index : string := "list index out of range".
Definition msg_zero_division : string := "division by zero".
Definition msg_truediv_overflow : string := "integer division result too large for a float".

(** The double nearest to the integer [z], ties to even, and an infinity
    beyond the largest double: [float(s)] for the decimal digits [s] of
    [z], and the conversion of the [int] operand of [float / int]. *)
Definition float_of_Z (z : Z) : float :=
  SF2Prim (binary_normalize prec emax z 0 false).

(** The double nearest to the exact quotient [a / b] of two positive
    integers, with the sign [negate]; an infinity when it is out of range. *)
Definition round_quotient (negate : bool) (a b : Z) : spec_float :=
  let '(q, e, l) := SFdiv_core_binary prec emax a 0 b 0 in
  binary_round_aux prec emax negate q e l.

(** [a / b] on two [int]: the correctly rounded quotient; it raises
    where IEEE division would answer an infinity. *)
Definition int_truediv (a b : Z) : raising float :=
  if (b =? 0)%Z then Raises msg_zero_division
  else
    let negate := xorb (a <? 0)%Z (b <? 0)%Z in
    if (a =? 0)%Z then Value (SF2Prim (S754_zero negate))
    else
      match round_quotient negate (Z.abs a) (Z.abs b) with
      | S754_infinity _ => Raises msg_truediv_overflow
      | x => Value (SF2Prim x)
      end.

(** [float(d.get(key, default))] for a field that carries the decimal
    digits of an integer. *)
Definition float_get (f : field Z) (default : Z) : raising float :=
  match get_default f default with
  | Some z => Value (float_of_Z z)
  | None => Raises msg_float_none
  end.

(** [int(d.get(key, default))] *)
Definition int_get (f : field Z) (default : Z) : raising Z :=
  match get_default f default with
  | Some z => Value z
  | None => Raises msg_int_none
  end.

(** [d.get(key, default) / divisor] for a field that carries an integer. *)
Definition truediv_get (f : field Z) (default divisor : Z) : raising float :=
  match get_default f default with
  | Some z => int_truediv z divisor
  | None => Raises msg_truediv_none
  end.

(** The place of a double in the order of the reals extended by the two
    infinities: its class, then its exponent, then its mantissa.  NaN has
    no place. *)
Definition float_key (x : spec_float) : option (Z * Z * Z) :=
  match x with
  | S754_nan => None
  | S754_zero _ => Some (0, 0, 0)%Z
  | S754_infinity s => Some (if s then (-2) else 2, 0, 0)%Z
  | S754_finite false m e => Some (1, e, Zpos m)%Z
  | S754_finite true m e => Some (-1, - e, Zneg m)%Z
  end.

Definition key_le (k1 k2 : Z * Z * Z) : Prop :=
  let '(a1, b1, c1) := k1 in
  let '(a2, b2, c2) := k2 in
  (a1 < a2 \/ (a1 = a2 /\ (b1 < b2 \/ (b1 = b2 /\ c1 <= c2))))%Z.

(** The real number a finite double stands for. *)
Definition float_value (x : float) : option Q :=
  match Prim2SF x with
  | S754_zero _ => Some 0%Q
  | S754_finite s m e =>
      Some (Qred ((if s then -1 else 1) * inject_Z (Zpos m) * Qpower 2 e))
  | _ => None
  end.

Arguments float_of_Z : simpl never.
Arguments int_truediv : simpl never.

End Py.

(* ===================================================================== *)
(** ** datetime *)
(* ===================================================================== *)

Module Datetime.

Record datetime : Type := mk_datetime {
  year : nat; month : nat; day : nat;
  hour : nat; minute : nat; second : nat;
  microsecond : nat
}.

Definition digit (n : nat) : ascii := ascii_of_nat (48 + n mod 10).

(** Decimal rendering on exactly [w] digits, zero padded ([%02d] ...). *)
Fixpoint pad (w n : nat) : string :=
  match w with
  | O => ""
  | S w' => pad w' (n / 10) ++ String (digit n) ""
  end.

(** [dt.strftime("%Y%m%d_%H%M%S")] *)
Definition strftime_stamp (dt : datetime) : string :=
  pad 4 (year dt) ++ pad 2 (month dt) ++ pad 2 (day dt) ++ "_" ++
  pad 2 (hour dt) ++ pad 2 (minute dt) ++ pad 2 (second dt).

(** [dt.isoformat()]: the fraction is printed only when it is not zero. *)
Definition isoformat (dt : datetime) : string :=
  pad 4 (year dt) ++ "-" ++ pad 2 (month dt) ++ "-" ++ pad 2 (day dt) ++ "T" ++
  pad 2 (hour dt) ++ ":" ++ pad 2 (minute dt) ++ ":" ++ pad 2 (second dt) ++
  (if Nat.eqb (microsecond dt) 0 then "" else "." ++ pad 6 (microsecond dt)).

End Datetime.
Export Datetime.

(* ===================================================================== *)
(** ** models/payment.py *)
(* ===================================================================== *)

Module PaymentModel.

(** Values stored under the keys of the [payment_data] dictionary. *)
Inductive jval : Type :=
| JStr (s : string)
| JBool (b : bool)
| JNull.

(** The [payment_data] text column, by what [json.loads] makes of it. *)
Inductive json_text : Type :=
| TextEmpty                          (* NULL or the empty string *)
| TextDict (d : gmap string jval)    (* text of a JSON object *)
| TextOther                          (* JSON text of a list, number, ... *)
| TextInvalid.                       (* not JSON: JSONDecodeError *)

(** What [get_payment_data] hands back. *)
Inductive loaded : Type :=
| LDict (d : gmap string jval)
| LOther.

Record Payment : Type := mk_Payment {
  id : string;
  user_id : Z;
  provider : string;
  amount : Q;
  currency : string;
  status : string;
  transaction_id : option string;
  payment_data : json_text;
  created_at : datetime;
  updated_at : datetime
}.

Definition set_status (s : string) (p : Payment) : Payment :=
  mk_Payment (id p) (user_id p) (provider p) (amount p) (currency p)
             s (transaction_id p) (payment_data p) (created_at p) (updated_at p).

Definition set_transaction_id (t : option string) (p : Payment) : Payment :=
  mk_Payment (id p) (user_id p) (provider p) (amount p) (currency p)
             (status p) t (payment_data p) (created_at p) (updated_at p).

Definition set_payment_data_col (d : json_text) (p : Payment) : Payment :=
  mk_Payment (id p) (user_id p) (provider p) (amount p) (currency p)
             (status p) (transaction_id p) d (created_at p) (updated_at p).

Definition set_updated_at (t : datetime) (p : Payment) : Payment :=
  mk_Payment (id p) (user_id p) (provider p) (amount p) (currency p)
             (status p) (transaction_id p) (payment_data p) (created_at p) t.

(** [Payment.__init__] followed by the insert that applies the column
    defaults ([status = 'pending'], both timestamps [utcnow]). *)
Definition new_Payment (uuid : string) (now : datetime)
    (user : Z) (prov : string) (amt : Q) (cur : string)
    (txid : option string) (pdata : gmap string jval) : Payment :=
  mk_Payment uuid user prov amt (Py.upper cur) "pending" txid (TextDict pdata) now now.

(** A method of [Payment]: it runs on [self] and either returns a value
    together with the mutated [self], or raises. *)
Inductive outcome (A : Type) : Type :=
| Ok (a : A) (self : Payment)
| Raise (e : string).
Arguments Ok {A} a self.
Arguments Raise {A} e.

Definition M (A : Type) : Type := Payment -> outcome A.

Definition ret {A} (a : A) : M A := fun self => Ok a self.

Definition bind {A B} (m : M A) (k : A -> M B) : M B :=
  fun self =>
    match m self with
    | Ok a self' => k a self'
    | Raise e => Raise e
    end.

Definition raise {A} (e : string) : M A := fun _ => Raise e.

Notation "'do' x <- m ; k" := (bind m (fun x => k))
  (at level 10, x name, m at level 100, k at level 200).

(** [set_payment_data(data)] with a dictionary argument. *)
Definition set_payment_data (d : gmap string jval) : M unit :=
  fun self => Ok tt (set_payment_data_col (TextDict d) self).

(** [get_payment_data()] *)
Definition get_payment_data : M loaded :=
  fun self =>
    match payment_data self with
    | TextEmpty => Ok (LDict ∅) self
    | TextDict d => Ok (LDict d) self
    | TextOther => Ok LOther self
    | TextInvalid => Ok (LDict ∅) self
    end.

(** [data[key] = v]: item assignment needs a dictionary. *)
Definition setitem (key : string) (v : jval) (data : loaded) : M loaded :=
  match data with
  | LDict d => ret (LDict (<[key := v]> d))
  | LOther => raise "TypeError: object does not support item assignment"
  end.

Definition store_loaded (data : loaded) : M unit :=
  match data with
  | LDict d => set_payment_data d
  | LOther => fun self => Ok tt self
  end.

Definition valid_statuses : list string :=
  ["pending"; "completed"; "failed"; "cancelled"].

(** [update_status(new_status, transaction_id=None)] *)
Definition update_status (new_status : string) (txid : option string)
    (now : datetime) (self : Payment) : bool * Payment :=
  if Py.str_in new_status valid_statuses then
    let self1 := set_status new_status self in
    let self2 := if Py.truthy txid then set_transaction_id txid self1 else self1 in
    (true, set_updated_at now self2)
  else (false, self).

Definition update_statusM (new_status : string) (txid : option string)
    (now : datetime) : M bool :=
  fun self => let '(b, self') := update_status new_status txid now self in Ok b self'.

(** [mark_completed(transaction_id=None)] *)
Definition mark_completed (txid : option string) (now : datetime)
    (self : Payment) : bool * Payment :=
  update_status "completed" txid now self.

Definition mark_completedM (txid : option string) (now : datetime) : M bool :=
  fun self => let '(b, self') := mark_completed txid now self in Ok b self'.

Definition reason_value (reason : option string) : jval :=
  match reason with Some r => JStr r | None => JNull end.

(** [mark_failed(reason=None)] *)
Definition mark_failed (reason : option string) (now : datetime) : M bool :=
  do _u <- (if Py.truthy reason then
         do data <- get_payment_data;
         do data' <- setitem "failure_reason" (reason_value reason) data;
         store_loaded data'
       else ret tt);
  update_statusM "failed" None now.

(** [cancel(reason=None)] *)
Definition cancel (reason : option string) (now : datetime) : M bool :=
  do _u <- (if Py.truthy reason then
         do data <- get_payment_data;
         do data' <- setitem "cancellation_reason" (reason_value reason) data;
         store_loaded data'
       else ret tt);
  update_statusM "cancelled" None now.

Definition is_pending (self : Payment) : bool := String.eqb (status self) "pending".
Definition is_completed (self : Payment) : bool := String.eqb (status self) "completed".

End PaymentModel.
Export PaymentModel.

(* ===================================================================== *)
(** ** routes/payments.py *)
(* ===================================================================== *)

Module Routes.

(** One row of the audit log written by [AuditLog.log_action]. *)
Record audit_entry : Type := mk_audit {
  actor : string;
  action : string;
  record_id : string;
  old_status : string;
  new_status : string
}.

(** The database session: the payments table keyed by primary key, and
    the audit log.  A commit replaces it, a rollback keeps the old one. *)
Record database : Type := mk_db {
  payments : gmap string Payment;
  audit_logs : list audit_entry
}.

(** The fields the routes read from [request.get_json() or {}]. *)
Record request_body : Type := mk_body {
  body_reason : Py.field string;
  body_transaction_id : Py.field string
}.

Definition empty_body : request_body := mk_body Py.Absent Py.Absent.

Definition commit (db : database) (payment_id : string) (payment : Payment)
    (entry : audit_entry) : database :=
  mk_db (<[payment_id := payment]> (payments db)) (audit_logs db ++ [entry]).

Definition sync_results : list string := ["completed"; "pending"; "failed"].

(** [POST /<payment_id>/sync]; [r] is the draw of [random.choice]. *)
Definition sync_payment (current_user payment_id : string) (r : nat)
    (now : datetime) (db : database) : Z * database :=
  match payments db !! payment_id with
  | None => (404%Z, db)
  | Some payment =>
      let old := status payment in
      let new_status := Py.random_choice sync_results r in
      let handler : M unit :=
        do _b <- update_statusM new_status None now;
        do data <- get_payment_data;
        do data1 <- setitem "last_sync" (JStr (isoformat now)) data;
        do data2 <- setitem "sync_result" (JStr "success") data1;
        store_loaded data2 in
      match handler payment with
      | Ok _ payment' =>
          (200%Z, commit db payment_id payment'
                    (mk_audit current_user "SYNC_PAYMENT" (id payment') old (status payment')))
      | Raise _ => (500%Z, db)
      end
  end.

(** [POST /<payment_id>/cancel] *)
Definition cancel_payment (current_user payment_id : string) (body : request_body)
    (now : datetime) (db : database) : Z * database :=
  match payments db !! payment_id with
  | None => (404%Z, db)
  | Some payment =>
      if negb (Py.str_in (status payment) ["pending"]) then (400%Z, db)
      else
        let reason := Py.get_default (body_reason body) "Cancelled by admin" in
        let old := status payment in
        match cancel reason now payment with
        | Ok _ payment' =>
            (200%Z, commit db payment_id payment'
                      (mk_audit current_user "CANCEL_PAYMENT" (id payment') old (status payment')))
        | Raise _ => (500%Z, db)
        end
  end.

(** [data.get('transaction_id', f'ADMIN_OVERRIDE_{...}')] *)
Definition force_confirm_txid (body : request_body) (now : datetime) : option string :=
  Py.get_default (body_transaction_id body) ("ADMIN_OVERRIDE_" ++ strftime_stamp now).

(** [POST /<payment_id>/force-confirm] *)
Definition force_confirm_payment (current_user payment_id : string)
    (body : request_body) (now : datetime) (db : database) : Z * database :=
  match payments db !! payment_id with
  | None => (404%Z, db)
  | Some payment =>
      if String.eqb (status payment) "completed" then (400%Z, db)
      else
        let txid := force_confirm_txid body now in
        let old := status payment in
        let handler : M unit :=
          do _b <- mark_completedM txid now;
          do data <- get_payment_data;
          do data1 <- setitem "force_confirmed" (JBool true) data;
          do data2 <- setitem "confirmed_by" (JStr current_user) data1;
          do data3 <- setitem "confirmed_at" (JStr (isoformat now)) data2;
          store_loaded data3 in
        match handler payment with
        | Ok _ payment' =>
            (200%Z, commit db payment_id payment'
                      (mk_audit current_user "FORCE_CONFIRM_PAYMENT" (id payment') old (status payment')))
        | Raise _ => (500%Z, db)
        end
  end.

(** The status-changing requests an administrator can send. *)
Inductive request : Type :=
| ReqSync (current_user payment_id : string) (r : nat) (now : datetime)
| ReqCancel (current_user payment_id : string) (body : request_body) (now : datetime)
| ReqForceConfirm (current_user payment_id : string) (body : request_body) (now : datetime).

Definition handle (req : request) (db : database) : Z * database :=
  match req with
  | ReqSync u pid r now => sync_payment u pid r now db
  | ReqCancel u pid body now => cancel_payment u pid body now db
  | ReqForceConfirm u pid body now => force_confirm_payment u pid body now db
  end.

(** Serving a sequence of requests, oldest first. *)
Fixpoint serve (reqs : list request) (db : database) : database :=
  match reqs with
  | [] => db
  | req :: rest => serve rest (snd (handle req db))
  end.

Definition is_sync (req : request) : bool :=
  match req with ReqSync _ _ _ _ => true | _ => false end.

Definition status_of (db : database) (payment_id : string) : option string :=
  status <$> payments db !! payment_id.

Definition transaction_id_of (db : database) (payment_id : string) : option (option string) :=
  transaction_id <$> payments db !! payment_id.

End Routes.
Export Routes.

(** The effect of one request on the record stored under [pid]: the record
    stays in the table, and it is either untouched or changed in the way
    proper to the request. *)
Definition request_effect (req : request) (p p' : Payment) : Prop :=
  match req with
  | ReqSync _ _ r _ =>
      status p' = Py.random_choice sync_results r
      /\ transaction_id p' = transaction_id p
  | ReqCancel _ _ _ _ =>
      status p = "pending" /\ status p' = "cancelled"
      /\ transaction_id p' = transaction_id p
  | ReqForceConfirm _ _ body now =>
      status p <> "completed" /\ status p' = "completed"
      /\ transaction_id p' =
           if Py.truthy (force_confirm_txid body now)
           then force_confirm_txid body now else transaction_id p
  end.

(** The lifecycle vocabulary of the specification. *)
Definition terminal_statuses : list string :=
  ["completed"; "failed"; "expired"; "cancelled"].

Definition is_terminal (s : string) : bool := Py.str_in s terminal_statuses.

(* ===================================================================== *)
(** ** services/blockchain_service.py *)
(* ===================================================================== *)

Module Blockchain.

(** What one HTTP GET can come to: the request raises (timeout, refused
    connection, body that is not JSON), or an answer with a status code
    and a decoded JSON body arrives. *)
Inductive http_outcome (A : Type) : Type :=
| HttpRaises (e : string)
| HttpResponse (code : Z) (body : A).
Arguments HttpRaises {A} e.
Arguments HttpResponse {A} code body.

(** [_make_request]: the body on status 200, [None] otherwise. *)
Definition _make_request {A} (o : http_outcome A) : option A :=
  match o with
  | HttpResponse code body => if (code =? 200)%Z then Some body else None
  | HttpRaises _ => None
  end.

(** *** Upstream JSON shapes *)

(** Blockstream [/address/<a>/txs]. *)
Record btc_vout : Type := mk_vout {
  scriptpubkey_address : option string;
  value : Py.field Z                     (* satoshis, a JSON integer *)
}.

Record btc_status : Type := mk_btc_status {
  st_confirmed : bool;                   (* truthiness of 'confirmed', absent = False *)
  st_block_height : option Z
}.

Record btc_tx : Type := mk_btc_tx {
  txid : option string;
  vout : Py.field (list btc_vout);
  tx_status : Py.field btc_status
}.

(** Etherscan / BscScan [tokentx]; [value] and [confirmations] are
    strings of decimal digits. *)
Record tokentx : Type := mk_tokentx {
  tt_to : option string;
  tt_value : Py.field Z;
  tt_confirmations : Py.field Z;
  tt_hash : option string;
  tt_blockNumber : option Z
}.

Record tokentx_response : Type := mk_tokentx_response {
  resp_status : option string;
  resp_result : Py.field (list tokentx)
}.

Record tokentx_query : Type := mk_query {
  q_contractaddress : string;
  q_address : string;
  q_apikey : option string               (* module=account, action=tokentx,
                                            page=1, offset=100, sort=desc *)
}.

(** TronGrid [/v1/accounts/<a>/transactions/trc20]; [value] is a string
    of decimal digits. *)
Record trc20_tx : Type := mk_trc20 {
  trc_to : option string;
  trc_value : Py.field Z;
  trc_transaction_id : option string;
  trc_block_number : option Z
}.

Record trc20_response : Type := mk_trc20_response {
  trc_success : bool;                    (* truthiness of 'success' *)
  trc_data : Py.field (list trc20_tx)
}.

(** TronGrid [/wallet/gettransactionbyid]. *)
Record tron_receipt : Type := mk_tron_receipt {
  energy_usage_total : Py.field Z
}.

Record tron_tx_body : Type := mk_tron_body {
  body_blockNumber : Py.field Z;
  body_receipt : Py.field tron_receipt
}.

(** The read-only block explorers the service talks to. *)
Record chain_api : Type := mk_chain_api {
  blockstream_txs : string -> http_outcome (list btc_tx);
  etherscan_tokentx : tokentx_query -> http_outcome tokentx_response;
  bscscan_tokentx : tokentx_query -> http_outcome tokentx_response;
  trongrid_trc20 : string -> string -> http_outcome trc20_response;
  trongrid_gettransactionbyid : option string -> http_outcome tron_tx_body
}.

Definition usdt_contract_eth : string := "0xdAC17F958D2ee523a2206206994597C13D831ec7".
Definition usdt_contract_tron : string := "TR7NHqjeKQxGTCi8q8ZY4pL8otSzgjLj6t".
Definition usdt_contract_bsc : string := "0x55d398326f99059fF775485246999027B3197955".

(** *** Results *)

(** The three dictionaries a verifier returns:
    [{'verified': True, 'transaction_id', 'amount', 'confirmations', 'block_*'}],
    [{'verified': False, 'reason'}] and [{'verified': False, 'error'}]. *)
Inductive verify_result : Type :=
| Verified (transaction_id : option string) (amount : float)
           (confirmations : Z) (block : option Z)
| NotVerified (reason : string)
| VerifyError (error : string).

Definition verified (r : verify_result) : bool :=
  match r with Verified _ _ _ _ => true | _ => false end.

Definition result_reason (r : verify_result) : option string :=
  match r with NotVerified s => Some s | _ => None end.

Definition result_error (r : verify_result) : option string :=
  match r with VerifyError s => Some s | _ => None end.

Definition result_transaction_id (r : verify_result) : option string :=
  match r with Verified t _ _ _ => t | _ => None end.

Definition msg_fetch_failed : string := "Failed to fetch transactions".
Definition msg_not_found : string := "Payment not found or insufficient amount".
Definition msg_none_lower : string := "'NoneType' object has no attribute 'lower'".

(** [x == address] where [x] came from [.get] and may be [None]. *)
Definition eq_address (x : option string) (address : string) : bool :=
  match x with
  | Some s => String.eqb s address
  | None => false
  end.

(** *** Bitcoin *)

(** The empty dictionary that [tx.get('status', {})] falls back to. *)
Definition no_status : btc_status := mk_btc_status false None.

(** [tx.get('status', {}).get('confirmed', False)] *)
Definition tx_confirmed (tx : btc_tx) : Py.raising bool :=
  match Py.get_default (tx_status tx) no_status with
  | Some st => Py.Value (st_confirmed st)
  | None => Py.Raises Py.msg_none_get
  end.

(** [tx.get('status', {}).get('block_height')], evaluated after
    [tx_confirmed] has gone through. *)
Definition tx_block_height (tx : btc_tx) : option Z :=
  match Py.get_default (tx_status tx) no_status with
  | Some st => st_block_height st
  | None => None
  end.

(** The inner loop of [verify_btc_payment], over the outputs of [tx]:
    [None] when the loop ends without returning, an error answer when an
    expression raises into the [except] branch. *)
Fixpoint btc_scan_outputs (address : string) (amount : float) (tx : btc_tx)
    (outputs : list btc_vout) : option verify_result :=
  match outputs with
  | [] => None
  | output :: rest =>
      if eq_address (scriptpubkey_address output) address then
        match Py.truediv_get (value output) 0 100000000 with
        | Py.Raises e => Some (VerifyError e)
        | Py.Value received_amount =>
            match tx_confirmed tx with
            | Py.Raises e => Some (VerifyError e)
            | Py.Value confirmations =>
                if PrimFloat.leb amount received_amount && confirmations then
                  Some (Verified (txid tx) received_amount
                                 (if confirmations then 1%Z else 0%Z)
                                 (tx_block_height tx))
                else btc_scan_outputs address amount tx rest
            end
        end
      else btc_scan_outputs address amount tx rest
  end.

(** The outer loop of [verify_btc_payment]. *)
Fixpoint btc_scan (address : string) (amount : float) (transactions : list btc_tx)
    : verify_result :=
  match transactions with
  | [] => NotVerified msg_not_found
  | tx :: rest =>
      match Py.get_default (vout tx) [] with
      | None => VerifyError Py.msg_none_iter
      | Some outputs =>
          match btc_scan_outputs address amount tx outputs with
          | Some r => r
          | None => btc_scan address amount rest
          end
      end
  end.

(** [verify_btc_payment(address, amount, min_confirmations=1)];
    [min_confirmations] is accepted and not used. *)
Definition verify_btc_payment (api : chain_api) (address : string) (amount : float)
    (min_confirmations : Z) : verify_result :=
  match _make_request (blockstream_txs api address) with
  | None => VerifyError msg_fetch_failed
  | Some [] => VerifyError msg_fetch_failed       (* [not transactions] *)
  | Some transactions => btc_scan address amount transactions
  end.

(** *** Ethereum and BSC: the same loop with a different divisor *)

Fixpoint tokentx_scan (divisor : Z) (address : string) (amount : float)
    (transactions : list tokentx) : verify_result :=
  match transactions with
  | [] => NotVerified msg_not_found
  | tx :: rest =>
      match tt_to tx with
      | None => VerifyError msg_none_lower       (* caught by [except] *)
      | Some to =>
          if String.eqb (Py.lower to) (Py.lower address) then
            match Py.float_get (tt_value tx) 0 with
            | Py.Raises e => VerifyError e
            | Py.Value value =>
                let received_amount := PrimFloat.div value (Py.float_of_Z divisor) in
                match Py.int_get (tt_confirmations tx) 0 with
                | Py.Raises e => VerifyError e
                | Py.Value confirmations =>
                    if PrimFloat.leb amount received_amount && (1 <=? confirmations)%Z then
                      Verified (tt_hash tx) received_amount confirmations (tt_blockNumber tx)
                    else tokentx_scan divisor address amount rest
                end
            end
          else tokentx_scan divisor address amount rest
      end
  end.

Definition apikey_param (key : option string) : option string :=
  if Py.truthy key then key else None.

(** [verify_eth_usdt_payment(address, amount, etherscan_api_key=None)] *)
Definition verify_eth_usdt_payment (api : chain_api) (address : string) (amount : float)
    (etherscan_api_key : option string) : verify_result :=
  let params := mk_query usdt_contract_eth address (apikey_param etherscan_api_key) in
  match _make_request (etherscan_tokentx api params) with
  | None => VerifyError msg_fetch_failed
  | Some response =>
      if negb (bool_decide (resp_status response = Some "1")) then
        VerifyError msg_fetch_failed
      else
        match Py.get_default (resp_result response) [] with
        | None => VerifyError Py.msg_none_iter
        | Some transactions => tokentx_scan 1000000 address amount transactions
        end
  end.

(** [verify_bsc_usdt_payment(address, amount, bscscan_api_key=None)] *)
Definition verify_bsc_usdt_payment (api : chain_api) (address : string) (amount : float)
    (bscscan_api_key : option string) : verify_result :=
  let params := mk_query usdt_contract_bsc address (apikey_param bscscan_api_key) in
  match _make_request (bscscan_tokentx api params) with
  | None => VerifyError msg_fetch_failed
  | Some response =>
      if negb (bool_decide (resp_status response = Some "1")) then
        VerifyError msg_fetch_failed
      else
        match Py.get_default (resp_result response) [] with
        | None => VerifyError Py.msg_none_iter
        | Some transactions =>
            tokentx_scan 1000000000000000000 address amount transactions
        end
  end.

(** *** TRON *)

Record tron_tx_info : Type := mk_tron_info {
  info_confirmed : bool;
  info_block_number : option Z;
  info_energy_used : option Z
}.

(** [_get_tron_transaction_info(tx_id)]; [None] stands for the empty
    dictionary returned on a non-200 answer or an exception, among them
    the [AttributeError] of [result.get('receipt', {}).get(...)] on a
    null receipt. *)
Definition _get_tron_transaction_info (api : chain_api) (tx_id : option string)
    : option tron_tx_info :=
  match trongrid_gettransactionbyid api tx_id with
  | HttpResponse code result =>
      if (code =? 200)%Z then
        match Py.get_default (body_receipt result) (mk_tron_receipt Py.Absent) with
        | None => None
        | Some receipt =>
            Some (mk_tron_info
                    (match body_blockNumber result with
                     | Py.Absent => false
                     | Py.Present _ => true
                     end)
                    (match body_blockNumber result with
                     | Py.Absent => None
                     | Py.Present v => v
                     end)
                    (Py.get_default (energy_usage_total receipt) 0%Z))
        end
      else None
  | HttpRaises _ => None
  end.

Fixpoint tron_scan (api : chain_api) (address : string) (amount : float)
    (transactions : list trc20_tx) : verify_result :=
  match transactions with
  | [] => NotVerified msg_not_found
  | tx :: rest =>
      if eq_address (trc_to tx) address then
        match Py.float_get (trc_value tx) 0 with
        | Py.Raises e => VerifyError e
        | Py.Value value =>
            let received_amount := PrimFloat.div value (Py.float_of_Z 1000000) in
            let tx_info := _get_tron_transaction_info api (trc_transaction_id tx) in
            let confirmed :=
              match tx_info with
              | Some info => info_confirmed info
              | None => false
              end in
            if PrimFloat.leb amount received_amount && confirmed then
              Verified (trc_transaction_id tx) received_amount
                       (if confirmed then 1%Z else 0%Z) (trc_block_number tx)
            else tron_scan api address amount rest
        end
      else tron_scan api address amount rest
  end.

(** [verify_tron_usdt_payment(address, amount)] *)
Definition verify_tron_usdt_payment (api : chain_api) (address : string) (amount : float)
    : verify_result :=
  match _make_request (trongrid_trc20 api address usdt_contract_tron) with
  | None => VerifyError msg_fetch_failed
  | Some response =>
      if negb (trc_success response) then VerifyError msg_fetch_failed
      else
        match Py.get_default (trc_data response) [] with
        | None => VerifyError Py.msg_none_iter
        | Some transactions => tron_scan api address amount transactions
        end
  end.

(** *** Dispatch *)

(** [verify_payment(currency, address, amount, network=None)].  Once
    [currency == 'USDT'] holds, the tests ['TRC20' in currency] and the
    like are false, so only [network] selects the chain. *)
Definition verify_payment (api : chain_api) (currency address : string) (amount : float)
    (network : option string) : verify_result :=
  let currency := Py.upper currency in
  if String.eqb currency "BTC" then verify_btc_payment api address amount 1
  else if String.eqb currency "USDT" then
    if bool_decide (network = Some "TRC20") then verify_tron_usdt_payment api address amount
    else if bool_decide (network = Some "ERC20") then verify_eth_usdt_payment api address amount None
    else if bool_decide (network = Some "BEP20") then verify_bsc_usdt_payment api address amount None
    else verify_tron_usdt_payment api address amount
  else VerifyError ("Unsupported currency: " ++ currency).

End Blockchain.

(* ===================================================================== *)
(** ** services/payment_service.py *)
(* ===================================================================== *)

Module PaymentSvc.

(** A call that returns or raises. *)
Inductive result (A : Type) : Type :=
| Returned (a : A)
| Thrown (e : string).
Arguments Returned {A} a.
Arguments Thrown {A} e.

Definition rbind {A B} (r : result A) (k : A -> result B) : result B :=
  match r with
  | Returned a => k a
  | Thrown e => Thrown e
  end.

(** The service object: the three credentials given to [__init__]. *)
Record PaymentService : Type := mk_service {
  nowpayments_api_key : option string;
  btcpay_api_key : option string;
  btcpay_url : option string
}.

Definition wallet_addresses : gmap string string :=
  list_to_map [("BTC", "14MxL4x95TRTYJroWe8bWy4wSLq6c4WCr5");
               ("USDT_TRC20", "TJkLFH53mJUzaTMxLtYqa28jzL9CppJotV");
               ("USDT_ERC20", "0xdd3a7fd3a23c7bf18a9956ca1a1cc8f35d4fce25")].

(** *** Upstream JSON shapes *)

Record np_invoice_response : Type := mk_np_invoice {
  np_id : option string;
  np_invoice_url : option string;
  np_pay_address : option string;
  np_pay_amount : option Q;
  np_pay_currency : option string;
  np_created_at : option string
}.

Record np_status_response : Type := mk_np_status {
  np_payment_status : Py.field string;
  np_actually_paid : option Q;
  np_status_pay_amount : option Q;
  np_status_pay_currency : option string;
  np_payment_id : option string;
  np_network_fee : option Q
}.

(** One entry of BTCPay's [cryptoInfo] list. *)
Record crypto_info : Type := mk_crypto_info {
  cryptoAmount : option Q
}.

Record btcpay_invoice_response : Type := mk_bp_invoice {
  bp_id : option string;
  bp_url : option string;
  bp_addresses : Py.field (gmap string string);
  bp_cryptoInfo : Py.field (list (option crypto_info));   (* an entry may be null *)
  bp_expirationTime : option string
}.

Record btcpay_status_response : Type := mk_bp_status {
  bp_status : Py.field string;
  bp_price : option Q;
  bp_currency : option string;
  bp_status_id : option string
}.

Record invoice_request : Type := mk_invoice_request {
  req_amount : Q;
  req_currency : string;
  req_order_id : string;
  req_description : string
}.

(** [description or f'Subscription payment - {order_id}'] *)
Definition description_or_default (description : option string) (order_id : string)
    : string :=
  match description with
  | Some d => if Py.truthy description then d else "Subscription payment - " ++ order_id
  | None => "Subscription payment - " ++ order_id
  end.

(** The two invoicing services, as HTTP endpoints. *)
Record provider_api : Type := mk_provider_api {
  nowpayments_post_invoice : invoice_request -> Blockchain.http_outcome np_invoice_response;
  nowpayments_get_invoice : string -> Blockchain.http_outcome np_status_response;
  btcpay_post_invoice : invoice_request -> Blockchain.http_outcome btcpay_invoice_response;
  btcpay_get_invoice : string -> Blockchain.http_outcome btcpay_status_response
}.

(** The sources of fresh values used by the manual invoice. *)
Record entropy : Type := mk_entropy {
  uuid4_hex8 : string;                   (* uuid.uuid4().hex[:8] *)
  now_plus_24h : datetime                (* datetime.now() + timedelta(hours=24) *)
}.

(** [_handle_response] inside the [try ... except: raise] of the two
    request helpers: the body on 200, an exception otherwise. *)
Definition _handle_response {A} (o : Blockchain.http_outcome A) : result A :=
  match o with
  | Blockchain.HttpResponse code body =>
      if (code =? 200)%Z then Returned body
      else Thrown ("API error: " ++ pad 3 (Z.to_nat code))
  | Blockchain.HttpRaises e => Thrown e
  end.

Definition _make_nowpayments_request {A} (o : Blockchain.http_outcome A) : result A :=
  _handle_response o.

Definition _make_btcpay_request {A} (svc : PaymentService)
    (o : Blockchain.http_outcome A) : result A :=
  if negb (Py.truthy (btcpay_url svc)) || negb (Py.truthy (btcpay_api_key svc)) then
    Thrown "BTCPay Server configuration missing"
  else _handle_response o.

(** *** Invoices *)

Record invoice : Type := mk_invoice {
  invoice_id : option string;
  payment_url : option string;
  inv_address : option string;
  inv_amount : option Q;
  inv_currency : option string;
  inv_status : string;
  expires_at : option string;
  inv_provider : string;
  (** the amount and currency interpolated into the two instruction texts *)
  instructions : option (Q * string)
}.

(** [_create_nowpayments_invoice] *)
Definition _create_nowpayments_invoice (api : provider_api)
    (amount : Q) (currency order_id : string) (description : option string)
    : result invoice :=
  rbind (_make_nowpayments_request
           (nowpayments_post_invoice api
              (mk_invoice_request amount (Py.upper currency) order_id
                                  (description_or_default description order_id))))
    (fun response =>
       Returned (mk_invoice (np_id response) (np_invoice_url response)
                            (np_pay_address response) (np_pay_amount response)
                            (np_pay_currency response) "pending"
                            (np_created_at response) "nowpayments" None)).

(** [response.get('addresses', {}).get(currency.upper())]: a null
    [addresses] raises. *)
Definition btcpay_address (response : btcpay_invoice_response) (currency : string)
    : result (option string) :=
  match Py.get_default (bp_addresses response) ∅ with
  | Some addresses => Returned (addresses !! Py.upper currency)
  | None => Thrown Py.msg_none_get
  end.

(** [response.get('cryptoInfo', [{}])[0].get('cryptoAmount')]: a null
    [cryptoInfo], an empty list and a null first entry raise. *)
Definition btcpay_amount (response : btcpay_invoice_response) : result (option Q) :=
  match Py.get_default (bp_cryptoInfo response) [Some (mk_crypto_info None)] with
  | None => Thrown Py.msg_none_subscript
  | Some [] => Thrown Py.msg_index
  | Some (None :: _) => Thrown Py.msg_none_get
  | Some (Some info :: _) => Returned (cryptoAmount info)
  end.

(** [_create_btcpay_invoice] *)
Definition _create_btcpay_invoice (svc : PaymentService) (api : provider_api)
    (amount : Q) (currency order_id : string) (description : option string)
    : result invoice :=
  rbind (_make_btcpay_request svc
           (btcpay_post_invoice api
              (mk_invoice_request amount "USD" order_id
                                  (description_or_default description order_id))))
    (fun response =>
       rbind (btcpay_address response currency) (fun address =>
       rbind (btcpay_amount response) (fun cryptoAmount =>
         Returned (mk_invoice (bp_id response) (bp_url response)
                              address cryptoAmount
                              (Some (Py.upper currency)) "pending"
                              (bp_expirationTime response) "btcpay" None)))).

(** [_create_manual_invoice] *)
Definition _create_manual_invoice (rnd : entropy)
    (amount : Q) (currency order_id : string) (description : option string)
    : invoice :=
  let address := wallet_addresses !! Py.upper currency in
  let '(address, currency) :=
    if negb (Py.truthy address) then (wallet_addresses !! "USDT_TRC20", "USDT_TRC20")
    else (address, currency) in
  mk_invoice (Some ("manual_" ++ uuid4_hex8 rnd)) None address (Some amount)
             (Some (Py.upper currency)) "pending"
             (Some (isoformat (now_plus_24h rnd))) "manual"
             (Some (amount, Py.upper currency)).

(** [create_payment_invoice] *)
Definition create_payment_invoice (svc : PaymentService) (api : provider_api)
    (rnd : entropy) (amount : Q) (currency order_id : string)
    (description : option string) : invoice :=
  let attempt : result invoice :=
    if Py.truthy (nowpayments_api_key svc) then
      _create_nowpayments_invoice api amount currency order_id description
    else if Py.truthy (btcpay_api_key svc) && Py.truthy (btcpay_url svc) then
      _create_btcpay_invoice svc api amount currency order_id description
    else
      Returned (_create_manual_invoice rnd amount currency order_id description) in
  match attempt with
  | Returned inv => inv
  | Thrown _ => _create_manual_invoice rnd amount currency order_id description
  end.

(** *** Status checks *)

Record status_report : Type := mk_report {
  rep_status : string;
  amount_paid : option Q;
  amount_expected : option Q;
  rep_currency : option string;
  rep_transaction_id : option string;
  rep_confirmations : option Q;
  rep_provider : option string;
  note : option string;
  rep_error : option string
}.

Definition nowpayments_status_map : gmap string string :=
  list_to_map [("waiting", "pending"); ("confirming", "confirming");
               ("confirmed", "confirmed"); ("sending", "confirmed");
               ("partially_paid", "partial"); ("finished", "completed");
               ("failed", "failed"); ("refunded", "refunded");
               ("expired", "expired")].

Definition btcpay_status_map : gmap string string :=
  list_to_map [("New", "pending"); ("Paid", "confirming");
               ("Confirmed", "confirmed"); ("Complete", "completed");
               ("Expired", "expired"); ("Invalid", "failed")].

(** [status_map.get(response.get(key, dflt), 'unknown')] *)
Definition map_status (m : gmap string string) (native : Py.field string)
    (dflt : string) : string :=
  match Py.get_default native dflt with
  | Some s => default "unknown" (m !! s)
  | None => "unknown"
  end.

(** [_check_nowpayments_status] *)
Definition _check_nowpayments_status (api : provider_api) (invoice_id : string)
    : result status_report :=
  rbind (_make_nowpayments_request (nowpayments_get_invoice api invoice_id))
    (fun response =>
       let our_status := map_status nowpayments_status_map (np_payment_status response) "waiting" in
       Returned (mk_report our_status (np_actually_paid response)
                           (np_status_pay_amount response)
                           (np_status_pay_currency response)
                           (np_payment_id response) (np_network_fee response)
                           (Some "nowpayments") None None)).

(** [_check_btcpay_status] *)
Definition _check_btcpay_status (svc : PaymentService) (api : provider_api)
    (invoice_id : string) : result status_report :=
  rbind (_make_btcpay_request svc (btcpay_get_invoice api invoice_id))
    (fun response =>
       let our_status := map_status btcpay_status_map (bp_status response) "New" in
       Returned (mk_report our_status (bp_price response) (bp_price response)
                           (bp_currency response) (bp_status_id response) None
                           (Some "btcpay") None None)).

(** [_check_manual_payment_status]: the placeholder of the source. *)
Definition _check_manual_payment_status (invoice_id : string) : status_report :=
  mk_report "pending" (Some 0%Q) (Some 0%Q) (Some "USDT") None None
            (Some "manual") (Some "Manual verification required") None.

(** [check_payment_status(invoice_id, provider=None)] *)
Definition check_payment_status (svc : PaymentService) (api : provider_api)
    (invoice_id : string) (provider : option string) : status_report :=
  let attempt : result status_report :=
    if bool_decide (provider = Some "nowpayments") && Py.truthy (nowpayments_api_key svc) then
      _check_nowpayments_status api invoice_id
    else if bool_decide (provider = Some "btcpay") && Py.truthy (btcpay_api_key svc) then
      _check_btcpay_status svc api invoice_id
    else Returned (_check_manual_payment_status invoice_id) in
  match attempt with
  | Returned r => r
  | Thrown e => mk_report "unknown" None None None None None None None (Some e)
  end.

End PaymentSvc.

(* ===================================================================== *)
(** ** The verifier contract, in the words of the specification *)
(* ===================================================================== *)

Module ChainSpec.
Import Blockchain.

Inductive network : Type := BTC | ERC20_USDT | TRC20_USDT | BEP20_USDT.

(** The table of decimal exponents of the specification. *)
Definition spec_decimals (n : network) : Z :=
  match n with
  | BTC => 8
  | ERC20_USDT => 6
  | TRC20_USDT => 6
  | BEP20_USDT => 18
  end.

(** The human amount in the words of the specification: the exact
    quotient of the raw amount by ten to the exponent. *)
Definition spec_to_human (n : network) (raw : Z) : Q :=
  (inject_Z raw / inject_Z (10 ^ spec_decimals n))%Q.

(** The same quotient in double precision.  A Bitcoin amount is a JSON
    integer and [int / int] rounds the exact quotient once (it raises when
    the quotient is out of range); a token amount is a string of digits,
    which [float] rounds to a double before the division rounds again. *)
Definition float_to_human (n : network) (raw : Z) : Py.raising float :=
  match n with
  | BTC => Py.int_truediv raw (10 ^ spec_decimals n)
  | _ => Py.Value (PrimFloat.div (Py.float_of_Z raw)
                                 (Py.float_of_Z (10 ^ spec_decimals n)))
  end.

(** One fetched transfer, as the specification's [ChainTransaction],
    together with the raw amount it was scaled from. *)
Record ChainTransaction : Type := mk_transfer {
  hash : option string;
  toAddress : option string;
  raw_amount : Z;
  human_amount : float;
  confirmed : bool;
  confirmations : Z;
  blockHeight : option Z
}.

(** A record of an upstream answer: a transfer, or a record in which a
    field the verifier computes with is null or missing, so that reading
    it raises. *)
Inductive fetched_record : Type :=
| Transfer (tr : ChainTransaction)
| Malformed.

Definition hex_chain (n : network) : bool :=
  match n with
  | ERC20_USDT | BEP20_USDT => true
  | BTC | TRC20_USDT => false
  end.

(** Destination equals the watched address, case-insensitively on the
    hex-based chains. *)
Definition spec_dest_matches (n : network) (to : option string) (address : string) : bool :=
  match to with
  | None => false
  | Some t =>
      if hex_chain n then String.eqb (Py.lower t) (Py.lower address)
      else String.eqb t address
  end.

(** A transfer qualifies when it pays the address, reaches the minimum
    amount by itself, and is confirmed. *)
Definition spec_qualifies (n : network) (address : string) (minAmount : float)
    (tr : ChainTransaction) : bool :=
  spec_dest_matches n (toAddress tr) address
  && PrimFloat.leb minAmount (human_amount tr)
  && confirmed tr.

Definition record_qualifies (n : network) (address : string) (minAmount : float)
    (record : fetched_record) : bool :=
  match record with
  | Transfer tr => spec_qualifies n address minAmount tr
  | Malformed => false
  end.

(** The answer given for the transfer that decided. *)
Definition report (tr : ChainTransaction) : verify_result :=
  Verified (hash tr) (human_amount tr) (confirmations tr) (blockHeight tr).

(** The first qualifying transfer in the provider's order decides. *)
Definition spec_verify (n : network) (address : string) (minAmount : float)
    (transfers : list ChainTransaction) : verify_result :=
  match find (spec_qualifies n address minAmount) transfers with
  | Some tr => report tr
  | None => NotVerified msg_not_found
  end.

(** The transfers of an answer in which every record is well formed. *)
Fixpoint transfers_of (records : list fetched_record) : option (list ChainTransaction) :=
  match records with
  | [] => Some []
  | Transfer tr :: rest =>
      match transfers_of rest with
      | Some trs => Some (tr :: trs)
      | None => None
      end
  | Malformed :: _ => None
  end.

(** *** Reading the upstream answers as transfers *)

(** An answer counts as fetched when it came back with status 200. *)
Definition fetched {A} (o : http_outcome A) : option A :=
  match o with
  | HttpResponse code body => if bool_decide (code = 200%Z) then Some body else None
  | HttpRaises _ => None
  end.

(** A record with the raw amount [raw] (a missing amount counts as 0, a
    null one cannot be read), scaled by the exponent of the network. *)
Definition read_amount (n : network) (raw : Py.field Z)
    (transfer : Z -> float -> fetched_record) : fetched_record :=
  match Py.get_default raw 0%Z with
  | Some raw =>
      match float_to_human n raw with
      | Py.Value a => transfer raw a
      | Py.Raises _ => Malformed
      end
  | None => Malformed
  end.

(** Bitcoin: one transfer per output, confirmed when its transaction is
    in a block. *)
Definition btc_transfer (tx : btc_tx) (output : btc_vout) : fetched_record :=
  read_amount BTC (value output) (fun raw a =>
    match Py.get_default (tx_status tx) no_status with
    | Some st =>
        Transfer (mk_transfer (txid tx) (scriptpubkey_address output) raw a
                              (st_confirmed st)
                              (if st_confirmed st then 1%Z else 0%Z)
                              (st_block_height st))
    | None => Malformed
    end).

Definition btc_transfers (tx : btc_tx) : list fetched_record :=
  match Py.get_default (vout tx) [] with
  | Some outputs => map (btc_transfer tx) outputs
  | None => [Malformed]
  end.

(** Ethereum and BSC: confirmed with one confirmation at least. *)
Definition tokentx_transfer (n : network) (tx : tokentx) : fetched_record :=
  read_amount n (tt_value tx) (fun raw a =>
    match tt_to tx, Py.get_default (tt_confirmations tx) 0%Z with
    | Some to, Some c =>
        Transfer (mk_transfer (tt_hash tx) (Some to) raw a
                              (1 <=? c)%Z c (tt_blockNumber tx))
    | _, _ => Malformed
    end).

(** TRON, in the words of the specification: the secondary lookup by id
    shows an assigned block number. *)
Definition tron_block_assigned (api : chain_api) (tx_id : option string) : bool :=
  match fetched (trongrid_gettransactionbyid api tx_id) with
  | Some body =>
      match body_blockNumber body with
      | Py.Present (Some _) => true
      | _ => false
      end
  | None => false
  end.

(** TRON, as the verifier decides: the secondary lookup answers 200 with
    a [blockNumber] key, whatever its value, and no null [receipt]. *)
Definition tron_block_key (api : chain_api) (tx_id : option string) : bool :=
  match fetched (trongrid_gettransactionbyid api tx_id) with
  | Some body =>
      match body_blockNumber body, body_receipt body with
      | Py.Absent, _ => false
      | Py.Present _, Py.Present None => false
      | Py.Present _, _ => true
      end
  | None => false
  end.

Definition tron_transfer (api : chain_api) (tx : trc20_tx) : fetched_record :=
  read_amount TRC20_USDT (trc_value tx) (fun raw a =>
    Transfer (mk_transfer (trc_transaction_id tx) (trc_to tx) raw a
                          (tron_block_key api (trc_transaction_id tx))
                          (if tron_block_key api (trc_transaction_id tx) then 1%Z else 0%Z)
                          (trc_block_number tx))).

(** The list of a [tokentx] or [trc20] answer; a null list cannot be
    iterated and counts as one malformed record. *)
Definition read_list {A} (l : Py.field (list A)) (read : A -> fetched_record)
    : list fetched_record :=
  match Py.get_default l [] with
  | Some records => map read records
  | None => [Malformed]
  end.

(** The records of an upstream answer that the verifier of network [n]
    accepts as fetched: status 200 and, by network, a non-empty list,
    [status == '1'], or a true [success]. *)
Definition accepted_transfers (n : network) (api : chain_api) (address : string)
    (api_key : option string) : option (list fetched_record) :=
  match n with
  | BTC =>
      match fetched (blockstream_txs api address) with
      | Some (tx :: txs) => Some (flat_map btc_transfers (tx :: txs))
      | _ => None
      end
  | ERC20_USDT =>
      match fetched (etherscan_tokentx api
                       (mk_query usdt_contract_eth address (apikey_param api_key))) with
      | Some response =>
          if bool_decide (resp_status response = Some "1")
          then Some (read_list (resp_result response) (tokentx_transfer ERC20_USDT))
          else None
      | None => None
      end
  | BEP20_USDT =>
      match fetched (bscscan_tokentx api
                       (mk_query usdt_contract_bsc address (apikey_param api_key))) with
      | Some response =>
          if bool_decide (resp_status response = Some "1")
          then Some (read_list (resp_result response) (tokentx_transfer BEP20_USDT))
          else None
      | None => None
      end
  | TRC20_USDT =>
      match fetched (trongrid_trc20 api address usdt_contract_tron) with
      | Some response =>
          if trc_success response
          then Some (read_list (trc_data response) (tron_transfer api))
          else None
      | None => None
      end
  end.

(** The verifier of the source for each network. *)
Definition run_verifier (n : network) (api : chain_api) (address : string)
    (amount : float) (api_key : option string) : verify_result :=
  match n with
  | BTC => verify_btc_payment api address amount 1
  | ERC20_USDT => verify_eth_usdt_payment api address amount api_key
  | TRC20_USDT => verify_tron_usdt_payment api address amount
  | BEP20_USDT => verify_bsc_usdt_payment api address amount api_key
  end.

(** The divisor written in the source for the two hex-based chains
    ([verify_bsc_usdt_payment] and [verify_eth_usdt_payment]). *)
Definition hex_divisor (n : network) : Z :=
  match n with
  | BEP20_USDT => 1000000000000000000
  | _ => 1000000
  end.

(** What an answer says about the list it was computed from: a verified
    answer names a transfer of the list that qualifies, none before it
    qualifying; a not-found answer means that no transfer of the list
    qualifies; an error means that the list holds a malformed record. *)
Definition answers (n : network) (address : string) (minAmount : float)
    (records : list fetched_record) (r : verify_result) : Prop :=
  match r with
  | Verified _ _ _ _ =>
      exists pre tr post,
        records = (pre ++ Transfer tr :: post)%list
        /\ spec_qualifies n address minAmount tr = true
        /\ forallb (fun x => negb (record_qualifies n address minAmount x)) pre = true
        /\ r = report tr
  | NotVerified reason =>
      reason = msg_not_found
      /\ forallb (fun x => negb (record_qualifies n address minAmount x)) records = true
  | VerifyError _ => In Malformed records
  end.

(** The test of the amended claim on one transfer, written out on the
    raw amount. *)
Definition scaled_qualifies (n : network) (address : string) (minAmount : float)
    (tr : ChainTransaction) : bool :=
  spec_dest_matches n (toAddress tr) address
  && match float_to_human n (raw_amount tr) with
     | Py.Value a => PrimFloat.leb minAmount a
     | Py.Raises _ => false
     end
  && confirmed tr.

End ChainSpec.

(* ===================================================================== *)
(** ** routes/payments.py: what a request addresses and answers *)
(* ===================================================================== *)

Module RoutesExt.

(** The [<payment_id>] of the URL. *)
Definition request_target (req : request) : string :=
  match req with
  | ReqSync _ pid _ _ => pid
  | ReqCancel _ pid _ _ => pid
  | ReqForceConfirm _ pid _ _ => pid
  end.

(** The [current_user] the permission decorator passes in. *)
Definition request_actor (req : request) : string :=
  match req with
  | ReqSync u _ _ _ => u
  | ReqCancel u _ _ _ => u
  | ReqForceConfirm u _ _ _ => u
  end.

(** The [action] each route writes to the audit log. *)
Definition request_action (req : request) : string :=
  match req with
  | ReqSync _ _ _ _ => "SYNC_PAYMENT"
  | ReqCancel _ _ _ _ => "CANCEL_PAYMENT"
  | ReqForceConfirm _ _ _ _ => "FORCE_CONFIRM_PAYMENT"
  end.

(** The keys of [payment_data] each route assigns. *)
Definition request_keys (req : request) : list string :=
  match req with
  | ReqSync _ _ _ _ => ["last_sync"; "sync_result"]
  | ReqCancel _ _ _ _ => ["cancellation_reason"]
  | ReqForceConfirm _ _ _ _ => ["force_confirmed"; "confirmed_by"; "confirmed_at"]
  end.

(** The status codes answered to a sequence of requests, oldest first. *)
Fixpoint serve_codes (reqs : list request) (db : database) : list Z :=
  match reqs with
  | [] => []
  | req :: rest => fst (handle req db) :: serve_codes rest (snd (handle req db))
  end.

(** The dictionary [get_payment_data] yields when it yields one. *)
Definition loaded_dict (p : Payment) : gmap string jval :=
  match payment_data p with
  | TextDict d => d
  | _ => ∅
  end.

(** [payment.get_payment_data().get(key)] *)
Definition payment_data_get (p : Payment) (key : string) : option jval :=
  match get_payment_data p with
  | Ok (LDict d) _ => d !! key
  | _ => None
  end.

(** [data.get('reason', 'Cancelled by admin')] *)
Definition cancel_reason (body : request_body) : option string :=
  Py.get_default (body_reason body) "Cancelled by admin".

(** The record [cancel_payment] stores when it goes through. *)
Definition cancelled (body : request_body) (now : datetime) (p : Payment) : Payment :=
  set_updated_at now
    (set_status "cancelled"
       (if Py.truthy (cancel_reason body) then
          set_payment_data_col
            (TextDict (<["cancellation_reason" := reason_value (cancel_reason body)]>
                         (loaded_dict p))) p
        else p)).

(** The record [sync_payment] stores when it goes through. *)
Definition synced (r : nat) (now : datetime) (p : Payment) : Payment :=
  set_payment_data_col
    (TextDict (<["sync_result" := JStr "success"]>
                 (<["last_sync" := JStr (isoformat now)]> (loaded_dict p))))
    (set_updated_at now (set_status (Py.random_choice sync_results r) p)).

(** The record [force_confirm_payment] stores when it goes through. *)
Definition force_confirmed (u : string) (body : request_body) (now : datetime)
    (p : Payment) : Payment :=
  set_payment_data_col
    (TextDict (<["confirmed_at" := JStr (isoformat now)]>
                 (<["confirmed_by" := JStr u]>
                    (<["force_confirmed" := JBool true]> (loaded_dict p)))))
    (snd (mark_completed (force_confirm_txid body now) now p)).

(** The payment data decodes to JSON that is not an object. *)
Definition not_a_dict (p : Payment) : bool :=
  match payment_data p with
  | TextOther => true
  | _ => false
  end.

(** The record a request stores when it goes through. *)
Definition stored_by (req : request) (p : Payment) : Payment :=
  match req with
  | ReqSync _ _ r now => synced r now p
  | ReqCancel _ _ body now => cancelled body now p
  | ReqForceConfirm u _ body now => force_confirmed u body now p
  end.

(** The status-code of the route on the record it finds: the guards of
    the source (400) and the item assignment on payment data that is not a
    dictionary (500). *)
Definition answer_on (req : request) (p : Payment) : Z :=
  match req with
  | ReqSync _ _ _ _ =>
      if not_a_dict p then 500 else 200
  | ReqCancel _ _ body _ =>
      if negb (String.eqb (status p) "pending") then 400
      else if Py.truthy (cancel_reason body) && not_a_dict p
           then 500 else 200
  | ReqForceConfirm _ _ _ _ =>
      if String.eqb (status p) "completed" then 400
      else if not_a_dict p then 500 else 200
  end%Z.

End RoutesExt.
Export RoutesExt.

(* ===================================================================== *)
(** ** utils/auth.py and models/user.py: the routes as served *)
(* ===================================================================== *)

Module Auth.

(** The columns of [User] that the decorators read. *)
Record User : Type := mk_User {
  uid : string;                          (* id *)
  role : string;
  is_active : bool                       (* truthiness of the column *)
}.

(** The [permissions] dictionary of [User.has_permission]. *)
Definition role_permissions : gmap string (list string) :=
  list_to_map
    [("admin", ["read"; "write"; "delete"; "manage_users"; "manage_integrations";
                "manage_futures"]);
     ("moderator", ["read"; "write"; "manage_signals"; "manage_broadcasts"]);
     ("support", ["read"; "manage_users_basic"])].

(** [User.has_permission(permission)] *)
Definition has_permission (self : User) (permission : string) : bool :=
  Py.str_in permission (default [] (role_permissions !! role self)).

(** [permission_required(permission)] around the route [f]; [current]
    is what [AuthManager.get_current_user()] returns: [None] without an
    Authorization header, with a token that does not verify, or with a
    token of a user that is not stored. *)
Definition permission_required (permission : string)
    (f : User -> database -> Z * database)
    (current : option User) (db : database) : Z * database :=
  match current with
  | None => (401%Z, db)
  | Some user =>
      if negb (is_active user) then (401%Z, db)
      else if negb (has_permission user permission) then (403%Z, db)
      else f user db
  end.

(** The user may pass the decorator. *)
Definition authorised (permission : string) (current : option User) : bool :=
  match current with
  | Some user => is_active user && has_permission user permission
  | None => false
  end.

(** What [request.get_json()] comes to in a route. *)
Inductive request_json : Type :=
| JsonRaises                             (* no JSON content type, a body that does
                                            not parse: the call raises *)
| JsonObject (body : request_body)       (* an object; a falsy value is replaced
                                            by the empty object *)
| JsonOther.                             (* a non-empty list, a number, a string,
                                            true: [data.get] raises *)

(** A call of one of the three endpoints: the URL, the request body and
    the readings of the clock and of the random source. *)
Inductive call : Type :=
| CallSync (payment_id : string) (r : nat) (now : datetime)
| CallCancel (payment_id : string) (json : request_json) (now : datetime)
| CallForceConfirm (payment_id : string) (json : request_json) (now : datetime).

Definition call_target (c : call) : string :=
  match c with
  | CallSync pid _ _ => pid
  | CallCancel pid _ _ => pid
  | CallForceConfirm pid _ _ => pid
  end.

(** [cancel_payment] with the outcome of [get_json()]: the call comes
    after the two guards, and when it raises, or [data.get] does, the
    [except] branch rolls back and answers 500. *)
Definition cancel_payment_route (user : User) (payment_id : string)
    (json : request_json) (now : datetime) (db : database) : Z * database :=
  match json with
  | JsonObject body => cancel_payment (uid user) payment_id body now db
  | _ =>
      match payments db !! payment_id with
      | None => (404%Z, db)
      | Some payment =>
          if negb (Py.str_in (status payment) ["pending"]) then (400%Z, db)
          else (500%Z, db)
      end
  end.

(** [force_confirm_payment] with the outcome of [get_json()]. *)
Definition force_confirm_payment_route (user : User) (payment_id : string)
    (json : request_json) (now : datetime) (db : database) : Z * database :=
  match json with
  | JsonObject body => force_confirm_payment (uid user) payment_id body now db
  | _ =>
      match payments db !! payment_id with
      | None => (404%Z, db)
      | Some payment =>
          if String.eqb (status payment) "completed" then (400%Z, db)
          else (500%Z, db)
      end
  end.

(** The function under the decorator. *)
Definition route (c : call) (user : User) (db : database) : Z * database :=
  match c with
  | CallSync pid r now => sync_payment (uid user) pid r now db
  | CallCancel pid json now => cancel_payment_route user pid json now db
  | CallForceConfirm pid json now => force_confirm_payment_route user pid json now db
  end.

(** The three endpoints as [routes/payments.py] declares them:
    [@permission_required('manage_payments')]. *)
Definition endpoint (c : call) (current : option User) (db : database) : Z * database :=
  permission_required "manage_payments" (route c) current db.

(** The request that reaches the body of the route when the JSON of the
    call is an object. *)
Definition as_request (c : call) (user : User) : option request :=
  match c with
  | CallSync pid r now => Some (ReqSync (uid user) pid r now)
  | CallCancel pid (JsonObject body) now => Some (ReqCancel (uid user) pid body now)
  | CallForceConfirm pid (JsonObject body) now =>
      Some (ReqForceConfirm (uid user) pid body now)
  | _ => None
  end.

(** No sync request of the sequence addresses [pid]. *)
Definition no_sync_on (pid : string) (reqs : list request) : bool :=
  forallb (fun req => negb (is_sync req && String.eqb (request_target req) pid)) reqs.

End Auth.

(* ===================================================================== *)
(** ** services/blockchain_service.py: balances *)
(* ===================================================================== *)

Module Balance.
Import Blockchain.

(** Blockstream [/address/<a>]: the empty object, or an object with its
    [chain_stats]. *)
Record chain_stats : Type := mk_chain_stats {
  funded_txo_sum : Py.field Z
}.

Inductive btc_address_info : Type :=
| EmptyObject
| AddressInfo (stats : Py.field chain_stats).

(** Etherscan / BscScan [tokenbalance]; [result] is a string of decimal
    digits. *)
Record tokenbalance_response : Type := mk_tokenbalance {
  bal_status : option string;
  bal_result : Py.field Z
}.

(** The endpoints of the balance queries; the TRON one is the TRC20
    transfer list asked with [limit = 1]. *)
Record balance_api : Type := mk_balance_api {
  blockstream_address : string -> http_outcome btc_address_info;
  etherscan_tokenbalance : string -> string -> http_outcome tokenbalance_response;
  bscscan_tokenbalance : string -> string -> http_outcome tokenbalance_response;
  trongrid_trc20_latest : string -> string -> http_outcome trc20_response
}.

(** The dictionary a balance query returns; the balance is the [int] 0
    or the [float] of a division. *)
Record balance_report : Type := mk_balance {
  balance : Py.number;
  bal_currency : option string;
  bal_note : option string;
  bal_error : option string
}.

Definition msg_balance_failed : string := "Failed to fetch balance".

(** The answer of an [except] branch. *)
Definition balance_error (e : string) : balance_report :=
  mk_balance (Py.Int 0) None None (Some e).

(** [response.get('chain_stats', {}).get('funded_txo_sum', 0) / 100000000] *)
Definition funded_btc (stats : Py.field chain_stats) : Py.raising float :=
  match Py.get_default stats (mk_chain_stats Py.Absent) with
  | Some stats => Py.truediv_get (funded_txo_sum stats) 0 100000000
  | None => Py.Raises Py.msg_none_get
  end.

(** [_get_btc_balance] *)
Definition _get_btc_balance (api : balance_api) (address : string) : balance_report :=
  match _make_request (blockstream_address api address) with
  | Some (AddressInfo stats) =>
      match funded_btc stats with
      | Py.Value balance => mk_balance (Py.Float balance) (Some "BTC") None None
      | Py.Raises e => balance_error e
      end
  | Some EmptyObject => balance_error msg_balance_failed
  | None => balance_error msg_balance_failed
  end.

(** [_get_tron_usdt_balance] *)
Definition _get_tron_usdt_balance (api : balance_api) (address : string) : balance_report :=
  match _make_request (trongrid_trc20_latest api address usdt_contract_tron) with
  | Some response =>
      if trc_success response then
        mk_balance (Py.Int 0) (Some "USDT_TRC20")
                   (Some "Balance calculation requires full transaction history") None
      else balance_error msg_balance_failed
  | None => balance_error msg_balance_failed
  end.

(** [_get_eth_usdt_balance] *)
Definition _get_eth_usdt_balance (api : balance_api) (address : string) : balance_report :=
  match _make_request (etherscan_tokenbalance api usdt_contract_eth address) with
  | Some response =>
      if bool_decide (bal_status response = Some "1") then
        match Py.float_get (bal_result response) 0 with
        | Py.Value result =>
            mk_balance (Py.Float (PrimFloat.div result (Py.float_of_Z 1000000)))
                       (Some "USDT_ERC20") None None
        | Py.Raises e => balance_error e
        end
      else balance_error msg_balance_failed
  | None => balance_error msg_balance_failed
  end.

(** [_get_bsc_usdt_balance] *)
Definition _get_bsc_usdt_balance (api : balance_api) (address : string) : balance_report :=
  match _make_request (bscscan_tokenbalance api usdt_contract_bsc address) with
  | Some response =>
      if bool_decide (bal_status response = Some "1") then
        match Py.float_get (bal_result response) 0 with
        | Py.Value result =>
            mk_balance (Py.Float (PrimFloat.div result (Py.float_of_Z 1000000000000000000)))
                       (Some "USDT_BEP20") None None
        | Py.Raises e => balance_error e
        end
      else balance_error msg_balance_failed
  | None => balance_error msg_balance_failed
  end.

(** [get_address_balance(currency, address, network=None)] *)
Definition get_address_balance (api : balance_api) (currency address : string)
    (network : option string) : balance_report :=
  let currency := Py.upper currency in
  if String.eqb currency "BTC" then _get_btc_balance api address
  else if String.eqb currency "USDT" then
    if bool_decide (network = Some "TRC20") then _get_tron_usdt_balance api address
    else if bool_decide (network = Some "ERC20") then _get_eth_usdt_balance api address
    else if bool_decide (network = Some "BEP20") then _get_bsc_usdt_balance api address
    else _get_tron_usdt_balance api address
  else balance_error ("Unsupported currency: " ++ currency).

(** What an upstream answer reports for the balance of [address] on
    network [n]. *)
Inductive raw_balance : Type :=
| NotAccepted                  (* no 200 answer, the empty object, a status other
                                  than 1; always on TRON *)
| NullAmount                   (* an accepted answer in which [chain_stats],
                                  [funded_txo_sum] or [result] is null *)
| RawAmount (raw : Z).         (* Blockstream's [funded_txo_sum], the [result] of a
                                  [tokenbalance] answer; a missing key counts as 0 *)

Definition read_raw (raw : Py.field Z) : raw_balance :=
  match Py.get_default raw 0%Z with
  | Some z => RawAmount z
  | None => NullAmount
  end.

Definition fetched_raw_balance (n : ChainSpec.network) (api : balance_api)
    (address : string) : raw_balance :=
  match n with
  | ChainSpec.BTC =>
      match ChainSpec.fetched (blockstream_address api address) with
      | Some (AddressInfo stats) =>
          match Py.get_default stats (mk_chain_stats Py.Absent) with
          | Some stats => read_raw (funded_txo_sum stats)
          | None => NullAmount
          end
      | _ => NotAccepted
      end
  | ChainSpec.ERC20_USDT =>
      match ChainSpec.fetched (etherscan_tokenbalance api usdt_contract_eth address) with
      | Some response =>
          if bool_decide (bal_status response = Some "1")
          then read_raw (bal_result response) else NotAccepted
      | None => NotAccepted
      end
  | ChainSpec.BEP20_USDT =>
      match ChainSpec.fetched (bscscan_tokenbalance api usdt_contract_bsc address) with
      | Some response =>
          if bool_decide (bal_status response = Some "1")
          then read_raw (bal_result response) else NotAccepted
      | None => NotAccepted
      end
  | ChainSpec.TRC20_USDT => NotAccepted
  end.

(** The balance query of the source for each network. *)
Definition balance_on (n : ChainSpec.network) (api : balance_api) (address : string)
    : balance_report :=
  match n with
  | ChainSpec.BTC => get_address_balance api "BTC" address None
  | ChainSpec.ERC20_USDT => get_address_balance api "USDT" address (Some "ERC20")
  | ChainSpec.TRC20_USDT => get_address_balance api "USDT" address (Some "TRC20")
  | ChainSpec.BEP20_USDT => get_address_balance api "USDT" address (Some "BEP20")
  end.

End Balance.

(* ===================================================================== *)
(** ** services/payment_service.py: currencies and fees *)
(* ===================================================================== *)

Module PaymentInfo.
Import PaymentSvc.

(** The two informational NowPayments endpoints.  [/estimate] is asked
    without parameters: the [params] dictionary of the source is built and
    not sent. *)
Record estimate_response : Type := mk_estimate {
  est_estimated_amount : option Q;
  est_network_fee : Py.field Q;
  est_service_fee : Py.field Q
}.

Record info_api : Type := mk_info_api {
  nowpayments_get_currencies : Blockchain.http_outcome (list string);   (* 'currencies', absent = [] *)
  nowpayments_get_estimate : Blockchain.http_outcome estimate_response
}.

Record currency_info : Type := mk_currency_info {
  ci_currency : string;
  ci_name : string;
  ci_network : string;
  ci_min_amount : Q
}.

Definition manual_currencies : list currency_info :=
  [mk_currency_info "BTC" "Bitcoin" "BTC" (1 # 10000);
   mk_currency_info "USDT" "Tether (TRC20)" "TRC20" 1;
   mk_currency_info "USDT" "Tether (ERC20)" "ERC20" 1].

(** [get_supported_currencies] *)
Definition get_supported_currencies (svc : PaymentService) (api : info_api)
    : list currency_info :=
  let attempt : result (list currency_info) :=
    if Py.truthy (nowpayments_api_key svc) then
      rbind (_make_nowpayments_request (nowpayments_get_currencies api))
        (fun currencies =>
           Returned (map (fun currency => mk_currency_info currency currency "auto" (1 # 1000))
                         currencies))
    else Returned manual_currencies in
  match attempt with
  | Returned l => l
  | Thrown _ => []
  end.

Record fee_estimate : Type := mk_fee {
  estimated_amount : option Q;
  fee_currency : string;
  network_fee : option Q;
  service_fee : option Q
}.

(** The [fee_estimates] dictionary of the manual branch. *)
Definition fee_estimates (amount : Q) : gmap string Q :=
  list_to_map [("BTC", (amount * (1 # 1000))%Q);
               ("USDT_TRC20", 1%Q);
               ("USDT_ERC20", 5%Q)].

(** [estimate_network_fee(currency, amount)] *)
Definition estimate_network_fee (svc : PaymentService) (api : info_api)
    (currency : string) (amount : Q) : fee_estimate :=
  let attempt : result fee_estimate :=
    if Py.truthy (nowpayments_api_key svc) then
      rbind (_make_nowpayments_request (nowpayments_get_estimate api))
        (fun response =>
           Returned (mk_fee (est_estimated_amount response) (Py.upper currency)
                            (Py.get_default (est_network_fee response) 0%Q)
                            (Py.get_default (est_service_fee response) 0%Q)))
    else
      Returned (mk_fee (Some amount) (Py.upper currency)
                       (Some (default 0%Q (fee_estimates amount !! Py.upper currency)))
                       (Some 0%Q)) in
  match attempt with
  | Returned r => r
  | Thrown _ => mk_fee (Some amount) (Py.upper currency) (Some 0%Q) (Some 0%Q)
  end.

(** The status words that occur on the right of the two status maps,
    and the fallback word. *)
Definition status_vocabulary : list string :=
  ["pending"; "confirming"; "confirmed"; "partial"; "completed"; "failed";
   "refunded"; "expired"; "unknown"].

(** The 200 answer of an upstream call, if there is one. *)
Definition answered {A} (o : Blockchain.http_outcome A) : option A :=
  match o with
  | Blockchain.HttpResponse code body => if bool_decide (code = 200%Z) then Some body else None
  | Blockchain.HttpRaises _ => None
  end.

End PaymentInfo.

(* ===================================================================== *)
(** ** Concrete records and upstream answers used in the examples *)
(* ===================================================================== *)

Module Examples.

Definition noon : datetime := mk_datetime 2024 3 5 12 0 7 0.

(** A pending payment that already carries a transaction id. *)
Definition pay1 : Payment :=
  new_Payment "p-1" noon 42 "manual" (50 # 1) "usdt" (Some "tx_a") ∅.

(** The same payment after completion. *)
Definition pay1_completed : Payment := set_status "completed" pay1.

Definition db_pending : database := mk_db {[ "p-1" := pay1 ]} [].
Definition db_completed : database := mk_db {[ "p-1" := pay1_completed ]} [].

Definition body_tx_b : request_body := mk_body Py.Absent (Py.Present (Some "tx_b")).

(** A fresh pending payment, no transaction observed yet. *)
Definition pay_fresh : Payment :=
  new_Payment "p-2" noon 42 "manual" (1 # 100) "btc" None ∅.

Definition db_fresh : database := mk_db {[ "p-2" := pay_fresh ]} [].

(** A request body with ["transaction_id": null]. *)
Definition body_tx_null : request_body := mk_body Py.Absent (Py.Present None).

(** Both payments in one table. *)
Definition db_two : database := mk_db (<[ "p-2" := pay_fresh ]> {[ "p-1" := pay1 ]}) [].

(** *** Block explorers *)

Import Blockchain.

Definition btc_addr : string := "14MxL4x95TRTYJroWe8bWy4wSLq6c4WCr5".
Definition tron_addr : string := "TJkLFH53mJUzaTMxLtYqa28jzL9CppJotV".
Definition eth_addr : string := "0xdd3a7fd3a23c7bf18a9956ca1a1cc8f35d4fce25".

(** The amounts asked for: 0.01 BTC, 50 USDT, 5 USDT. *)
Definition btc_0_01 : float := (1 / 100)%float.
Definition usdt_50 : float := 50%float.
Definition usdt_5 : float := 5%float.

(** Every explorer unreachable. *)
Definition api_down : chain_api :=
  mk_chain_api (fun _ => HttpRaises "timeout") (fun _ => HttpRaises "timeout")
               (fun _ => HttpRaises "timeout") (fun _ _ => HttpRaises "timeout")
               (fun _ => HttpRaises "timeout").

Definition with_blockstream (txs : list btc_tx) : chain_api :=
  mk_chain_api (fun _ => HttpResponse 200 txs) (fun _ => HttpRaises "timeout")
               (fun _ => HttpRaises "timeout") (fun _ _ => HttpRaises "timeout")
               (fun _ => HttpRaises "timeout").

Definition in_block : Py.field btc_status :=
  Py.Present (Some (mk_btc_status true (Some 800000%Z))).

(** One confirmed Bitcoin transaction paying [sats] to the wallet. *)
Definition btc_paying (sats : Z) : btc_tx :=
  mk_btc_tx (Some "f4184fc5")
            (Py.Present (Some [mk_vout (Some btc_addr) (Py.Present (Some sats))]))
            in_block.

(** 1 000 000 satoshis = 0.01 BTC arrive. *)
Definition api_btc_paid : chain_api := with_blockstream [btc_paying 1000000].

(** 500 000 satoshis = 0.005 BTC arrive. *)
Definition api_btc_half : chain_api := with_blockstream [btc_paying 500000].

(** The wallet has no transaction yet: status 200, body [[]]. *)
Definition api_btc_empty : chain_api := with_blockstream [].

(** A confirmed transaction whose first output to the wallet carries
    ["value": null] and whose second output pays 0.01 BTC. *)
Definition btc_null_then_paid : btc_tx :=
  mk_btc_tx (Some "a1075db5")
            (Py.Present (Some [mk_vout (Some btc_addr) (Py.Present None);
                               mk_vout (Some btc_addr) (Py.Present (Some 1000000%Z))]))
            in_block.

Definition api_btc_null_value : chain_api := with_blockstream [btc_null_then_paid].

Definition with_etherscan (txs : list tokentx) : chain_api :=
  mk_chain_api (fun _ => HttpRaises "timeout")
               (fun _ => HttpResponse 200
                           (mk_tokentx_response (Some "1") (Py.Present (Some txs))))
               (fun _ => HttpRaises "timeout") (fun _ _ => HttpRaises "timeout")
               (fun _ => HttpRaises "timeout").

Definition with_bscscan (txs : list tokentx) : chain_api :=
  mk_chain_api (fun _ => HttpRaises "timeout") (fun _ => HttpRaises "timeout")
               (fun _ => HttpResponse 200
                           (mk_tokentx_response (Some "1") (Py.Present (Some txs))))
               (fun _ _ => HttpRaises "timeout") (fun _ => HttpRaises "timeout").

(** Etherscan answers status 1 with an empty result list. *)
Definition api_eth_empty : chain_api := with_etherscan [].

(** 50 USDT (6 decimals) reach the wallet on Ethereum, 12 confirmations;
    the recipient is spelled with capitals. *)
Definition api_eth_paid : chain_api :=
  with_etherscan [mk_tokentx (Some "0xDD3A7FD3A23C7BF18A9956CA1A1CC8F35D4FCE25")
                             (Py.Present (Some 50000000%Z)) (Py.Present (Some 12%Z))
                             (Some "0xeth1") (Some 19000000%Z)].

(** 49.999999999999999999 USDT (18 decimals), one unit of the last
    decimal short of 50, reach the wallet on BSC with 12 confirmations. *)
Definition bsc_short : Z := 49999999999999999999.

Definition api_bsc_short : chain_api :=
  with_bscscan [mk_tokentx (Some eth_addr) (Py.Present (Some bsc_short))
                           (Py.Present (Some 12%Z)) (Some "0xbsc1") (Some 36000000%Z)].

(** TRON, newest first: 10 USDT, then 60 USDT, then 50 USDT, all to the
    wallet and all in a block. *)
Definition tron_data : list trc20_tx :=
  [mk_trc20 (Some tron_addr) (Py.Present (Some 10000000%Z)) (Some "trx_1") (Some 61000003%Z);
   mk_trc20 (Some tron_addr) (Py.Present (Some 60000000%Z)) (Some "trx_2") (Some 61000002%Z);
   mk_trc20 (Some tron_addr) (Py.Present (Some 50000000%Z)) (Some "trx_3") (Some 61000001%Z)].

Definition with_trongrid (lookup : http_outcome tron_tx_body) : chain_api :=
  mk_chain_api (fun _ => HttpRaises "timeout") (fun _ => HttpRaises "timeout")
               (fun _ => HttpRaises "timeout")
               (fun _ _ => HttpResponse 200 (mk_trc20_response true (Py.Present (Some tron_data))))
               (fun _ => lookup).

Definition api_tron : chain_api :=
  with_trongrid (HttpResponse 200 (mk_tron_body (Py.Present (Some 61000002%Z)) Py.Absent)).

(** The same TRON account while the transaction lookup is unreachable. *)
Definition api_tron_blind : chain_api := with_trongrid (HttpRaises "timeout").

(** The same TRON account while the lookup answers ["blockNumber": null]. *)
Definition api_tron_null_block : chain_api :=
  with_trongrid (HttpResponse 200 (mk_tron_body (Py.Present None) Py.Absent)).

Definition tron_transfers : list ChainSpec.fetched_record :=
  map (ChainSpec.tron_transfer api_tron) tron_data.

(** *** Invoicing services *)

Import PaymentSvc.

Definition providers_down : provider_api :=
  mk_provider_api (fun _ => HttpRaises "timeout") (fun _ => HttpRaises "timeout")
                  (fun _ => HttpRaises "timeout") (fun _ => HttpRaises "timeout").

(** An invoice answer of BTCPay. *)
Definition bp_77 : btcpay_invoice_response :=
  mk_bp_invoice (Some "bp-77") (Some "https://btcpay.example/i/bp-77")
                (Py.Present (Some {[ "BTC" := "bc1qexample" ]}))
                (Py.Present (Some [Some (mk_crypto_info (Some (1 # 100)))]))
                (Some "2024-03-06T12:00:07").

(** The same answer with ["cryptoInfo": null]. *)
Definition bp_null_info : btcpay_invoice_response :=
  mk_bp_invoice (Some "bp-78") (Some "https://btcpay.example/i/bp-78")
                (Py.Present (Some {[ "BTC" := "bc1qexample" ]}))
                (Py.Present None)
                (Some "2024-03-06T12:00:07").

Definition with_btcpay (response : btcpay_invoice_response) : provider_api :=
  mk_provider_api (fun _ => HttpRaises "timeout") (fun _ => HttpRaises "timeout")
                  (fun _ => HttpResponse 200 response)
                  (fun _ => HttpRaises "timeout").

(** NowPayments unreachable, BTCPay answering. *)
Definition btcpay_up : provider_api :=
  mk_provider_api (fun _ => HttpRaises "timeout") (fun _ => HttpRaises "timeout")
                  (fun _ => HttpResponse 200 bp_77)
                  (fun _ => HttpRaises "timeout").

(** NowPayments reporting a partial payment. *)
Definition nowpayments_partial : provider_api :=
  mk_provider_api (fun _ => HttpRaises "timeout")
                  (fun _ => HttpResponse 200
                              (mk_np_status (Py.Present (Some "partially_paid"))
                                            (Some (5 # 1000)) (Some (1 # 100))
                                            (Some "btc") (Some "np-5") None))
                  (fun _ => HttpRaises "timeout") (fun _ => HttpRaises "timeout").

(** NowPayments reporting a finished payment. *)
Definition nowpayments_finished : provider_api :=
  mk_provider_api (fun _ => HttpRaises "timeout")
                  (fun _ => HttpResponse 200
                              (mk_np_status (Py.Present (Some "finished"))
                                            (Some (1 # 100)) (Some (1 # 100))
                                            (Some "btc") (Some "np-6") None))
                  (fun _ => HttpRaises "timeout") (fun _ => HttpRaises "timeout").

(** NowPayments reporting finished for an invoice of 0.01 BTC on which
    0.005 BTC were paid. *)
Definition nowpayments_underpaid : provider_api :=
  mk_provider_api (fun _ => HttpRaises "timeout")
                  (fun _ => HttpResponse 200
                              (mk_np_status (Py.Present (Some "finished"))
                                            (Some (5 # 1000)) (Some (1 # 100))
                                            (Some "btc") (Some "np-7") None))
                  (fun _ => HttpRaises "timeout") (fun _ => HttpRaises "timeout").

(** NowPayments reporting a status outside its table, and a null one. *)
Definition nowpayments_status (native : Py.field string) : provider_api :=
  mk_provider_api (fun _ => HttpRaises "timeout")
                  (fun _ => HttpResponse 200
                              (mk_np_status native None None None (Some "np-8") None))
                  (fun _ => HttpRaises "timeout") (fun _ => HttpRaises "timeout").

Definition svc_all : PaymentService :=
  mk_service (Some "np-key") (Some "bp-key") (Some "https://btcpay.example").

Definition svc_none : PaymentService := mk_service None None None.

(** The informational NowPayments endpoints unreachable. *)
Definition info_down : PaymentInfo.info_api :=
  PaymentInfo.mk_info_api (HttpRaises "timeout") (HttpRaises "timeout").

(** Blockstream reporting 2.5 BTC received by the wallet; the token
    explorers unreachable. *)
Definition balances_btc : Balance.balance_api :=
  Balance.mk_balance_api
    (fun _ => HttpResponse 200
                (Balance.AddressInfo
                   (Py.Present (Some (Balance.mk_chain_stats (Py.Present (Some 250000000%Z)))))))
    (fun _ _ => HttpRaises "timeout") (fun _ _ => HttpRaises "timeout")
    (fun _ _ => HttpRaises "timeout").

(** Blockstream reporting ["funded_txo_sum": null]. *)
Definition balances_null : Balance.balance_api :=
  Balance.mk_balance_api
    (fun _ => HttpResponse 200
                (Balance.AddressInfo
                   (Py.Present (Some (Balance.mk_chain_stats (Py.Present None))))))
    (fun _ _ => HttpRaises "timeout") (fun _ _ => HttpRaises "timeout")
    (fun _ _ => HttpRaises "timeout").

Definition rnd0 : entropy := mk_entropy "1a2b3c4d" (mk_datetime 2024 3 6 12 0 7 0).

(** *** Users *)

Definition admin : Auth.User := Auth.mk_User "u-1" "admin" true.
Definition disabled : Auth.User := Auth.mk_User "u-2" "admin" false.

End Examples.

(* ===================================================================== *)
(** * Properties *)
(* ===================================================================== *)

(** ** Python helpers *)

Lemma str_in_In (x : string) (xs : list string) :
  Py.str_in x xs = true <-> In x xs.
Proof.
  induction xs as [|y ys IH]; simpl.
  - split; [discriminate | tauto].
  - rewrite orb_true_iff, String.eqb_eq, IH. intuition congruence.
Qed.

Lemma str_in_false (x : string) (xs : list string) :
  Py.str_in x xs = false <-> ~ In x xs.
Proof.
  rewrite <- str_in_In. destruct (Py.str_in x xs); intuition congruence.
Qed.

Lemma random_choice_sync (r : nat) :
  In (Py.random_choice sync_results r) sync_results.
Proof.
  unfold Py.random_choice. apply nth_In.
  apply Nat.mod_upper_bound. discriminate.
Qed.

(** ** [Payment.update_status] *)

Lemma update_status_accept (s : string) (t : option string) (now : datetime) (p : Payment) :
  In s valid_statuses ->
  update_status s t now p =
    (true, set_updated_at now
             (if Py.truthy t then set_transaction_id t (set_status s p)
              else set_status s p)).
Proof.
  intros Hin. unfold update_status.
  apply str_in_In in Hin. now rewrite Hin.
Qed.

Lemma update_status_reject (s : string) (t : option string) (now : datetime) (p : Payment) :
  ~ In s valid_statuses -> update_status s t now p = (false, p).
Proof.
  intros Hin. unfold update_status.
  apply str_in_false in Hin. now rewrite Hin.
Qed.

Lemma update_status_status (s : string) (t : option string) (now : datetime) (p : Payment) :
  status (snd (update_status s t now p)) = s /\ In s valid_statuses
  \/ update_status s t now p = (false, p).
Proof.
  destruct (Py.str_in s valid_statuses) eqn:E.
  - left. apply str_in_In in E. rewrite (update_status_accept _ _ _ _ E).
    split; [|exact E]. simpl. now destruct (Py.truthy t).
  - right. apply update_status_reject. now apply str_in_false.
Qed.

Lemma update_status_txid (s : string) (t : option string) (now : datetime) (p : Payment) :
  transaction_id (snd (update_status s t now p)) = transaction_id p
  \/ (transaction_id (snd (update_status s t now p)) = t /\ Py.truthy t = true).
Proof.
  unfold update_status.
  destruct (Py.str_in s valid_statuses); [|now left].
  destruct (Py.truthy t) eqn:E; simpl; [right | left]; auto.
Qed.

(** C10.  [update_status] accepts exactly the four statuses pending,
    completed, failed and cancelled: it then returns true and writes the
    status; for any other string, the canonical confirming, confirmed,
    expired, partial and unknown included, it returns false and leaves the
    whole record (status, transaction id and update time with it)
    unchanged.  So a record whose status is one of the four keeps a status
    among the four across every call. *)
Theorem update_status_four_statuses
    (p : Payment) (s : string) (t : option string) (now : datetime) :
  let four := ["pending"; "completed"; "failed"; "cancelled"] in
  (fst (update_status s t now p) = true <-> In s four)
  /\ (In s four -> status (snd (update_status s t now p)) = s)
  /\ (~ In s four -> update_status s t now p = (false, p))
  /\ Forall (fun s' => update_status s' t now p = (false, p))
            ["confirming"; "confirmed"; "expired"; "partial"; "unknown"]
  /\ (In (status p) four -> In (status (snd (update_status s t now p))) four).
Proof.
  intros four. change four with valid_statuses.
  repeat split.
  - intros H. destruct (update_status_status s t now p) as [[_ Hin]|Hrej]; [exact Hin|].
    rewrite Hrej in H. discriminate.
  - intros Hin. now rewrite (update_status_accept _ _ _ _ Hin).
  - intros Hin. rewrite (update_status_accept _ _ _ _ Hin). simpl. now destruct (Py.truthy t).
  - apply update_status_reject.
  - repeat constructor.
  - intros Hp. destruct (update_status_status s t now p) as [[Hs Hin]|Hrej].
    + now rewrite Hs.
    + now rewrite Hrej.
Qed.

Lemma update_status_four_statuses_witness :
  In "failed" ["pending"; "completed"; "failed"; "cancelled"]
  /\ status (snd (update_status "failed" None Examples.noon Examples.pay1)) = "failed"
  /\ ~ In "expired" ["pending"; "completed"; "failed"; "cancelled"]
  /\ update_status "expired" None Examples.noon Examples.pay1 = (false, Examples.pay1).
Proof.
  pose proof (update_status_four_statuses Examples.pay1 "failed" None Examples.noon) as Hf.
  pose proof (update_status_four_statuses Examples.pay1 "expired" None Examples.noon) as He.
  cbv zeta in Hf, He.
  destruct Hf as (_ & Hf & _). destruct He as (_ & _ & He & _).
  assert (H1 : In "failed" ["pending"; "completed"; "failed"; "cancelled"])
    by (simpl; tauto).
  assert (H2 : ~ In "expired" ["pending"; "completed"; "failed"; "cancelled"])
    by (simpl; intuition discriminate).
  exact (conj H1 (conj (Hf H1) (conj H2 (He H2)))).
Defined.

(** ** The routes, one record at a time *)

(** What [force_confirm_payment] does to the record it addresses. *)
Lemma force_confirm_payment_cases
    (u pid : string) (body : request_body) (now : datetime) (db : database) (p : Payment) :
  payments db !! pid = Some p ->
  (status p = "completed" /\ force_confirm_payment u pid body now db = (400%Z, db))
  \/ (status p <> "completed" /\ payment_data p = TextOther
      /\ force_confirm_payment u pid body now db = (500%Z, db))
  \/ (status p <> "completed" /\ payment_data p <> TextOther
      /\ exists p' e,
           force_confirm_payment u pid body now db = (200%Z, commit db pid p' e)
           /\ status p' = "completed"
           /\ transaction_id p' =
                if Py.truthy (force_confirm_txid body now)
                then force_confirm_txid body now else transaction_id p).
Proof.
  intros Hp. unfold force_confirm_payment. rewrite Hp.
  destruct (String.eqb_spec (status p) "completed") as [Hc|Hc]; [left; auto|right].
  unfold bind, mark_completedM, mark_completed, get_payment_data.
  rewrite (update_status_accept "completed" _ now p) by (simpl; tauto).
  destruct (payment_data p) eqn:Hd; simpl; rewrite ?Hd; simpl;
    destruct (Py.truthy (force_confirm_txid body now)) eqn:Ht; simpl; rewrite ?Hd; simpl;
    first [ left; split; [exact Hc | split; reflexivity]
          | right; split; [exact Hc|]; split; [discriminate|];
            eexists _, _; split; [reflexivity|]; simpl; auto ].
Qed.

(** What [cancel_payment] does to the record it addresses. *)
Lemma cancel_payment_cases
    (u pid : string) (body : request_body) (now : datetime) (db : database) (p : Payment) :
  payments db !! pid = Some p ->
  (status p <> "pending" /\ cancel_payment u pid body now db = (400%Z, db))
  \/ (status p = "pending" /\ cancel_payment u pid body now db = (500%Z, db))
  \/ (status p = "pending"
      /\ exists p' e,
           cancel_payment u pid body now db = (200%Z, commit db pid p' e)
           /\ status p' = "cancelled"
           /\ transaction_id p' = transaction_id p).
Proof.
  intros Hp. unfold cancel_payment. rewrite Hp. simpl.
  destruct (String.eqb_spec (status p) "pending") as [Hc|Hc]; simpl; [right|left; auto].
  unfold cancel, bind, update_statusM, get_payment_data.
  destruct (Py.truthy (Py.get_default (body_reason body) "Cancelled by admin")).
  - destruct (payment_data p) eqn:Hd; simpl;
      first [ left; split; [exact Hc | reflexivity]
            | right; split; [exact Hc|]; eexists _, _; split; [reflexivity|]; simpl; auto ].
  - simpl. right. split; [exact Hc|]. eexists _, _. split; [reflexivity|]. simpl; auto.
Qed.

(** What [sync_payment] does to the record it addresses. *)
Lemma sync_payment_cases
    (u pid : string) (r : nat) (now : datetime) (db : database) (p : Payment) :
  payments db !! pid = Some p ->
  (payment_data p = TextOther /\ sync_payment u pid r now db = (500%Z, db))
  \/ (payment_data p <> TextOther
      /\ exists p' e,
           sync_payment u pid r now db = (200%Z, commit db pid p' e)
           /\ status p' = Py.random_choice sync_results r
           /\ transaction_id p' = transaction_id p).
Proof.
  intros Hp. unfold sync_payment. rewrite Hp.
  unfold bind, update_statusM, get_payment_data.
  rewrite (update_status_accept (Py.random_choice sync_results r) None now p).
  2:{ pose proof (random_choice_sync r) as H. unfold sync_results, valid_statuses in *.
      simpl in *. tauto. }
  destruct (payment_data p) eqn:Hd; simpl; rewrite ?Hd; simpl;
    first [ left; split; reflexivity
          | right; split; [discriminate|]; eexists _, _; split; [reflexivity|]; simpl; auto ].
Qed.

Lemma sync_payment_missing (u pid : string) (r : nat) (now : datetime) (db : database) :
  payments db !! pid = None -> sync_payment u pid r now db = (404%Z, db).
Proof. intros H. unfold sync_payment. now rewrite H. Qed.

Lemma cancel_payment_missing (u pid : string) (b : request_body) (now : datetime) (db : database) :
  payments db !! pid = None -> cancel_payment u pid b now db = (404%Z, db).
Proof. intros H. unfold cancel_payment. now rewrite H. Qed.

Lemma force_confirm_payment_missing (u pid : string) (b : request_body) (now : datetime)
    (db : database) :
  payments db !! pid = None -> force_confirm_payment u pid b now db = (404%Z, db).
Proof. intros H. unfold force_confirm_payment. now rewrite H. Qed.

Lemma payments_commit_eq (db : database) (pid : string) (p : Payment) (e : audit_entry) :
  payments (commit db pid p e) !! pid = Some p.
Proof. unfold commit; simpl. apply lookup_insert_eq. Qed.

Lemma payments_commit_ne (db : database) (pid pid' : string) (p : Payment) (e : audit_entry) :
  pid <> pid' -> payments (commit db pid p e) !! pid' = payments db !! pid'.
Proof. intros H. unfold commit; simpl. now apply lookup_insert_ne. Qed.

Lemma handle_record (req : request) (db : database) (pid : string) (p : Payment) :
  payments db !! pid = Some p ->
  exists p', payments (snd (handle req db)) !! pid = Some p'
             /\ (p' = p \/ request_effect req p p').
Proof.
  intros Hp.
  destruct req as [u tgt r now | u tgt body now | u tgt body now]; simpl.
  - destruct (payments db !! tgt) as [q|] eqn:Hq.
    + destruct (sync_payment_cases u tgt r now db q Hq)
        as [[_ ->] | [_ (q' & e & -> & Hs & Ht)]]; cbn [snd].
      * eauto.
      * destruct (decide (tgt = pid)) as [->|Hne].
        -- rewrite payments_commit_eq. exists q'. split; [reflexivity|].
           right. rewrite Hp in Hq. now inversion Hq; subst.
        -- rewrite payments_commit_ne by exact Hne. eauto.
    + rewrite sync_payment_missing by exact Hq. eauto.
  - destruct (payments db !! tgt) as [q|] eqn:Hq.
    + destruct (cancel_payment_cases u tgt body now db q Hq)
        as [[_ ->] | [[_ ->] | [Hpend (q' & e & -> & Hs & Ht)]]]; cbn [snd].
      * eauto.
      * eauto.
      * destruct (decide (tgt = pid)) as [->|Hne].
        -- rewrite payments_commit_eq. exists q'. split; [reflexivity|].
           right. rewrite Hp in Hq. now inversion Hq; subst.
        -- rewrite payments_commit_ne by exact Hne. eauto.
    + rewrite cancel_payment_missing by exact Hq. eauto.
  - destruct (payments db !! tgt) as [q|] eqn:Hq.
    + destruct (force_confirm_payment_cases u tgt body now db q Hq)
        as [[_ ->] | [(_ & _ & ->) | (Hnc & _ & q' & e & -> & Hs & Ht)]]; cbn [snd].
      * eauto.
      * eauto.
      * destruct (decide (tgt = pid)) as [->|Hne].
        -- rewrite payments_commit_eq. exists q'. split; [reflexivity|].
           right. rewrite Hp in Hq. now inversion Hq; subst.
        -- rewrite payments_commit_ne by exact Hne. eauto.
    + rewrite force_confirm_payment_missing by exact Hq. eauto.
Qed.

(** ** Terminal statuses *)

Lemma serve_keeps_terminal (reqs : list request) :
  forall (db : database) (pid : string) (p : Payment),
    payments db !! pid = Some p ->
    is_terminal (status p) = true ->
    forallb (fun req => negb (is_sync req)) reqs = true ->
    exists p', payments (serve reqs db) !! pid = Some p'
               /\ is_terminal (status p') = true.
Proof.
  induction reqs as [|req rest IH]; intros db pid p Hp Hterm Hns; simpl.
  - eauto.
  - simpl in Hns. apply andb_true_iff in Hns as [Hreq Hrest].
    destruct (handle_record req db pid p Hp) as (p1 & Hp1 & Heff).
    apply (IH _ pid p1 Hp1); [|exact Hrest].
    destruct Heff as [->|Heff]; [exact Hterm|].
    destruct req; simpl in Hreq, Heff; try discriminate.
    + destruct Heff as (_ & -> & _). reflexivity.
    + destruct Heff as (_ & -> & _). reflexivity.
Qed.

(** C1 (as the code has it).  A terminal record stays terminal under every
    sequence of cancel and force-confirm requests: cancel acts on pending
    records only and force-confirm only ever writes completed.  A sync
    request carries no such guard: it leaves the record alone or stores
    the status it drew among completed, pending and failed, whatever the
    stored status was. *)
Theorem terminal_kept_except_by_sync
    (db : database) (pid : string) (s : string) :
  status_of db pid = Some s ->
  is_terminal s = true ->
  (forall reqs,
      forallb (fun req => negb (is_sync req)) reqs = true ->
      exists s', status_of (serve reqs db) pid = Some s' /\ is_terminal s' = true)
  /\ (forall u r now,
         status_of (snd (sync_payment u pid r now db)) pid = Some s
         \/ status_of (snd (sync_payment u pid r now db)) pid
            = Some (Py.random_choice sync_results r)).
Proof.
  unfold status_of. intros Hs Hterm.
  destruct (payments db !! pid) as [p|] eqn:Hp; [|discriminate].
  simpl in Hs. injection Hs as <-.
  split.
  - intros reqs Hns.
    destruct (serve_keeps_terminal reqs db pid p Hp Hterm Hns) as (p' & -> & Ht).
    simpl. eauto.
  - intros u r now.
    destruct (handle_record (ReqSync u pid r now) db pid p Hp) as (p' & Hp' & Heff).
    simpl in Hp'. rewrite Hp'. simpl.
    destruct Heff as [->|[-> _]]; auto.
Qed.

Lemma terminal_kept_except_by_sync_witness :
  exists s', status_of (serve [ReqForceConfirm "admin" "p-1" Examples.body_tx_b Examples.noon;
                               ReqCancel "admin" "p-1" empty_body Examples.noon]
                              Examples.db_completed) "p-1" = Some s'
             /\ is_terminal s' = true.
Proof.
  refine (proj1 (terminal_kept_except_by_sync Examples.db_completed "p-1" "completed" _ _) _ _);
    vm_compute; reflexivity.
Defined.

(** C1, counterexample.  A completed record is set back to pending by a
    sync request whose draw is pending. *)
Lemma terminal_left_by_sync :
  status_of Examples.db_completed "p-1" = Some "completed"
  /\ is_terminal "completed" = true
  /\ Py.random_choice sync_results 1 = "pending"
  /\ status_of (serve [ReqSync "admin" "p-1" 1 Examples.noon] Examples.db_completed) "p-1"
     = Some "pending"
  /\ is_terminal "pending" = false.
Proof. vm_compute. repeat split; reflexivity. Qed.

(** ** Completion and the transaction id *)

(** C3 (as the code has it).  A transition into completed needs no
    transaction id: without one (none given, or the empty string)
    [mark_completed] reports success, the status becomes completed and the
    stored transaction id is kept as it was.  A transition into confirmed
    is refused for every record, with or without a transaction id, and the
    record is left unchanged. *)
Theorem completed_without_transaction_id
    (p : Payment) (now : datetime) :
  (fst (mark_completed None now p) = true
   /\ status (snd (mark_completed None now p)) = "completed"
   /\ transaction_id (snd (mark_completed None now p)) = transaction_id p)
  /\ (fst (mark_completed (Some "") now p) = true
      /\ status (snd (mark_completed (Some "") now p)) = "completed"
      /\ transaction_id (snd (mark_completed (Some "") now p)) = transaction_id p)
  /\ (forall t, update_status "confirmed" t now p = (false, p)).
Proof.
  unfold mark_completed.
  rewrite !(update_status_accept "completed") by (simpl; tauto).
  simpl. repeat split.
Qed.

(** C3, counterexample.  A pending record is completed by [mark_completed]
    called without a transaction id, and the call reports success; the
    force-confirm route does the same when the request body carries a null
    transaction id. *)
Lemma completed_without_transaction_id_accepted :
  status Examples.pay_fresh = "pending"
  /\ transaction_id Examples.pay_fresh = None
  /\ fst (mark_completed None Examples.noon Examples.pay_fresh) = true
  /\ status (snd (mark_completed None Examples.noon Examples.pay_fresh)) = "completed"
  /\ fst (force_confirm_payment "admin" "p-2" Examples.body_tx_null Examples.noon
                                Examples.db_fresh) = 200%Z
  /\ status_of (snd (force_confirm_payment "admin" "p-2" Examples.body_tx_null Examples.noon
                                           Examples.db_fresh)) "p-2" = Some "completed"
  /\ transaction_id_of (snd (force_confirm_payment "admin" "p-2" Examples.body_tx_null
                                                   Examples.noon Examples.db_fresh)) "p-2"
     = Some None.
Proof. vm_compute. repeat split; reflexivity. Qed.

Lemma serve_keeps_transaction_id_set (reqs : list request) :
  forall (db : database) (pid : string) (p : Payment),
    payments db !! pid = Some p ->
    is_Some (transaction_id p) ->
    exists p', payments (serve reqs db) !! pid = Some p'
               /\ is_Some (transaction_id p').
Proof.
  induction reqs as [|req rest IH]; intros db pid p Hp Hset; simpl.
  - eauto.
  - destruct (handle_record req db pid p Hp) as (p1 & Hp1 & Heff).
    apply (IH _ pid p1 Hp1).
    destruct Heff as [->|Heff]; [exact Hset|].
    destruct req; simpl in Heff.
    + destruct Heff as (_ & ->). exact Hset.
    + destruct Heff as (_ & _ & ->). exact Hset.
    + destruct Heff as (_ & _ & ->).
      destruct (force_confirm_txid body now) as [t|] eqn:E; simpl.
      * destruct (negb (String.eqb t "")); [eauto | exact Hset].
      * exact Hset.
Qed.




(** ** The order of the doubles *)

Lemma SFcompare_antisym (x y : spec_float) :
  SFcompare y x = option_map CompOpp (SFcompare x y).
Proof.
  destruct x as [sx|sx| |sx mx ex], y as [sy|sy| |sy my ey]; simpl;
    try reflexivity;
    try (destruct sx; reflexivity); try (destruct sy; reflexivity);
    try (destruct sx, sy; reflexivity).
  assert (Hm : Pos.compare_cont Eq my mx = CompOpp (Pos.compare_cont Eq mx my))
    by (rewrite Pos.compare_cont_antisym; reflexivity).
  rewrite Hm, (Z.compare_antisym ex ey).
  destruct sx, sy; simpl; try reflexivity;
    destruct (ex ?= ey)%Z; simpl; try reflexivity.
Qed.

Lemma SFltb_not_leb (x y : spec_float) : SFltb x y = true -> SFleb y x = false.
Proof.
  unfold SFltb, SFleb. rewrite (SFcompare_antisym x y).
  destruct (SFcompare x y) as [[| |]|]; simpl; congruence.
Qed.

Lemma SFleb_key (x y : spec_float) :
  SFleb x y = true <->
  match Py.float_key x, Py.float_key y with
  | Some k1, Some k2 => Py.key_le k1 k2
  | _, _ => False
  end.
Proof.
  assert (Hpos : forall p q, Pos.compare_cont Eq p q = Pos.compare p q) by reflexivity.
  unfold SFleb.
  destruct x as [sx|sx| |sx mx ex], y as [sy|sy| |sy my ey];
    try destruct sx; try destruct sy; cbn -[Z.compare Pos.compare_cont];
    rewrite ?Hpos;
    try destruct (Z.compare_spec ex ey); try destruct (Pos.compare_spec mx my);
    cbn; split; intros Hle; try reflexivity; try discriminate; try tauto; try lia.
Qed.

Lemma SFleb_trans (x y z : spec_float) :
  SFleb x y = true -> SFleb y z = true -> SFleb x z = true.
Proof.
  rewrite !SFleb_key.
  destruct (Py.float_key x) as [[[a1 b1] c1]|], (Py.float_key y) as [[[a2 b2] c2]|],
           (Py.float_key z) as [[[a3 b3] c3]|];
    simpl; try tauto.
  lia.
Qed.

(** [>=] on floats is transitive. *)
Lemma float_leb_trans (x y z : float) :
  PrimFloat.leb x y = true -> PrimFloat.leb y z = true -> PrimFloat.leb x z = true.
Proof. rewrite !leb_spec. apply SFleb_trans. Qed.

(** A float strictly below another is not at least that other. *)
Lemma float_ltb_not_leb (x y : float) :
  PrimFloat.ltb x y = true -> PrimFloat.leb y x = false.
Proof. rewrite ltb_spec, leb_spec. apply SFltb_not_leb. Qed.

(** ** The chain verifiers against the contract *)

Section Refinement.
Import Blockchain ChainSpec.

Lemma fetched_make_request {A} (o : http_outcome A) : _make_request o = fetched o.
Proof.
  destruct o as [e|code body]; simpl; [reflexivity|].
  destruct (Z.eqb_spec code 200) as [->|Hne].
  - now rewrite bool_decide_eq_true_2.
  - now rewrite bool_decide_eq_false_2.
Qed.

Lemma float_to_human_btc (raw : Z) :
  float_to_human BTC raw = Py.int_truediv raw 100000000.
Proof. reflexivity. Qed.

Lemma float_to_human_hex (n : network) (raw : Z) :
  hex_chain n = true ->
  float_to_human n raw
  = Py.Value (PrimFloat.div (Py.float_of_Z raw) (Py.float_of_Z (hex_divisor n))).
Proof. destruct n; try discriminate; reflexivity. Qed.

Lemma float_to_human_tron (raw : Z) :
  float_to_human TRC20_USDT raw
  = Py.Value (PrimFloat.div (Py.float_of_Z raw) (Py.float_of_Z 1000000)).
Proof. reflexivity. Qed.

(** *** What an answer says about a list *)

Lemma answers_cons (n : network) (address : string) (amount : float)
    (record : fetched_record) (records : list fetched_record) (r : verify_result) :
  record_qualifies n address amount record = false ->
  answers n address amount records r ->
  answers n address amount (record :: records) r.
Proof.
  intros Hq. destruct r as [t a c b|reason|e]; simpl.
  - intros (pre & tr & post & -> & Ht & Hpre & Hr).
    exists (record :: pre), tr, post. simpl. rewrite Hq. auto.
  - intros [-> H]. rewrite Hq. auto.
  - auto.
Qed.

Lemma answers_app (n : network) (address : string) (amount : float)
    (l1 l2 : list fetched_record) (r : verify_result) :
  forallb (fun x => negb (record_qualifies n address amount x)) l1 = true ->
  answers n address amount l2 r ->
  answers n address amount (l1 ++ l2) r.
Proof.
  induction l1 as [|x l1 IH]; simpl; [auto|].
  intros H Ha. apply andb_true_iff in H as [Hx Hl].
  apply answers_cons; [now apply negb_true_iff | auto].
Qed.

Lemma answers_app_l (n : network) (address : string) (amount : float)
    (l1 l2 : list fetched_record) (r : verify_result) :
  result_reason r = None ->
  answers n address amount l1 r ->
  answers n address amount (l1 ++ l2) r.
Proof.
  destruct r as [t a c b|reason|e]; simpl; [|discriminate|].
  - intros _ (pre & tr & post & -> & Ht & Hpre & Hr).
    exists pre, tr, (post ++ l2)%list. rewrite <- app_assoc. auto.
  - intros _ H. apply in_or_app. auto.
Qed.

Lemma answers_head (n : network) (address : string) (amount : float)
    (tr : ChainTransaction) (rest : list fetched_record) :
  spec_qualifies n address amount tr = true ->
  answers n address amount (Transfer tr :: rest) (report tr).
Proof. intros H. exists [], tr, rest. auto. Qed.

Lemma transfers_of_In (records : list fetched_record) (trs : list ChainTransaction) :
  transfers_of records = Some trs ->
  ~ In Malformed records /\ forall tr, In tr trs <-> In (Transfer tr) records.
Proof.
  revert trs. induction records as [|[tr|] rest IH]; simpl; intros trs H.
  - injection H as <-. split; [tauto|]. intros tr. simpl. tauto.
  - destruct (transfers_of rest) as [trs'|]; [|discriminate].
    injection H as <-. destruct (IH trs' eq_refl) as [Hm Hin]. split.
    + intros [H|H]; [discriminate | auto].
    + intros tr'. simpl. rewrite Hin. split; intros [H|H]; auto; left; congruence.
  - discriminate.
Qed.

Lemma transfers_of_find (n : network) (address : string) (amount : float)
    (pre : list fetched_record) (tr : ChainTransaction) (post : list fetched_record)
    (trs : list ChainTransaction) :
  transfers_of (pre ++ Transfer tr :: post) = Some trs ->
  forallb (fun x => negb (record_qualifies n address amount x)) pre = true ->
  spec_qualifies n address amount tr = true ->
  find (spec_qualifies n address amount) trs = Some tr.
Proof.
  revert trs. induction pre as [|[x|] pre IH]; simpl; intros trs H Hpre Hq.
  - destruct (transfers_of post); [|discriminate]. injection H as <-. simpl. now rewrite Hq.
  - destruct (transfers_of (pre ++ Transfer tr :: post)) as [trs'|] eqn:E; [|discriminate].
    injection H as <-. apply andb_true_iff in Hpre as [Hx Hpre].
    apply negb_true_iff in Hx. simpl. rewrite Hx. now apply IH.
  - discriminate.
Qed.

Lemma transfers_of_none (n : network) (address : string) (amount : float)
    (records : list fetched_record) (trs : list ChainTransaction) :
  transfers_of records = Some trs ->
  forallb (fun x => negb (record_qualifies n address amount x)) records = true ->
  find (spec_qualifies n address amount) trs = None.
Proof.
  revert trs. induction records as [|[x|] rest IH]; simpl; intros trs H Hall.
  - now injection H as <-.
  - destruct (transfers_of rest) as [trs'|]; [|discriminate].
    injection H as <-. apply andb_true_iff in Hall as [Hx Hall].
    apply negb_true_iff in Hx. simpl. rewrite Hx. now apply IH.
  - discriminate.
Qed.

(** On a list of well-formed records an answer is that of the contract. *)
Lemma answers_transfers (n : network) (address : string) (amount : float)
    (records : list fetched_record) (trs : list ChainTransaction) (r : verify_result) :
  transfers_of records = Some trs ->
  answers n address amount records r ->
  r = spec_verify n address amount trs.
Proof.
  intros Ht. unfold spec_verify. destruct r as [t a c b|reason|e]; simpl.
  - intros (pre & tr & post & -> & Hq & Hpre & ->).
    now rewrite (transfers_of_find n address amount pre tr post trs Ht Hpre Hq).
  - intros [-> Hall]. now rewrite (transfers_of_none n address amount records trs Ht Hall).
  - intros H. destruct (transfers_of_In records trs Ht) as [Hm _]. contradiction.
Qed.

Lemma answers_none_qualifies (n : network) (address : string) (amount : float)
    (records : list fetched_record) (r : verify_result) :
  (forall tr, In (Transfer tr) records -> spec_qualifies n address amount tr = false) ->
  answers n address amount records r ->
  verified r = false.
Proof.
  intros Hnone. destruct r as [t a c b|reason|e]; simpl; [|reflexivity|reflexivity].
  intros (pre & tr & post & -> & Hq & _).
  rewrite Hnone in Hq; [discriminate|]. apply in_or_app. right. now left.
Qed.

Lemma forallb_not_qualifies (n : network) (address : string) (amount : float)
    (records : list fetched_record) :
  forallb (fun x => negb (record_qualifies n address amount x)) records = true ->
  forall tr, In (Transfer tr) records -> spec_qualifies n address amount tr = false.
Proof.
  intros H tr Hin. rewrite forallb_forall in H.
  specialize (H _ Hin). now apply negb_true_iff in H.
Qed.

(** *** Bitcoin *)

Lemma btc_transfer_unaddressed (address : string) (amount : float) (tx : btc_tx)
    (output : btc_vout) :
  eq_address (scriptpubkey_address output) address = false ->
  record_qualifies BTC address amount (btc_transfer tx output) = false.
Proof.
  intros Hd. unfold btc_transfer, read_amount.
  destruct (Py.get_default (value output) 0%Z) as [raw|]; [|reflexivity].
  destruct (float_to_human BTC raw) as [a|e]; [|reflexivity].
  destruct (Py.get_default (tx_status tx) no_status) as [st|]; [|reflexivity].
  unfold record_qualifies, spec_qualifies, spec_dest_matches. cbn [toAddress hex_chain].
  unfold eq_address in Hd. destruct (scriptpubkey_address output); [|reflexivity].
  now rewrite Hd.
Qed.

Lemma btc_transfer_addressed (address : string) (amount : float) (tx : btc_tx)
    (output : btc_vout) :
  eq_address (scriptpubkey_address output) address = true ->
  match Py.truediv_get (value output) 0 100000000 with
  | Py.Raises _ => btc_transfer tx output = Malformed
  | Py.Value a =>
      match tx_confirmed tx with
      | Py.Raises _ => btc_transfer tx output = Malformed
      | Py.Value c =>
          exists tr,
            btc_transfer tx output = Transfer tr
            /\ spec_qualifies BTC address amount tr = PrimFloat.leb amount a && c
            /\ report tr = Verified (txid tx) a (if c then 1%Z else 0%Z) (tx_block_height tx)
      end
  end.
Proof.
  intros Hd. unfold btc_transfer, read_amount, Py.truediv_get, tx_confirmed, tx_block_height.
  destruct (Py.get_default (value output) 0%Z) as [raw|]; [|reflexivity].
  rewrite float_to_human_btc.
  destruct (Py.int_truediv raw 100000000) as [a|e]; [|reflexivity].
  destruct (Py.get_default (tx_status tx) no_status) as [st|]; [|reflexivity].
  eexists. split; [reflexivity|]. split; [|reflexivity].
  unfold spec_qualifies, spec_dest_matches. cbn [toAddress hex_chain human_amount confirmed].
  unfold eq_address in Hd. destruct (scriptpubkey_address output); [|discriminate].
  now rewrite Hd.
Qed.

Lemma btc_scan_outputs_answers (address : string) (amount : float) (tx : btc_tx)
    (outputs : list btc_vout) :
  match btc_scan_outputs address amount tx outputs with
  | Some r =>
      result_reason r = None
      /\ answers BTC address amount (map (btc_transfer tx) outputs) r
  | None =>
      forallb (fun x => negb (record_qualifies BTC address amount x))
              (map (btc_transfer tx) outputs) = true
  end.
Proof.
  induction outputs as [|output rest IH]; [reflexivity|].
  cbn [btc_scan_outputs map forallb].
  destruct (eq_address (scriptpubkey_address output) address) eqn:Hd.
  - pose proof (btc_transfer_addressed address amount tx output Hd) as Hstep.
    destruct (Py.truediv_get (value output) 0 100000000) as [a|e];
      [|split; [reflexivity | left; now rewrite Hstep]].
    destruct (tx_confirmed tx) as [c|e];
      [|split; [reflexivity | left; now rewrite Hstep]].
    destruct Hstep as (tr & Htr & Hq & Hrep). rewrite Htr.
    destruct (PrimFloat.leb amount a && c) eqn:Hac.
    + split; [reflexivity|]. rewrite <- Hrep. now apply answers_head.
    + destruct (btc_scan_outputs address amount tx rest) as [r|].
      * destruct IH as [Hr Ha]. split; [exact Hr|]. now apply answers_cons.
      * cbn [record_qualifies]. now rewrite Hq.
  - pose proof (btc_transfer_unaddressed address amount tx output Hd) as Hnq.
    destruct (btc_scan_outputs address amount tx rest) as [r|].
    + destruct IH as [Hr Ha]. split; [exact Hr|]. now apply answers_cons.
    + now rewrite Hnq.
Qed.

Lemma btc_scan_answers (address : string) (amount : float) (transactions : list btc_tx) :
  answers BTC address amount (flat_map btc_transfers transactions)
          (btc_scan address amount transactions).
Proof.
  induction transactions as [|tx rest IH]; [split; reflexivity|].
  cbn [btc_scan flat_map]. unfold btc_transfers at 1.
  destruct (Py.get_default (vout tx) []) as [outputs|]; [|now left].
  pose proof (btc_scan_outputs_answers address amount tx outputs) as Hin.
  destruct (btc_scan_outputs address amount tx outputs) as [r|].
  - destruct Hin as [Hr Ha]. now apply answers_app_l.
  - now apply answers_app.
Qed.

(** *** Ethereum and BSC *)

Lemma tokentx_transfer_step (n : network) (address : string) (amount : float) (tx : tokentx) :
  hex_chain n = true ->
  match tt_to tx with
  | None => tokentx_transfer n tx = Malformed
  | Some to =>
      if String.eqb (Py.lower to) (Py.lower address) then
        match Py.float_get (tt_value tx) 0 with
        | Py.Raises _ => tokentx_transfer n tx = Malformed
        | Py.Value v =>
            match Py.int_get (tt_confirmations tx) 0 with
            | Py.Raises _ => tokentx_transfer n tx = Malformed
            | Py.Value c =>
                exists tr,
                  tokentx_transfer n tx = Transfer tr
                  /\ spec_qualifies n address amount tr
                     = PrimFloat.leb amount (PrimFloat.div v (Py.float_of_Z (hex_divisor n)))
                       && (1 <=? c)%Z
                  /\ report tr
                     = Verified (tt_hash tx) (PrimFloat.div v (Py.float_of_Z (hex_divisor n)))
                                c (tt_blockNumber tx)
            end
        end
      else record_qualifies n address amount (tokentx_transfer n tx) = false
  end.
Proof.
  intros Hn. unfold tokentx_transfer, read_amount, Py.float_get, Py.int_get.
  destruct (tt_to tx) as [to|].
  - destruct (String.eqb (Py.lower to) (Py.lower address)) eqn:Hd.
    + destruct (Py.get_default (tt_value tx) 0%Z) as [raw|]; [|reflexivity].
      rewrite (float_to_human_hex n raw Hn).
      destruct (Py.get_default (tt_confirmations tx) 0%Z) as [c|]; [|reflexivity].
      eexists. split; [reflexivity|]. split; [|reflexivity].
      unfold spec_qualifies, spec_dest_matches.
      cbn [toAddress human_amount confirmed]. now rewrite Hn, Hd.
    + destruct (Py.get_default (tt_value tx) 0%Z) as [raw|]; [|reflexivity].
      rewrite (float_to_human_hex n raw Hn).
      destruct (Py.get_default (tt_confirmations tx) 0%Z) as [c|]; [|reflexivity].
      unfold record_qualifies, spec_qualifies, spec_dest_matches.
      cbn [toAddress]. now rewrite Hn, Hd.
  - destruct (Py.get_default (tt_value tx) 0%Z) as [raw|]; [|reflexivity].
    now rewrite (float_to_human_hex n raw Hn).
Qed.

Lemma tokentx_scan_answers (n : network) (address : string) (amount : float)
    (transactions : list tokentx) :
  hex_chain n = true ->
  answers n address amount (map (tokentx_transfer n) transactions)
          (tokentx_scan (hex_divisor n) address amount transactions).
Proof.
  intros Hn. induction transactions as [|tx rest IH]; [split; reflexivity|].
  cbn [tokentx_scan map].
  pose proof (tokentx_transfer_step n address amount tx Hn) as Hstep.
  destruct (tt_to tx) as [to|]; [|left; now rewrite Hstep].
  destruct (String.eqb (Py.lower to) (Py.lower address)); [|now apply answers_cons].
  destruct (Py.float_get (tt_value tx) 0) as [v|e]; [|left; now rewrite Hstep].
  destruct (Py.int_get (tt_confirmations tx) 0) as [c|e]; [|left; now rewrite Hstep].
  destruct Hstep as (tr & Htr & Hq & Hrep). rewrite Htr.
  destruct (PrimFloat.leb amount _ && (1 <=? c)%Z) eqn:Hac.
  - rewrite <- Hrep. now apply answers_head.
  - apply answers_cons; [|exact IH]. cbn [record_qualifies]. now rewrite Hq.
Qed.

(** *** TRON *)

Lemma tron_confirmed_spec (api : chain_api) (tx_id : option string) :
  match _get_tron_transaction_info api tx_id with
  | Some info => info_confirmed info
  | None => false
  end = tron_block_key api tx_id.
Proof.
  unfold _get_tron_transaction_info, tron_block_key, fetched.
  destruct (trongrid_gettransactionbyid api tx_id) as [e|code body]; [reflexivity|].
  destruct (Z.eqb_spec code 200) as [->|Hne].
  - rewrite bool_decide_eq_true_2 by reflexivity.
    destruct (body_blockNumber body), (body_receipt body) as [|[rc|]]; reflexivity.
  - now rewrite bool_decide_eq_false_2.
Qed.

Lemma tron_transfer_step (api : chain_api) (address : string) (amount : float)
    (tx : trc20_tx) :
  if eq_address (trc_to tx) address then
    match Py.float_get (trc_value tx) 0 with
    | Py.Raises _ => tron_transfer api tx = Malformed
    | Py.Value v =>
        exists tr,
          tron_transfer api tx = Transfer tr
          /\ spec_qualifies TRC20_USDT address amount tr
             = PrimFloat.leb amount (PrimFloat.div v (Py.float_of_Z 1000000))
               && tron_block_key api (trc_transaction_id tx)
          /\ report tr
             = Verified (trc_transaction_id tx) (PrimFloat.div v (Py.float_of_Z 1000000))
                        (if tron_block_key api (trc_transaction_id tx) then 1%Z else 0%Z)
                        (trc_block_number tx)
    end
  else record_qualifies TRC20_USDT address amount (tron_transfer api tx) = false.
Proof.
  unfold tron_transfer, read_amount, Py.float_get.
  destruct (eq_address (trc_to tx) address) eqn:Hd.
  - destruct (Py.get_default (trc_value tx) 0%Z) as [raw|]; [|reflexivity].
    rewrite float_to_human_tron.
    eexists. split; [reflexivity|]. split; [|reflexivity].
    unfold spec_qualifies, spec_dest_matches.
    cbn [toAddress human_amount confirmed hex_chain].
    unfold eq_address in Hd. destruct (trc_to tx); [|discriminate]. now rewrite Hd.
  - destruct (Py.get_default (trc_value tx) 0%Z) as [raw|]; [|reflexivity].
    rewrite float_to_human_tron.
    unfold record_qualifies, spec_qualifies, spec_dest_matches.
    cbn [toAddress hex_chain].
    unfold eq_address in Hd. destruct (trc_to tx); [|reflexivity]. now rewrite Hd.
Qed.

Lemma tron_scan_answers (api : chain_api) (address : string) (amount : float)
    (transactions : list trc20_tx) :
  answers TRC20_USDT address amount (map (tron_transfer api) transactions)
          (tron_scan api address amount transactions).
Proof.
  induction transactions as [|tx rest IH]; [split; reflexivity|].
  cbn [tron_scan map]. rewrite tron_confirmed_spec.
  pose proof (tron_transfer_step api address amount tx) as Hstep.
  destruct (eq_address (trc_to tx) address); [|now apply answers_cons].
  destruct (Py.float_get (trc_value tx) 0) as [v|e]; [|left; now rewrite Hstep].
  destruct Hstep as (tr & Htr & Hq & Hrep). rewrite Htr.
  destruct (PrimFloat.leb amount _ && tron_block_key api (trc_transaction_id tx)) eqn:Hac.
  - rewrite <- Hrep. now apply answers_head.
  - apply answers_cons; [|exact IH]. cbn [record_qualifies]. now rewrite Hq.
Qed.

End Refinement.

Section Verifiers.
Import Blockchain ChainSpec.

(** An answer that is not accepted as fetched is reported as an error. *)
Lemma run_verifier_not_fetched (n : network) (api : chain_api) (address : string)
    (amount : float) (key : option string) :
  accepted_transfers n api address key = None ->
  run_verifier n api address amount key = VerifyError msg_fetch_failed.
Proof.
  destruct n; simpl;
    unfold verify_btc_payment, verify_eth_usdt_payment, verify_tron_usdt_payment,
           verify_bsc_usdt_payment;
    rewrite fetched_make_request;
    match goal with |- context [fetched ?o] => destruct (fetched o) as [body|] end;
    try reflexivity.
  - destruct body; [reflexivity | discriminate].
  - destruct (bool_decide (resp_status body = Some "1")); [discriminate | reflexivity].
  - destruct (trc_success body); [discriminate | reflexivity].
  - destruct (bool_decide (resp_status body = Some "1")); [discriminate | reflexivity].
Qed.

(** On an accepted answer each verifier answers for the list it read. *)
Lemma run_verifier_answers (n : network) (api : chain_api) (address : string)
    (amount : float) (key : option string) (records : list fetched_record) :
  accepted_transfers n api address key = Some records ->
  answers n address amount records (run_verifier n api address amount key).
Proof.
  destruct n; simpl;
    unfold verify_btc_payment, verify_eth_usdt_payment, verify_tron_usdt_payment,
           verify_bsc_usdt_payment;
    rewrite fetched_make_request;
    match goal with |- context [fetched ?o] => destruct (fetched o) as [body|] end;
    try discriminate.
  - destruct body as [|tx txs]; [discriminate|].
    intros [= <-]. apply btc_scan_answers.
  - destruct (bool_decide (resp_status body = Some "1")); [|discriminate].
    intros [= <-]. simpl. unfold read_list.
    destruct (Py.get_default (resp_result body) []) as [txs|]; [|now left].
    now apply (tokentx_scan_answers ERC20_USDT).
  - destruct (trc_success body); [|discriminate].
    intros [= <-]. simpl. unfold read_list.
    destruct (Py.get_default (trc_data body) []) as [txs|]; [|now left].
    apply tron_scan_answers.
  - destruct (bool_decide (resp_status body = Some "1")); [|discriminate].
    intros [= <-]. simpl. unfold read_list.
    destruct (Py.get_default (resp_result body) []) as [txs|]; [|now left].
    now apply (tokentx_scan_answers BEP20_USDT).
Qed.

(** *** What the records of an accepted answer carry *)

Lemma read_list_In {A} (l : Py.field (list A)) (read : A -> fetched_record)
    (tr : ChainTransaction) :
  In (Transfer tr) (read_list l read) -> exists x, read x = Transfer tr.
Proof.
  unfold read_list. destruct (Py.get_default l []) as [records|].
  - intros H. apply in_map_iff in H as (x & Hx & _). eauto.
  - intros [H|[]]. discriminate.
Qed.

(** The records of an accepted answer come from the verifier's network
    (the Etherscan-style readers take the network as an argument). *)
Lemma accepted_sources (n : network) (api : chain_api) (address : string)
    (key : option string) (records : list fetched_record) (tr : ChainTransaction) :
  accepted_transfers n api address key = Some records ->
  In (Transfer tr) records ->
  match n with
  | BTC => exists tx output, btc_transfer tx output = Transfer tr
  | TRC20_USDT => exists tx, tron_transfer api tx = Transfer tr
  | _ => exists tx, tokentx_transfer n tx = Transfer tr
  end.
Proof.
  destruct n; simpl;
    match goal with |- context [fetched ?o] => destruct (fetched o) as [body|] end;
    try discriminate.
  - destruct body as [|tx txs]; [discriminate|].
    intros [= <-] Hin.
    change (In (Transfer tr) (flat_map btc_transfers (tx :: txs))) in Hin.
    apply in_flat_map in Hin as (tx' & _ & Hin).
    unfold btc_transfers in Hin.
    destruct (Py.get_default (vout tx') []) as [outputs|].
    + apply in_map_iff in Hin as (output & Hx & _). eauto.
    + destruct Hin as [H|[]]. discriminate.
  - destruct (bool_decide (resp_status body = Some "1")); [|discriminate].
    intros [= <-] Hin. now apply read_list_In in Hin.
  - destruct (trc_success body); [|discriminate].
    intros [= <-] Hin. now apply read_list_In in Hin.
  - destruct (bool_decide (resp_status body = Some "1")); [|discriminate].
    intros [= <-] Hin. now apply read_list_In in Hin.
Qed.

Lemma read_amount_inv (n : network) (raw : Py.field Z)
    (transfer : Z -> float -> fetched_record) (tr : ChainTransaction) :
  read_amount n raw transfer = Transfer tr ->
  exists r a, float_to_human n r = Py.Value a /\ transfer r a = Transfer tr.
Proof.
  unfold read_amount. destruct (Py.get_default raw 0%Z) as [r|]; [|discriminate].
  destruct (float_to_human n r) as [a|e] eqn:E; [|discriminate]. eauto.
Qed.

(** Every transfer read from an accepted answer carries its raw amount
    scaled by the exponent of the table; a confirmed one counts one
    confirmation at least, and exactly one on BTC and TRON. *)
Lemma accepted_transfer_facts (n : network) (api : chain_api) (address : string)
    (key : option string) (records : list fetched_record) (tr : ChainTransaction) :
  accepted_transfers n api address key = Some records ->
  In (Transfer tr) records ->
  float_to_human n (raw_amount tr) = Py.Value (human_amount tr)
  /\ (confirmed tr = true ->
      (1 <= confirmations tr)%Z /\ (hex_chain n = false -> confirmations tr = 1%Z)).
Proof.
  intros Hacc Hin. pose proof (accepted_sources n api address key records tr Hacc Hin) as Hsrc.
  destruct n.
  - destruct Hsrc as (tx & output & H). unfold btc_transfer in H.
    apply read_amount_inv in H as (r & a & Hh & H).
    destruct (Py.get_default (tx_status tx) no_status) as [st|]; [|discriminate].
    injection H as <-. simpl. split; [exact Hh|]. intros ->. split; [lia | reflexivity].
  - destruct Hsrc as (tx & H). unfold tokentx_transfer in H.
    apply read_amount_inv in H as (r & a & Hh & H).
    destruct (tt_to tx) as [to|]; [|discriminate].
    destruct (Py.get_default (tt_confirmations tx) 0%Z) as [c|]; [|discriminate].
    injection H as <-. simpl. split; [exact Hh|]. intros Hc.
    split; [now apply Z.leb_le | discriminate].
  - destruct Hsrc as (tx & H). unfold tron_transfer in H.
    apply read_amount_inv in H as (r & a & Hh & H).
    injection H as <-. simpl. split; [exact Hh|]. intros ->. split; [lia | reflexivity].
  - destruct Hsrc as (tx & H). unfold tokentx_transfer in H.
    apply read_amount_inv in H as (r & a & Hh & H).
    destruct (tt_to tx) as [to|]; [|discriminate].
    destruct (Py.get_default (tt_confirmations tx) 0%Z) as [c|]; [|discriminate].
    injection H as <-. simpl. split; [exact Hh|]. intros Hc.
    split; [now apply Z.leb_le | discriminate].
Qed.

Lemma scaled_qualifies_eq (n : network) (address : string) (amount : float)
    (tr : ChainTransaction) :
  float_to_human n (raw_amount tr) = Py.Value (human_amount tr) ->
  scaled_qualifies n address amount tr = spec_qualifies n address amount tr.
Proof. intros H. unfold scaled_qualifies, spec_qualifies. now rewrite H. Qed.

Lemma verified_spec_verify (n : network) (address : string) (amount : float)
    (trs : list ChainTransaction) :
  verified (spec_verify n address amount trs) = existsb (spec_qualifies n address amount) trs.
Proof.
  unfold spec_verify. induction trs as [|tr trs IH]; simpl; [reflexivity|].
  destruct (spec_qualifies n address amount tr); [reflexivity | exact IH].
Qed.

(** The answer of a verifier on an accepted list is decided by the list:
    verified for its first qualifying transfer, none before it
    qualifying; not found when none qualifies; an error only when the
    list holds a malformed record. *)
Lemma run_verifier_cases (n : network) (api : chain_api) (address : string)
    (amount : float) (key : option string) (records : list fetched_record) :
  accepted_transfers n api address key = Some records ->
  let r := run_verifier n api address amount key in
  (verified r = true ->
     exists pre tr post,
       records = (pre ++ Transfer tr :: post)%list
       /\ spec_qualifies n address amount tr = true
       /\ forallb (fun x => negb (record_qualifies n address amount x)) pre = true
       /\ r = report tr)
  /\ (forall reason, r = NotVerified reason ->
        reason = msg_not_found
        /\ forall tr, In (Transfer tr) records -> spec_qualifies n address amount tr = false)
  /\ (forall e, r = VerifyError e -> In Malformed records).
Proof.
  intros Hacc. cbv zeta.
  pose proof (run_verifier_answers n api address amount key records Hacc) as Ha.
  destruct (run_verifier n api address amount key) as [t a c b|reason|e]; simpl in Ha.
  - split; [intros _; exact Ha|]. split; intros; discriminate.
  - split; [discriminate|]. split; [|intros; discriminate].
    intros reason' [= <-]. destruct Ha as [-> Hall]. split; [reflexivity|].
    now apply forallb_not_qualifies.
  - split; [discriminate|]. split; [intros; discriminate|]. intros _ _. exact Ha.
Qed.


End Verifiers.

Section VerifierResults.
Import Blockchain ChainSpec.


(** C7, counterexample.  Three answers that leave the contract.  On BSC
    a transfer of 49.999999999999999999 USDT, which is below 50, is
    verified against a minimum of 50: the double nearest to its raw amount
    is 5e19, and the quotient is 50.  On TRON the transfer of 60 USDT is
    verified while the lookup of its transaction answers a null
    [blockNumber]: no block number is assigned.  On Bitcoin an output of
    0.01 BTC to the wallet qualifies, and the answer is an error, because
    the output before it carries a null [value]. *)
Lemma verified_outside_the_contract :
  (run_verifier BEP20_USDT Examples.api_bsc_short Examples.eth_addr Examples.usdt_50 None
   = Verified (Some "0xbsc1") 50%float 12 (Some 36000000%Z)
   /\ Py.float_value Examples.usdt_50 = Some (50 # 1)
   /\ (spec_to_human BEP20_USDT Examples.bsc_short < 50 # 1)%Q)
  /\ (run_verifier TRC20_USDT Examples.api_tron_null_block Examples.tron_addr
                   Examples.usdt_50 None
      = Verified (Some "trx_2") 60%float 1 (Some 61000002%Z)
      /\ tron_block_assigned Examples.api_tron_null_block (Some "trx_2") = false)
  /\ (run_verifier BTC Examples.api_btc_null_value Examples.btc_addr Examples.btc_0_01 None
      = VerifyError "unsupported operand type(s) for /: 'NoneType' and 'int'"
      /\ exists records tr,
           accepted_transfers BTC Examples.api_btc_null_value Examples.btc_addr None
           = Some records
           /\ In (Transfer tr) records
           /\ spec_qualifies BTC Examples.btc_addr Examples.btc_0_01 tr = true).
Proof.
  split; [|split].
  - split; [vm_compute; reflexivity|]. split; vm_compute; reflexivity.
  - split; vm_compute; reflexivity.
  - split; [vm_compute; reflexivity|].
    eexists _, _. split; [vm_compute; reflexivity|].
    split; [right; left; reflexivity | vm_compute; reflexivity].
Qed.



(** C6, counterexample.  The raw amount 49999999999999999999 of a BEP20
    transfer stands for 49.999999999999999999 USDT; the verifier scales it
    to the double 50 and reports 50, which is not the quotient of the raw
    amount by 10^18. *)
Lemma scaled_amount_is_rounded :
  run_verifier BEP20_USDT Examples.api_bsc_short Examples.eth_addr Examples.usdt_5 None
  = Verified (Some "0xbsc1") 50%float 12 (Some 36000000%Z)
  /\ float_to_human BEP20_USDT Examples.bsc_short = Py.Value 50%float
  /\ Py.float_value 50%float = Some (50 # 1)
  /\ ~ (spec_to_human BEP20_USDT Examples.bsc_short == 50 # 1)%Q.
Proof.
  split; [vm_compute; reflexivity|]. split; [vm_compute; reflexivity|].
  split; [vm_compute; reflexivity|].
  intros H. vm_compute in H. discriminate H.
Qed.

(** C8, at the failing input.  Blockstream answers 200 with an empty
    list for a wallet without transactions; [verify_btc_payment] files
    this under fetch errors, with no reason field, where the Etherscan
    verifier answers not found on an empty result list. *)
Lemma btc_empty_answer_is_an_error :
  _make_request (blockstream_txs Examples.api_btc_empty Examples.btc_addr) = Some []
  /\ verify_btc_payment Examples.api_btc_empty Examples.btc_addr Examples.btc_0_01 1
     = VerifyError "Failed to fetch transactions"
  /\ result_reason (verify_btc_payment Examples.api_btc_empty Examples.btc_addr
                                       Examples.btc_0_01 1)
     = None
  /\ verify_eth_usdt_payment Examples.api_eth_empty Examples.eth_addr Examples.usdt_50 None
     = NotVerified "Payment not found or insufficient amount".
Proof. repeat split; vm_compute; reflexivity. Qed.

(** What holds of the failure semantics on every input: an answer that
    is not accepted as fetched is an error, an accepted one without a
    qualifying transfer is never verified. *)
Lemma verifier_failure_semantics
    (n : network) (api : chain_api) (address : string) (amount : float)
    (key : option string) :
  (accepted_transfers n api address key = None ->
   run_verifier n api address amount key = VerifyError msg_fetch_failed)
  /\ (forall records, accepted_transfers n api address key = Some records ->
        (forall tr, In (Transfer tr) records -> spec_qualifies n address amount tr = false) ->
        verified (run_verifier n api address amount key) = false).
Proof.
  split; [apply run_verifier_not_fetched|].
  intros records Hacc Hnone.
  apply (answers_none_qualifies n address amount records _ Hnone).
  now apply run_verifier_answers.
Qed.

End VerifierResults.

Section Service.
Import Blockchain ChainSpec PaymentSvc.

(** C5 (as the code has it).  The status check of a manual invoice is a
    placeholder: whatever the invoice and whatever the chain shows, it
    answers pending, without a transaction id, with the note that manual
    verification is required; no chain verifier takes part in it, and the
    same holds when no provider is named. *)
Theorem manual_status_is_pending
    (svc : PaymentService) (papi : provider_api) (invoice_id : string) :
  let r := check_payment_status svc papi invoice_id (Some "manual") in
  rep_status r = "pending"
  /\ rep_transaction_id r = None
  /\ rep_provider r = Some "manual"
  /\ note r = Some "Manual verification required"
  /\ check_payment_status svc papi invoice_id None = r.
Proof. repeat split. Qed.

(** C5, counterexample.  50 USDT reach the TRON wallet in a confirmed
    transfer, which the TRON verifier reports with its transaction id; the
    status check of the manual invoice still answers pending, without a
    transaction id. *)
Lemma manual_status_ignores_chain :
  verify_payment Examples.api_tron "USDT" Examples.tron_addr Examples.usdt_50 (Some "TRC20")
  = Verified (Some "trx_2") 60%float 1 (Some 61000002%Z)
  /\ rep_status (check_payment_status Examples.svc_none Examples.providers_down
                                      "manual_1a2b3c4d" (Some "manual")) = "pending"
  /\ rep_transaction_id (check_payment_status Examples.svc_none Examples.providers_down
                                              "manual_1a2b3c4d" (Some "manual")) = None
  /\ "pending" <> "completed".
Proof.
  split; [vm_compute; reflexivity|].
  split; [reflexivity|]. split; [reflexivity | discriminate].
Qed.

Lemma handle_response_answered {A} (o : http_outcome A) :
  match PaymentInfo.answered o with
  | Some body => _handle_response o = Returned body
  | None => exists e, _handle_response o = Thrown e
  end.
Proof.
  destruct o as [e|code body]; simpl; [eauto|].
  destruct (Z.eqb_spec code 200) as [->|Hne].
  - rewrite bool_decide_eq_true_2 by reflexivity. reflexivity.
  - rewrite bool_decide_eq_false_2 by exact Hne. eauto.
Qed.

(** The NowPayments table yields partial for [partially_paid] alone, and
    the BTCPay table for no status. *)
Lemma nowpayments_partial (native : Py.field string) :
  map_status nowpayments_status_map native "waiting" = "partial" ->
  native = Py.Present (Some "partially_paid").
Proof.
  unfold map_status, Py.get_default.
  destruct native as [|[s|]]; [vm_compute; discriminate| |discriminate].
  destruct (nowpayments_status_map !! s) as [v|] eqn:E; simpl; [|discriminate].
  apply elem_of_list_to_map_2 in E.
  repeat (apply elem_of_cons in E as [E|E];
          [injection E as -> ->; first [discriminate | reflexivity]|]).
  now apply elem_of_nil in E.
Qed.

Lemma btcpay_never_partial (native : Py.field string) :
  map_status btcpay_status_map native "New" <> "partial".
Proof.
  unfold map_status, Py.get_default.
  destruct native as [|[s|]]; [vm_compute; discriminate| |discriminate].
  destruct (btcpay_status_map !! s) as [v|] eqn:E; simpl; [|discriminate].
  apply elem_of_list_to_map_2 in E.
  repeat (apply elem_of_cons in E as [E|E]; [injection E as -> ->; discriminate|]).
  now apply elem_of_nil in E.
Qed.




Lemma manual_invoice_provider (rnd : entropy) (amount : Q) (currency order_id : string)
    (description : option string) :
  inv_provider (_create_manual_invoice rnd amount currency order_id description) = "manual".
Proof.
  unfold _create_manual_invoice.
  now destruct (negb (Py.truthy (wallet_addresses !! Py.upper currency))).
Qed.

(** C2 (as the code has it).  The provider of the invoice is decided by
    the credentials first: with a NowPayments key the invoice is
    NowPayments' unless that call throws, and then it is the manual one,
    BTCPay being passed over even when configured; BTCPay is used when it
    is configured and NowPayments is not, with the same fallback to the
    manual invoice when its call throws; with neither the invoice is
    manual. *)
Theorem provider_selection
    (svc : PaymentService) (papi : provider_api) (rnd : entropy)
    (amount : Q) (currency order_id : string) (description : option string) :
  let made := create_payment_invoice svc papi rnd amount currency order_id description in
  let manual := _create_manual_invoice rnd amount currency order_id description in
  (Py.truthy (nowpayments_api_key svc) = true ->
   match _create_nowpayments_invoice papi amount currency order_id description with
   | Returned inv => made = inv /\ inv_provider made = "nowpayments"
   | Thrown _ => made = manual /\ inv_provider made = "manual"
   end)
  /\ (Py.truthy (nowpayments_api_key svc) = false ->
      Py.truthy (btcpay_api_key svc) && Py.truthy (btcpay_url svc) = true ->
      match _create_btcpay_invoice svc papi amount currency order_id description with
      | Returned inv => made = inv /\ inv_provider made = "btcpay"
      | Thrown _ => made = manual /\ inv_provider made = "manual"
      end)
  /\ (Py.truthy (nowpayments_api_key svc) = false ->
      Py.truthy (btcpay_api_key svc) && Py.truthy (btcpay_url svc) = false ->
      made = manual /\ inv_provider made = "manual").
Proof.
  cbv zeta. unfold create_payment_invoice. split; [|split].
  - intros ->.
    destruct (_create_nowpayments_invoice papi amount currency order_id description)
      as [inv|e] eqn:E; [|split; [reflexivity | apply manual_invoice_provider]].
    split; [reflexivity|].
    unfold _create_nowpayments_invoice, rbind in E.
    destruct (_make_nowpayments_request _); [|discriminate].
    injection E as <-. reflexivity.
  - intros -> ->.
    destruct (_create_btcpay_invoice svc papi amount currency order_id description)
      as [inv|e] eqn:E; [|split; [reflexivity | apply manual_invoice_provider]].
    split; [reflexivity|].
    unfold _create_btcpay_invoice, rbind in E.
    destruct (_make_btcpay_request _ _) as [response|]; [|discriminate].
    destruct (btcpay_address response currency); [|discriminate].
    destruct (btcpay_amount response); [|discriminate].
    injection E as <-. reflexivity.
  - intros -> ->. split; [reflexivity | apply manual_invoice_provider].
Qed.

Lemma provider_selection_witness :
  create_payment_invoice Examples.svc_all Examples.btcpay_up Examples.rnd0
                         (1 # 100) "btc" "order-9" None
  = _create_manual_invoice Examples.rnd0 (1 # 100) "btc" "order-9" None
  /\ inv_provider (create_payment_invoice Examples.svc_all Examples.btcpay_up Examples.rnd0
                                          (1 # 100) "btc" "order-9" None) = "manual".
Proof.
  exact (proj1 (provider_selection Examples.svc_all Examples.btcpay_up Examples.rnd0
                  (1 # 100) "btc" "order-9" None) eq_refl).
Defined.

(** C2, counterexample.  All three credentials are configured, the
    NowPayments call times out and BTCPay would have issued the invoice:
    the invoice returned is the manual one. *)
Lemma failed_nowpayments_skips_btcpay :
  Py.truthy (nowpayments_api_key Examples.svc_all) = true
  /\ Py.truthy (btcpay_api_key Examples.svc_all) && Py.truthy (btcpay_url Examples.svc_all) = true
  /\ _create_nowpayments_invoice Examples.btcpay_up (1 # 100) "btc" "order-9" None
     = Thrown "timeout"
  /\ (exists inv, _create_btcpay_invoice Examples.svc_all Examples.btcpay_up
                                         (1 # 100) "btc" "order-9" None = Returned inv
                  /\ inv_provider inv = "btcpay")
  /\ inv_provider (create_payment_invoice Examples.svc_all Examples.btcpay_up Examples.rnd0
                                          (1 # 100) "btc" "order-9" None) = "manual".
Proof.
  split; [reflexivity|]. split; [reflexivity|]. split; [reflexivity|].
  split; [|vm_compute; reflexivity].
  eexists. split; [vm_compute; reflexivity | reflexivity].
Qed.

End Service.

(* ===================================================================== *)
(** * Further properties of the routes *)
(* ===================================================================== *)

Lemma payment_data_get_loaded (p : Payment) (k : string) :
  payment_data_get p k = loaded_dict p !! k.
Proof.
  unfold payment_data_get, get_payment_data, loaded_dict.
  destruct (payment_data p); reflexivity.
Qed.

(** The record a sync that goes through stores. *)
Lemma sync_payment_ok
    (u pid : string) (r : nat) (now : datetime) (db : database) (p : Payment) :
  payments db !! pid = Some p ->
  payment_data p <> TextOther ->
  sync_payment u pid r now db =
    (200%Z,
     commit db pid
       (synced r now p)
       (mk_audit u "SYNC_PAYMENT" (id p) (status p) (Py.random_choice sync_results r))).
Proof.
  intros Hp Hd. unfold sync_payment. rewrite Hp.
  unfold bind, update_statusM, get_payment_data, synced, loaded_dict.
  rewrite (update_status_accept (Py.random_choice sync_results r) None now p).
  2:{ pose proof (random_choice_sync r) as H. unfold sync_results, valid_statuses in *.
      simpl in *. tauto. }
  destruct (payment_data p) eqn:E; simpl; rewrite ?E; simpl;
    first [ contradiction | reflexivity ].
Qed.

(** The record a force-confirm that goes through stores. *)
Lemma force_confirm_payment_ok
    (u pid : string) (body : request_body) (now : datetime) (db : database) (p : Payment) :
  payments db !! pid = Some p ->
  status p <> "completed" ->
  payment_data p <> TextOther ->
  force_confirm_payment u pid body now db =
    (200%Z,
     commit db pid
       (force_confirmed u body now p)
       (mk_audit u "FORCE_CONFIRM_PAYMENT" (id p) (status p) "completed")).
Proof.
  intros Hp Hc Hd. unfold force_confirm_payment. rewrite Hp.
  apply String.eqb_neq in Hc. rewrite Hc.
  unfold bind, mark_completedM, force_confirmed, mark_completed, get_payment_data, loaded_dict.
  rewrite (update_status_accept "completed" _ now p) by (simpl; tauto).
  destruct (payment_data p) eqn:E; simpl; rewrite ?E; simpl;
    destruct (Py.truthy (force_confirm_txid body now)); simpl; rewrite ?E; simpl;
    first [ contradiction | reflexivity ].
Qed.

(** The record a cancel that goes through stores. *)
Lemma cancel_payment_ok
    (u pid : string) (body : request_body) (now : datetime) (db : database) (p : Payment) :
  payments db !! pid = Some p ->
  status p = "pending" ->
  (Py.truthy (cancel_reason body) = true -> payment_data p <> TextOther) ->
  cancel_payment u pid body now db =
    (200%Z,
     commit db pid (cancelled body now p)
       (mk_audit u "CANCEL_PAYMENT" (id p) (status p) "cancelled")).
Proof.
  intros Hp Hs Hd. unfold cancel_payment. rewrite Hp. simpl.
  rewrite Hs. simpl.
  unfold cancel, cancelled, bind, update_statusM, get_payment_data, loaded_dict.
  fold (cancel_reason body).
  destruct (Py.truthy (cancel_reason body)) eqn:Ht.
  - specialize (Hd eq_refl).
    destruct (payment_data p) eqn:E; simpl; rewrite ?E, ?Hs; simpl;
      first [ contradiction | reflexivity ].
  - simpl. rewrite ?Hs. reflexivity.
Qed.

Lemma not_a_dict_true (p : Payment) : not_a_dict p = true <-> payment_data p = TextOther.
Proof. unfold not_a_dict. destruct (payment_data p); split; congruence. Qed.

Lemma not_a_dict_false (p : Payment) : not_a_dict p = false <-> payment_data p <> TextOther.
Proof. unfold not_a_dict. destruct (payment_data p); split; congruence. Qed.

(** One request, on the record it addresses: the answer is decided by
    the record alone, and the database is replaced only on 200. *)
Lemma handle_found (req : request) (db : database) (p : Payment) :
  payments db !! request_target req = Some p ->
  handle req db =
    if bool_decide (answer_on req p = 200%Z) then
      (200%Z, commit db (request_target req) (stored_by req p)
                (mk_audit (request_actor req) (request_action req) (id p) (status p)
                          (status (stored_by req p))))
    else (answer_on req p, db).
Proof.
  intros Hp.
  destruct req as [u pid r now | u pid body now | u pid body now]; simpl in *.
  - destruct (not_a_dict p) eqn:Hd; simpl.
    + apply not_a_dict_true in Hd.
      destruct (sync_payment_cases u pid r now db p Hp) as [[_ ->]|[Hd' _]];
        [reflexivity | contradiction].
    + apply not_a_dict_false in Hd.
      rewrite (sync_payment_ok u pid r now db p Hp Hd). reflexivity.
  - destruct (String.eqb_spec (status p) "pending") as [Hs|Hs]; simpl.
    + destruct (Py.truthy (cancel_reason body)) eqn:Ht; simpl.
      * destruct (not_a_dict p) eqn:Hd; simpl.
        -- apply not_a_dict_true in Hd.
           unfold cancel_payment. rewrite Hp. simpl. rewrite Hs. simpl.
           unfold cancel, bind, get_payment_data. fold (cancel_reason body).
           rewrite Ht, Hd. reflexivity.
        -- apply not_a_dict_false in Hd.
           rewrite (cancel_payment_ok u pid body now db p Hp Hs) by (intros _; exact Hd).
           unfold cancelled. rewrite Ht. reflexivity.
      * rewrite (cancel_payment_ok u pid body now db p Hp Hs)
          by (intros H; rewrite Ht in H; discriminate).
        unfold cancelled. rewrite Ht. reflexivity.
    + destruct (cancel_payment_cases u pid body now db p Hp)
        as [[_ ->] | [[Hs' _] | [Hs' _]]]; [reflexivity | contradiction | contradiction].
  - destruct (String.eqb_spec (status p) "completed") as [Hs|Hs]; simpl.
    + destruct (force_confirm_payment_cases u pid body now db p Hp)
        as [[_ ->] | [(Hs' & _) | (Hs' & _)]]; [reflexivity | contradiction | contradiction].
    + destruct (not_a_dict p) eqn:Hd; simpl.
      * apply not_a_dict_true in Hd.
        destruct (force_confirm_payment_cases u pid body now db p Hp)
          as [[Hs' _] | [(_ & _ & ->) | (_ & Hd' & _)]];
          [contradiction | reflexivity | contradiction].
      * apply not_a_dict_false in Hd.
        rewrite (force_confirm_payment_ok u pid body now db p Hp Hs Hd).
        unfold force_confirmed, mark_completed.
        rewrite (update_status_accept "completed") by (simpl; tauto).
        simpl. now destruct (Py.truthy (force_confirm_txid body now)).
Qed.

Lemma handle_missing (req : request) (db : database) :
  payments db !! request_target req = None -> handle req db = (404%Z, db).
Proof.
  destruct req; simpl; intros H.
  - now apply sync_payment_missing.
  - now apply cancel_payment_missing.
  - now apply force_confirm_payment_missing.
Qed.

Lemma answer_on_codes (req : request) (p : Payment) :
  answer_on req p = 200%Z \/ answer_on req p = 400%Z \/ answer_on req p = 500%Z.
Proof.
  destruct req; simpl;
    repeat match goal with |- context [if ?b then _ else _] => destruct b end; auto.
Qed.

(** *** The routes as served *)

(** No role of [models/user.py] holds the permission the three routes
    ask for. *)
Lemma no_role_manages_payments (user : Auth.User) :
  Auth.has_permission user "manage_payments" = false.
Proof.
  unfold Auth.has_permission, Auth.role_permissions.
  destruct (Auth.role_permissions !! Auth.role user) as [l|] eqn:E;
    unfold Auth.role_permissions in E; rewrite E; [|reflexivity].
  apply elem_of_list_to_map_2 in E.
  repeat (apply elem_of_cons in E as [E|E]; [injection E as _ ->; reflexivity|]).
  now apply elem_of_nil in E.
Qed.

Lemma route_as_request (c : Auth.call) (user : Auth.User) (db : database) (req : request) :
  Auth.as_request c user = Some req ->
  Auth.route c user db = handle req db /\ request_target req = Auth.call_target c.
Proof.
  destruct c as [pid r now | pid [|body|] now | pid [|body|] now]; simpl;
    intros H; try discriminate; injection H as <-; auto.
Qed.

(** A call whose JSON is no object passes the guards of its route and
    then fails. *)
Lemma route_not_object (c : Auth.call) (user : Auth.User) (db : database) :
  Auth.as_request c user = None ->
  Auth.route c user db = (404%Z, db) /\ payments db !! Auth.call_target c = None
  \/ (exists p, payments db !! Auth.call_target c = Some p)
     /\ (Auth.route c user db = (400%Z, db) \/ Auth.route c user db = (500%Z, db)).
Proof.
  destruct c as [pid r now | pid [|body|] now | pid [|body|] now]; simpl;
    try discriminate; intros _;
    unfold Auth.cancel_payment_route, Auth.force_confirm_payment_route;
    (destruct (payments db !! pid) as [p|]; [right | left; auto]);
    (split; [eauto|]);
    match goal with |- context [if ?b then _ else _] => destruct b end; auto.
Qed.

(** The function under the decorator answers 200, 400, 404 or 500, and
    404 exactly when no payment is stored under the id of the URL. *)
Lemma route_codes (c : Auth.call) (user : Auth.User) (db : database) :
  (fst (Auth.route c user db) = 404%Z <-> payments db !! Auth.call_target c = None)
  /\ fst (Auth.route c user db) <> 401%Z
  /\ fst (Auth.route c user db) <> 403%Z.
Proof.
  destruct (Auth.as_request c user) as [req|] eqn:E.
  - destruct (route_as_request c user db req E) as [-> <-].
    destruct (payments db !! request_target req) as [p|] eqn:Hp.
    + rewrite (handle_found req db p Hp).
      destruct (answer_on_codes req p) as [H|[H|H]]; rewrite H; simpl;
        (split; [split; discriminate|]); split; discriminate.
    + rewrite (handle_missing req db Hp). simpl.
      split; [tauto|]. split; discriminate.
  - destruct (route_not_object c user db E) as [[-> Hp]|[[p Hp] [-> | ->]]]; simpl;
      rewrite Hp; (split; [split; (discriminate || tauto)|]); split; discriminate.
Qed.



(** X2.  A request that is not answered 200 changes nothing: neither the
    payments table nor the audit log (the 400 guards return before any
    write, a 500 rolls the session back). *)
Theorem refused_request_changes_nothing (req : request) (db : database) :
  fst (handle req db) <> 200%Z -> snd (handle req db) = db.
Proof.
  destruct (payments db !! request_target req) as [p|] eqn:Hp.
  - rewrite (handle_found req db p Hp).
    destruct (bool_decide (answer_on req p = 200%Z)); simpl; [congruence | reflexivity].
  - rewrite (handle_missing req db Hp). reflexivity.
Qed.

Lemma refused_request_changes_nothing_witness :
  snd (handle (ReqCancel "admin" "p-1" empty_body Examples.noon) Examples.db_completed)
  = Examples.db_completed.
Proof.
  apply refused_request_changes_nothing. vm_compute. discriminate.
Defined.

(** What a request answered 200 did. *)
Lemma handle_ok (req : request) (db : database) :
  fst (handle req db) = 200%Z ->
  exists p,
    payments db !! request_target req = Some p
    /\ answer_on req p = 200%Z
    /\ snd (handle req db)
       = commit db (request_target req) (stored_by req p)
           (mk_audit (request_actor req) (request_action req) (id p) (status p)
                     (status (stored_by req p))).
Proof.
  destruct (payments db !! request_target req) as [p|] eqn:Hp.
  - rewrite (handle_found req db p Hp).
    destruct (bool_decide (answer_on req p = 200%Z)) eqn:Hb; simpl.
    + intros _. exists p. apply bool_decide_eq_true_1 in Hb. auto.
    + intros H. apply bool_decide_eq_false_1 in Hb. contradiction.
  - rewrite (handle_missing req db Hp). discriminate.
Qed.

Lemma handle_step (req : request) (db : database) :
  snd (handle req db) = db
  \/ exists p,
       payments db !! request_target req = Some p
       /\ fst (handle req db) = 200%Z
       /\ snd (handle req db)
          = commit db (request_target req) (stored_by req p)
              (mk_audit (request_actor req) (request_action req) (id p) (status p)
                        (status (stored_by req p))).
Proof.
  destruct (Z.eq_dec (fst (handle req db)) 200%Z) as [H|H].
  - right. destruct (handle_ok req db H) as (p & Hp & _ & Hs). eauto.
  - left. now apply refused_request_changes_nothing.
Qed.

(** The fields no route writes. *)
Lemma stored_by_fixed (req : request) (p : Payment) :
  id (stored_by req p) = id p
  /\ user_id (stored_by req p) = user_id p
  /\ provider (stored_by req p) = provider p
  /\ amount (stored_by req p) = amount p
  /\ currency (stored_by req p) = currency p
  /\ created_at (stored_by req p) = created_at p.
Proof.
  destruct req as [u pid r now | u pid body now | u pid body now]; cbn [stored_by].
  - unfold synced. simpl. auto 10.
  - unfold cancelled. destruct (Py.truthy (cancel_reason body)); simpl; auto 10.
  - unfold force_confirmed, mark_completed.
    rewrite (update_status_accept "completed") by (simpl; tauto).
    destruct (Py.truthy (force_confirm_txid body now)); simpl; auto 10.
Qed.

Lemma stored_by_status (req : request) (p : Payment) :
  In (status (stored_by req p)) valid_statuses.
Proof.
  destruct req as [u pid r now | u pid body now | u pid body now]; cbn [stored_by].
  - unfold synced. simpl. pose proof (random_choice_sync r) as H.
    unfold sync_results in H. simpl in *. tauto.
  - unfold cancelled. simpl. tauto.
  - unfold force_confirmed, mark_completed.
    rewrite (update_status_accept "completed") by (simpl; tauto).
    destruct (Py.truthy (force_confirm_txid body now)); simpl; tauto.
Qed.

(** X3.  Serving requests neither creates nor deletes a payment, and a
    payment that no request of the sequence addresses is left exactly as
    it was. *)
Theorem serve_touches_addressed_only (reqs : list request) (db : database) (pid : string) :
  (is_Some (payments (serve reqs db) !! pid) <-> is_Some (payments db !! pid))
  /\ (Forall (fun req => request_target req <> pid) reqs ->
      payments (serve reqs db) !! pid = payments db !! pid).
Proof.
  revert db. induction reqs as [|req rest IH]; intros db; simpl.
  - split; [reflexivity | auto].
  - destruct (IH (snd (handle req db))) as [IH1 IH2].
    destruct (handle_step req db) as [Heq|(p & Hp & _ & Hs)].
    + rewrite Heq in *. split; [exact IH1|].
      intros Hall. inversion Hall as [|? ? _ Hrest]; subst. exact (IH2 Hrest).
    + split.
      * rewrite IH1, Hs. unfold commit; simpl.
        destruct (decide (request_target req = pid)) as [<-|Hne].
        -- rewrite lookup_insert_eq, Hp. split; eauto.
        -- now rewrite lookup_insert_ne.
      * intros Hall. inversion Hall as [|? ? Hne Hrest]; subst.
        rewrite (IH2 Hrest), Hs. now apply payments_commit_ne.
Qed.

Lemma serve_touches_addressed_only_witness :
  payments (serve [ReqForceConfirm "admin" "p-1" Examples.body_tx_b Examples.noon;
                   ReqSync "admin" "p-1" 2 Examples.noon] Examples.db_two) !! "p-2"
  = payments Examples.db_two !! "p-2".
Proof.
  apply (serve_touches_addressed_only _ Examples.db_two "p-2").
  repeat constructor; discriminate.
Defined.

(** X4.  A request answered 200 appends exactly one entry to the audit
    log, and the entry names the acting user, the action of the route, the
    payment, and the payment's status before and after the request. *)
Theorem success_is_audited (req : request) (db : database) :
  fst (handle req db) = 200%Z ->
  exists p p',
    payments db !! request_target req = Some p
    /\ payments (snd (handle req db)) !! request_target req = Some p'
    /\ audit_logs (snd (handle req db))
       = (audit_logs db
          ++ [mk_audit (request_actor req) (request_action req) (id p')
                       (status p) (status p')])%list.
Proof.
  intros H. destruct (handle_ok req db H) as (p & Hp & _ & ->).
  exists p, (stored_by req p). split; [exact Hp|].
  split; [apply payments_commit_eq|].
  unfold commit; simpl.
  now destruct (stored_by_fixed req p) as (-> & _).
Qed.

Lemma success_is_audited_witness :
  exists p p',
    payments Examples.db_pending !! "p-1" = Some p
    /\ payments (snd (handle (ReqCancel "admin" "p-1" empty_body Examples.noon)
                             Examples.db_pending)) !! "p-1" = Some p'
    /\ audit_logs (snd (handle (ReqCancel "admin" "p-1" empty_body Examples.noon)
                               Examples.db_pending))
       = (audit_logs Examples.db_pending
          ++ [mk_audit "admin" "CANCEL_PAYMENT" (id p') (status p) (status p')])%list.
Proof.
  apply (success_is_audited (ReqCancel "admin" "p-1" empty_body Examples.noon)
                            Examples.db_pending).
  vm_compute. reflexivity.
Defined.

(** X5.  Over any sequence of requests the audit log only grows at its
    end, by as many entries as there were 200 answers. *)
Theorem audit_log_counts_successes (reqs : list request) (db : database) :
  exists added,
    audit_logs (serve reqs db) = (audit_logs db ++ added)%list
    /\ length added = count_occ Z.eq_dec (serve_codes reqs db) 200%Z.
Proof.
  revert db. induction reqs as [|req rest IH]; intros db; simpl.
  - exists []. split; [now rewrite app_nil_r | reflexivity].
  - destruct (IH (snd (handle req db))) as (added & Hlog & Hlen).
    destruct (Z.eq_dec (fst (handle req db)) 200%Z) as [H|H].
    + destruct (handle_ok req db H) as (p & _ & _ & Hs).
      rewrite Hs in Hlog at 2. unfold commit in Hlog; simpl in Hlog.
      eexists (_ :: added). rewrite Hlog, <- app_assoc. split; [reflexivity|].
      simpl. now rewrite Hlen.
    + rewrite (refused_request_changes_nothing req db H) in Hlog at 2.
      exists added. split; [exact Hlog | exact Hlen].
Qed.

(** A completed record stays as it is, and every cancel and force-confirm
    addressed to it is answered 400, as long as no sync addresses it. *)
Lemma locked_without_sync (pid : string) (p : Payment) (reqs : list request) (db : database) :
  payments db !! pid = Some p ->
  status p = "completed" ->
  Auth.no_sync_on pid reqs = true ->
  payments (serve reqs db) !! pid = Some p
  /\ Forall2 (fun req code => request_target req = pid -> code = 400%Z)
             reqs (serve_codes reqs db).
Proof.
  intros Hp Hs. revert db Hp.
  induction reqs as [|req rest IH]; intros db Hp Hno; simpl.
  - split; [exact Hp | constructor].
  - simpl in Hno. apply andb_true_iff in Hno as [Hreq Hrest].
    destruct (decide (request_target req = pid)) as [Ht|Ht].
    + assert (Hh : handle req db = (400%Z, db)).
      { rewrite <- Ht in Hp. rewrite (handle_found req db p Hp).
        rewrite Ht, String.eqb_refl, andb_true_r in Hreq. apply negb_true_iff in Hreq.
        destruct req as [u q r now | u q body now | u q body now];
          [discriminate Hreq | |]; cbn [answer_on]; rewrite Hs; reflexivity. }
      rewrite Hh. simpl. destruct (IH db Hp Hrest) as [H1 H2].
      split; [exact H1|]. constructor; [reflexivity | exact H2].
    + assert (Hp' : payments (snd (handle req db)) !! pid = Some p).
      { destruct (handle_step req db) as [->|(q & _ & _ & ->)]; [exact Hp|].
        now rewrite payments_commit_ne. }
      destruct (IH _ Hp' Hrest) as [H1 H2].
      split; [exact H1|]. constructor; [contradiction | exact H2].
Qed.



(** The sequence that unlocks: after the force-confirm a sync draws
    pending, and the cancel and the force-confirm that follow go
    through. *)
Lemma sync_unlocks_a_confirmed_record :
  serve_codes [ReqForceConfirm "admin" "p-1" Examples.body_tx_b Examples.noon;
               ReqSync "admin" "p-1" 1 Examples.noon;
               ReqCancel "admin" "p-1" empty_body Examples.noon;
               ReqForceConfirm "admin" "p-1" empty_body Examples.noon]
              Examples.db_pending
  = [200%Z; 200%Z; 200%Z; 200%Z].
Proof. vm_compute. reflexivity. Qed.

(** What [cancel_payment] does under the decorator, on the body of the
    request. *)
Lemma cancel_payment_goes_through
    (u pid : string) (body : request_body) (now : datetime) (db : database) :
  (fst (cancel_payment u pid body now db) = 200%Z <->
   exists p, payments db !! pid = Some p
             /\ status p = "pending"
             /\ Py.truthy (cancel_reason body) && not_a_dict p = false)
  /\ (fst (cancel_payment u pid body now db) = 200%Z ->
      exists p', payments (snd (cancel_payment u pid body now db)) !! pid = Some p'
                 /\ status p' = "cancelled"
                 /\ (forall reason,
                        cancel_reason body = Some reason -> reason <> "" ->
                        payment_data_get p' "cancellation_reason" = Some (JStr reason))
                 /\ (body_reason body = Py.Absent ->
                     payment_data_get p' "cancellation_reason"
                     = Some (JStr "Cancelled by admin"))).
Proof.
  change (cancel_payment u pid body now db) with (handle (ReqCancel u pid body now) db).
  assert (Hans : forall p, answer_on (ReqCancel u pid body now) p = 200%Z <->
                           status p = "pending"
                           /\ Py.truthy (cancel_reason body) && not_a_dict p = false).
  { intros p. cbn [answer_on].
    destruct (String.eqb_spec (status p) "pending") as [Hs|Hs]; simpl.
    - destruct (Py.truthy (cancel_reason body) && not_a_dict p);
        intuition (try discriminate; auto).
    - intuition (try discriminate; auto). }
  assert (Hrec : forall p reason,
             cancel_reason body = Some reason -> reason <> "" ->
             payment_data_get (cancelled body now p) "cancellation_reason"
             = Some (JStr reason)).
  { intros p reason Hr Hne. rewrite payment_data_get_loaded.
    unfold cancelled, loaded_dict. rewrite Hr. simpl.
    apply String.eqb_neq in Hne. rewrite Hne. simpl. apply lookup_insert_eq. }
  split.
  - split.
    + intros H. destruct (handle_ok _ _ H) as (p & Hp & Ha & _).
      exists p. split; [exact Hp|]. now apply Hans.
    + intros (p & Hp & Hs & Hd).
      rewrite (handle_found (ReqCancel u pid body now) db p Hp).
      rewrite bool_decide_eq_true_2; [reflexivity|]. apply Hans; auto.
  - intros H. destruct (handle_ok _ _ H) as (p & Hp & Ha & ->).
    exists (cancelled body now p). split; [apply payments_commit_eq|].
    split; [reflexivity|]. split.
    + intros reason. apply Hrec.
    + intros Habs. apply Hrec; [|discriminate].
      unfold cancel_reason. now rewrite Habs.
Qed.

Lemma permission_required_passes (permission : string)
    (f : Auth.User -> database -> Z * database)
    (current : option Auth.User) (db : database) :
  Auth.authorised permission current = true ->
  exists user, current = Some user /\ Auth.permission_required permission f current db = f user db.
Proof.
  unfold Auth.authorised, Auth.permission_required.
  destruct current as [user|]; [|discriminate].
  intros H. apply andb_true_iff in H as [-> ->]. eauto.
Qed.

Lemma permission_required_refuses (permission : string)
    (f : Auth.User -> database -> Z * database)
    (current : option Auth.User) (db : database) :
  Auth.authorised permission current = false ->
  snd (Auth.permission_required permission f current db) = db
  /\ (fst (Auth.permission_required permission f current db) = 401%Z
      \/ fst (Auth.permission_required permission f current db) = 403%Z).
Proof.
  unfold Auth.authorised, Auth.permission_required.
  destruct current as [user|]; [|auto].
  destruct (Auth.is_active user); simpl; [|auto].
  intros ->. auto.
Qed.



(** X8.  The routes only ever store one of the four statuses of
    [update_status]: if every stored payment has one of them, so has every
    stored payment after any sequence of requests. *)
Theorem serve_keeps_statuses_valid (reqs : list request) (db : database) :
  (forall pid p, payments db !! pid = Some p -> In (status p) valid_statuses) ->
  forall pid p, payments (serve reqs db) !! pid = Some p -> In (status p) valid_statuses.
Proof.
  revert db. induction reqs as [|req rest IH]; intros db Hinv; simpl; [exact Hinv|].
  apply IH. intros pid p.
  destruct (handle_step req db) as [->|(q & Hq & _ & ->)]; [apply Hinv|].
  unfold commit; simpl. rewrite lookup_insert.
  destruct (decide (request_target req = pid)) as [_|_]; [|apply Hinv].
  intros [= <-]. apply stored_by_status.
Qed.

Lemma serve_keeps_statuses_valid_witness :
  exists p,
    payments (serve [ReqSync "admin" "p-1" 5 Examples.noon;
                     ReqForceConfirm "admin" "p-2" empty_body Examples.noon]
                    Examples.db_two) !! "p-1" = Some p
    /\ In (status p) valid_statuses.
Proof.
  assert (Hinv : forall pid p, payments Examples.db_two !! pid = Some p ->
                               In (status p) valid_statuses).
  { intros pid p. unfold Examples.db_two; simpl.
    rewrite lookup_insert. destruct (decide ("p-2" = pid)) as [_|_].
    - intros [= <-]. simpl. tauto.
    - rewrite lookup_singleton. destruct (decide ("p-1" = pid)) as [_|_]; [|discriminate].
      intros [= <-]. simpl. tauto. }
  pose proof (serve_keeps_statuses_valid
                [ReqSync "admin" "p-1" 5 Examples.noon;
                 ReqForceConfirm "admin" "p-2" empty_body Examples.noon]
                Examples.db_two Hinv "p-1") as H.
  destruct (payments (serve [ReqSync "admin" "p-1" 5 Examples.noon;
                             ReqForceConfirm "admin" "p-2" empty_body Examples.noon]
                            Examples.db_two) !! "p-1") as [p|] eqn:E.
  - exists p. split; [reflexivity | apply H; reflexivity].
  - vm_compute in E. discriminate E.
Defined.

(** X9.  A route only assigns its own keys of the payment data: every
    other key a request answered 200 finds in the dictionary is still
    there with the same value. *)
Theorem route_keeps_other_keys (req : request) (db : database) (k : string) :
  fst (handle req db) = 200%Z ->
  ~ In k (request_keys req) ->
  exists p p',
    payments db !! request_target req = Some p
    /\ payments (snd (handle req db)) !! request_target req = Some p'
    /\ payment_data_get p' k = payment_data_get p k.
Proof.
  intros H Hk. destruct (handle_ok req db H) as (p & Hp & _ & ->).
  exists p, (stored_by req p). split; [exact Hp|]. split; [apply payments_commit_eq|].
  rewrite !payment_data_get_loaded.
  destruct req as [u pid r now | u pid body now | u pid body now];
    cbn [stored_by request_keys] in *; simpl in Hk.
  - unfold synced, loaded_dict; simpl.
    rewrite !lookup_insert_ne by tauto. reflexivity.
  - unfold cancelled, loaded_dict.
    destruct (Py.truthy (cancel_reason body)); simpl; [|reflexivity].
    rewrite !lookup_insert_ne by tauto. reflexivity.
  - unfold force_confirmed, loaded_dict; simpl.
    rewrite !lookup_insert_ne by tauto. reflexivity.
Qed.

Lemma route_keeps_other_keys_witness :
  exists p p',
    payments Examples.db_pending !! "p-1" = Some p
    /\ payments (snd (handle (ReqSync "admin" "p-1" 0 Examples.noon)
                             Examples.db_pending)) !! "p-1" = Some p'
    /\ payment_data_get p' "force_confirmed" = payment_data_get p "force_confirmed".
Proof.
  apply (route_keeps_other_keys (ReqSync "admin" "p-1" 0 Examples.noon)
                                Examples.db_pending "force_confirmed").
  - vm_compute. reflexivity.
  - simpl. intuition discriminate.
Defined.

(** X10.  No sequence of requests changes the id, the user, the provider,
    the amount, the currency or the creation time of a stored payment. *)
Theorem serve_keeps_invoice_terms (reqs : list request) (db : database)
    (pid : string) (p : Payment) :
  payments db !! pid = Some p ->
  exists p',
    payments (serve reqs db) !! pid = Some p'
    /\ id p' = id p /\ user_id p' = user_id p /\ provider p' = provider p
    /\ amount p' = amount p /\ currency p' = currency p
    /\ created_at p' = created_at p.
Proof.
  revert db p. induction reqs as [|req rest IH]; intros db p Hp; simpl.
  - exists p. auto 10.
  - destruct (handle_step req db) as [Heq|(q & Hq & _ & Hs)].
    + rewrite Heq. now apply IH.
    + destruct (decide (request_target req = pid)) as [<-|Hne].
      * rewrite Hp in Hq. injection Hq as <-.
        destruct (IH (snd (handle req db)) (stored_by req p))
          as (p' & Hp' & H1 & H2 & H3 & H4 & H5 & H6);
          [rewrite Hs; apply payments_commit_eq|].
        destruct (stored_by_fixed req p) as (E1 & E2 & E3 & E4 & E5 & E6).
        exists p'. rewrite <- E1, <- E2, <- E3, <- E4, <- E5, <- E6. auto 10.
      * apply IH. rewrite Hs, payments_commit_ne by exact Hne. exact Hp.
Qed.

Lemma serve_keeps_invoice_terms_witness :
  exists p',
    payments (serve [ReqForceConfirm "admin" "p-1" Examples.body_tx_b Examples.noon]
                    Examples.db_pending) !! "p-1" = Some p'
    /\ id p' = id Examples.pay1 /\ user_id p' = user_id Examples.pay1
    /\ provider p' = provider Examples.pay1
    /\ amount p' = amount Examples.pay1 /\ currency p' = currency Examples.pay1
    /\ created_at p' = created_at Examples.pay1.
Proof.
  apply serve_keeps_invoice_terms. vm_compute. reflexivity.
Defined.

Lemma string_length_append (s1 s2 : string) :
  String.length (s1 ++ s2) = (String.length s1 + String.length s2)%nat.
Proof. induction s1 as [|c s1 IH]; simpl; [reflexivity | now rewrite IH]. Qed.

Lemma pad_length (w n : nat) : String.length (pad w n) = w.
Proof.
  revert n. induction w as [|w IH]; intros n; simpl; [reflexivity|].
  rewrite string_length_append, IH. simpl. lia.
Qed.

Lemma strftime_stamp_length (dt : datetime) : String.length (strftime_stamp dt) = 15%nat.
Proof.
  unfold strftime_stamp.
  repeat rewrite string_length_append. repeat rewrite pad_length. reflexivity.
Qed.

(** X11.  A force-confirm that goes through with no [transaction_id] key
    in its body attributes the payment to the generated override id,
    [ADMIN_OVERRIDE_] followed by the 15 characters of the time stamp (for
    a year of four digits), replacing whatever id was stored. *)
Theorem force_confirm_default_id
    (u pid : string) (body : request_body) (now : datetime) (db : database) :
  (1000 <= Z.of_nat (year now) <= 9999)%Z ->
  body_transaction_id body = Py.Absent ->
  fst (force_confirm_payment u pid body now db) = 200%Z ->
  transaction_id_of (snd (force_confirm_payment u pid body now db)) pid
  = Some (Some ("ADMIN_OVERRIDE_" ++ strftime_stamp now))
  /\ String.length ("ADMIN_OVERRIDE_" ++ strftime_stamp now) = 30%nat.
Proof.
  intros _ Hb H. split.
  - destruct (handle_ok (ReqForceConfirm u pid body now) db H) as (p & Hp & _ & Hs).
    change (force_confirm_payment u pid body now db)
      with (handle (ReqForceConfirm u pid body now) db).
    rewrite Hs. unfold transaction_id_of. rewrite payments_commit_eq.
    cbn [stored_by fmap option_fmap option_map].
    unfold force_confirmed, mark_completed, force_confirm_txid.
    rewrite Hb. rewrite (update_status_accept "completed") by (simpl; tauto).
    reflexivity.
  - rewrite string_length_append, strftime_stamp_length. reflexivity.
Qed.

Lemma force_confirm_default_id_witness :
  transaction_id_of (snd (force_confirm_payment "admin" "p-1" empty_body Examples.noon
                                                Examples.db_pending)) "p-1"
  = Some (Some ("ADMIN_OVERRIDE_" ++ strftime_stamp Examples.noon))
  /\ String.length ("ADMIN_OVERRIDE_" ++ strftime_stamp Examples.noon) = 30%nat.
Proof.
  apply force_confirm_default_id; [vm_compute; intuition discriminate | reflexivity |
                                   vm_compute; reflexivity].
Defined.

(* ===================================================================== *)
(** * Further properties of the Payment model *)
(* ===================================================================== *)

(** X12.  [mark_failed] never returns False.  With a reason and payment
    data that decodes to JSON other than an object it raises before the
    status is touched; otherwise it returns True with the status failed,
    the transaction id kept, and the reason, when one is given, stored
    under [failure_reason]; without a reason the payment data is left
    alone. *)
Theorem mark_failed_outcome (reason : option string) (now : datetime) (p : Payment) :
  (Py.truthy reason = true -> payment_data p = TextOther ->
   exists e, mark_failed reason now p = Raise e)
  /\ (Py.truthy reason = true -> payment_data p <> TextOther ->
      exists p', mark_failed reason now p = Ok true p'
                 /\ status p' = "failed"
                 /\ transaction_id p' = transaction_id p
                 /\ payment_data_get p' "failure_reason" = Some (reason_value reason))
  /\ (Py.truthy reason = false ->
      exists p', mark_failed reason now p = Ok true p'
                 /\ status p' = "failed"
                 /\ transaction_id p' = transaction_id p
                 /\ payment_data p' = payment_data p).
Proof.
  unfold mark_failed, bind, update_statusM, get_payment_data.
  split; [|split].
  - intros -> Hd. rewrite Hd. simpl. eauto.
  - intros -> Hd.
    destruct (payment_data p) eqn:E; try contradiction; simpl;
      (eexists; split; [reflexivity|]; split; [reflexivity|]; split; [reflexivity|];
       rewrite payment_data_get_loaded; unfold loaded_dict; simpl;
       apply lookup_insert_eq).
  - intros ->. simpl. eexists. split; [reflexivity|]. simpl. auto.
Qed.

Lemma mark_failed_outcome_witness :
  exists p', mark_failed (Some "chargeback") Examples.noon Examples.pay1 = Ok true p'
             /\ status p' = "failed"
             /\ transaction_id p' = transaction_id Examples.pay1
             /\ payment_data_get p' "failure_reason" = Some (reason_value (Some "chargeback")).
Proof.
  apply (proj1 (proj2 (mark_failed_outcome (Some "chargeback") Examples.noon Examples.pay1))).
  - reflexivity.
  - vm_compute. discriminate.
Defined.

(* ===================================================================== *)
(** * Further properties of the payment service *)
(* ===================================================================== *)

Section ServiceExtras.
Import Blockchain PaymentSvc PaymentInfo.

Lemma wallet_lookup (c a : string) :
  wallet_addresses !! c = Some a ->
  (c = "BTC" /\ a = "14MxL4x95TRTYJroWe8bWy4wSLq6c4WCr5")
  \/ (c = "USDT_TRC20" /\ a = "TJkLFH53mJUzaTMxLtYqa28jzL9CppJotV")
  \/ (c = "USDT_ERC20" /\ a = "0xdd3a7fd3a23c7bf18a9956ca1a1cc8f35d4fce25").
Proof.
  intros H. apply elem_of_list_to_map_2 in H.
  repeat (apply elem_of_cons in H as [H|H]; [injection H as -> ->; tauto|]).
  now apply elem_of_nil in H.
Qed.

(** The two shapes of a manual invoice. *)
Lemma manual_invoice_cases (rnd : entropy) (amount : Q) (currency order_id : string)
    (description : option string) :
  exists c a,
    _create_manual_invoice rnd amount currency order_id description
    = mk_invoice (Some ("manual_" ++ uuid4_hex8 rnd)) None (Some a) (Some amount)
                 (Some c) "pending" (Some (isoformat (now_plus_24h rnd))) "manual"
                 (Some (amount, c))
    /\ wallet_addresses !! c = Some a
    /\ (c = Py.upper currency
        \/ (wallet_addresses !! Py.upper currency = None /\ c = "USDT_TRC20")).
Proof.
  unfold _create_manual_invoice.
  destruct (wallet_addresses !! Py.upper currency) as [a|] eqn:E.
  - exists (Py.upper currency), a.
    assert (Ht : Py.truthy (Some a) = true).
    { destruct (wallet_lookup _ _ E) as [[_ ->]|[[_ ->]|[_ ->]]]; reflexivity. }
    rewrite Ht. simpl. auto.
  - exists "USDT_TRC20", "TJkLFH53mJUzaTMxLtYqa28jzL9CppJotV". simpl.
    split; [reflexivity|]. split; [reflexivity|]. auto.
Qed.

(** X13.  A manual invoice always carries one of the three configured
    currencies together with the wallet address configured for exactly
    that currency, status pending and an id prefixed [manual_]; a currency
    without a configured wallet is replaced by USDT_TRC20. *)
Theorem manual_invoice_wallet (rnd : entropy) (amount : Q) (currency order_id : string)
    (description : option string) :
  let inv := _create_manual_invoice rnd amount currency order_id description in
  exists c a,
    inv_currency inv = Some c
    /\ inv_address inv = Some a
    /\ wallet_addresses !! c = Some a
    /\ In c ["BTC"; "USDT_TRC20"; "USDT_ERC20"]
    /\ (wallet_addresses !! Py.upper currency = None -> c = "USDT_TRC20")
    /\ inv_status inv = "pending"
    /\ inv_amount inv = Some amount
    /\ invoice_id inv = Some ("manual_" ++ uuid4_hex8 rnd).
Proof.
  cbv zeta.
  destruct (manual_invoice_cases rnd amount currency order_id description)
    as (c & a & -> & Hw & Hc).
  exists c, a. simpl. repeat split; auto.
  - destruct (wallet_lookup _ _ Hw) as [[-> _]|[[-> _]|[-> _]]]; tauto.
  - intros Hn. destruct Hc as [->|[_ ->]]; [|reflexivity].
    rewrite Hn in Hw. discriminate.
Qed.

Lemma manual_invoice_wallet_witness :
  exists c a,
    inv_currency (_create_manual_invoice Examples.rnd0 (5 # 1) "doge" "order-3" None) = Some c
    /\ inv_address (_create_manual_invoice Examples.rnd0 (5 # 1) "doge" "order-3" None) = Some a
    /\ wallet_addresses !! c = Some a
    /\ c = "USDT_TRC20".
Proof.
  destruct (manual_invoice_wallet Examples.rnd0 (5 # 1) "doge" "order-3" None)
    as (c & a & Hc & Ha & Hw & _ & Hdef & _).
  exists c, a. split; [exact Hc|]. split; [exact Ha|]. split; [exact Hw|].
  apply Hdef. vm_compute. reflexivity.
Defined.

(** X14.  Invoice creation never fails and never answers anything but a
    pending invoice of one of the three providers, whatever the upstream
    services do; an invoice is BTCPay's only if NowPayments is not
    configured, and NowPayments' only if its key is. *)
Theorem created_invoice_is_pending
    (svc : PaymentService) (papi : provider_api) (rnd : entropy)
    (amount : Q) (currency order_id : string) (description : option string) :
  let made := create_payment_invoice svc papi rnd amount currency order_id description in
  inv_status made = "pending"
  /\ In (inv_provider made) ["nowpayments"; "btcpay"; "manual"]
  /\ (inv_provider made = "nowpayments" -> Py.truthy (nowpayments_api_key svc) = true)
  /\ (inv_provider made = "btcpay" ->
      Py.truthy (nowpayments_api_key svc) = false
      /\ Py.truthy (btcpay_api_key svc) && Py.truthy (btcpay_url svc) = true).
Proof.
  cbv zeta.
  destruct (manual_invoice_cases rnd amount currency order_id description)
    as (c & a & Hm & _ & _).
  unfold create_payment_invoice. rewrite Hm.
  destruct (Py.truthy (nowpayments_api_key svc)) eqn:Hk.
  - unfold _create_nowpayments_invoice, rbind.
    destruct (_make_nowpayments_request _); simpl;
      repeat split; try tauto; try discriminate.
  - destruct (Py.truthy (btcpay_api_key svc) && Py.truthy (btcpay_url svc)) eqn:Hb.
    + unfold _create_btcpay_invoice, rbind.
      destruct (_make_btcpay_request _ _) as [response|e]; simpl.
      * destruct (btcpay_address response currency); simpl;
          [destruct (btcpay_amount response); simpl|];
          repeat split; try tauto; try discriminate.
      * repeat split; try tauto; try discriminate.
    + simpl. repeat split; try tauto; try discriminate.
Qed.

Lemma created_invoice_is_pending_witness :
  inv_provider (create_payment_invoice (mk_service None (Some "bp-key") (Some "https://btcpay.example"))
                                       Examples.btcpay_up Examples.rnd0
                                       (1 # 100) "btc" "order-9" None) = "btcpay"
  /\ Py.truthy (nowpayments_api_key (mk_service None (Some "bp-key") (Some "https://btcpay.example")))
     = false.
Proof.
  assert (H : inv_provider (create_payment_invoice
                              (mk_service None (Some "bp-key") (Some "https://btcpay.example"))
                              Examples.btcpay_up Examples.rnd0
                              (1 # 100) "btc" "order-9" None) = "btcpay")
    by (vm_compute; reflexivity).
  split; [exact H|].
  exact (proj1 (proj2 (proj2 (proj2 (created_invoice_is_pending
           (mk_service None (Some "bp-key") (Some "https://btcpay.example"))
           Examples.btcpay_up Examples.rnd0 (1 # 100) "btc" "order-9" None))) H)).
Defined.

End ServiceExtras.

Section StatusExtras.
Import Blockchain PaymentSvc PaymentInfo.

Lemma nowpayments_map_status (native : Py.field string) :
  In (map_status nowpayments_status_map native "waiting") status_vocabulary
  /\ (map_status nowpayments_status_map native "waiting" = "completed" ->
      native = Py.Present (Some "finished")).
Proof.
  unfold map_status, Py.get_default.
  destruct native as [|[s|]].
  - vm_compute. split; [tauto | discriminate].
  - destruct (nowpayments_status_map !! s) as [v|] eqn:E; simpl.
    + apply elem_of_list_to_map_2 in E.
      repeat (apply elem_of_cons in E as [E|E];
              [injection E as -> ->; split; [simpl; tauto | try discriminate; auto]|]).
      now apply elem_of_nil in E.
    + split; [simpl; tauto | discriminate].
  - split; [simpl; tauto | discriminate].
Qed.

Lemma btcpay_map_status (native : Py.field string) :
  In (map_status btcpay_status_map native "New") status_vocabulary
  /\ (map_status btcpay_status_map native "New" = "completed" ->
      native = Py.Present (Some "Complete")).
Proof.
  unfold map_status, Py.get_default.
  destruct native as [|[s|]].
  - vm_compute. split; [tauto | discriminate].
  - destruct (btcpay_status_map !! s) as [v|] eqn:E; simpl.
    + apply elem_of_list_to_map_2 in E.
      repeat (apply elem_of_cons in E as [E|E];
              [injection E as -> ->; split; [simpl; tauto | try discriminate; auto]|]).
      now apply elem_of_nil in E.
    + split; [simpl; tauto | discriminate].
  - split; [simpl; tauto | discriminate].
Qed.


(** X16.  A status check answers completed only when the provider the
    invoice belongs to is configured and answered 200 with its own final
    status: [finished] for NowPayments, [Complete] for BTCPay.  No
    failure, no missing or unknown upstream status and no manual invoice
    ever yields completed. *)
Theorem completed_only_when_provider_finished
    (svc : PaymentService) (papi : provider_api) (invoice_id : string)
    (provider : option string) :
  rep_status (check_payment_status svc papi invoice_id provider) = "completed" ->
  (provider = Some "nowpayments"
   /\ Py.truthy (nowpayments_api_key svc) = true
   /\ exists response,
        nowpayments_get_invoice papi invoice_id = HttpResponse 200 response
        /\ np_payment_status response = Py.Present (Some "finished"))
  \/ (provider = Some "btcpay"
      /\ Py.truthy (btcpay_api_key svc) = true
      /\ Py.truthy (btcpay_url svc) = true
      /\ exists response,
           btcpay_get_invoice papi invoice_id = HttpResponse 200 response
           /\ bp_status response = Py.Present (Some "Complete")).
Proof.
  unfold check_payment_status.
  destruct (bool_decide (provider = Some "nowpayments")) eqn:Hn; simpl.
  - apply bool_decide_eq_true_1 in Hn.
    destruct (Py.truthy (nowpayments_api_key svc)) eqn:Hk; simpl.
    + unfold _check_nowpayments_status, _make_nowpayments_request, rbind.
      destruct (nowpayments_get_invoice papi invoice_id) as [e|code resp]; simpl;
        [discriminate|].
      destruct (Z.eqb_spec code 200) as [->|_]; simpl; [|discriminate].
      intros H. left. repeat split; auto.
      exists resp. split; [reflexivity|]. now apply nowpayments_map_status.
    + subst provider. simpl. discriminate.
  - destruct (bool_decide (provider = Some "btcpay")) eqn:Hb; simpl; [|discriminate].
    apply bool_decide_eq_true_1 in Hb.
    destruct (Py.truthy (btcpay_api_key svc)) eqn:Hk; simpl; [|discriminate].
    unfold _check_btcpay_status, _make_btcpay_request, rbind. rewrite Hk.
    destruct (Py.truthy (btcpay_url svc)) eqn:Hu; simpl; [|discriminate].
    destruct (btcpay_get_invoice papi invoice_id) as [e|code resp]; simpl;
      [discriminate|].
    destruct (Z.eqb_spec code 200) as [->|_]; simpl; [|discriminate].
    intros H. right. repeat split; auto.
    exists resp. split; [reflexivity|]. now apply btcpay_map_status.
Qed.

(** X17.  When the provider of the invoice is configured and its call
    does not come back with status 200, the status check answers unknown
    with the error text and nothing else: no transaction id, no amounts.
    A BTCPay check with a key and no URL answers unknown without calling
    BTCPay at all. *)
Theorem failed_status_check_is_unknown
    (svc : PaymentService) (papi : provider_api) (invoice_id : string) :
  let failure e := mk_report "unknown" None None None None None None None (Some e) in
  (Py.truthy (nowpayments_api_key svc) = true ->
   answered (nowpayments_get_invoice papi invoice_id) = None ->
   exists e, check_payment_status svc papi invoice_id (Some "nowpayments") = failure e)
  /\ (Py.truthy (btcpay_api_key svc) = true ->
      answered (btcpay_get_invoice papi invoice_id) = None ->
      exists e, check_payment_status svc papi invoice_id (Some "btcpay") = failure e)
  /\ (Py.truthy (btcpay_api_key svc) = true ->
      Py.truthy (btcpay_url svc) = false ->
      check_payment_status svc papi invoice_id (Some "btcpay")
      = failure "BTCPay Server configuration missing").
Proof.
  cbv zeta. unfold check_payment_status. split; [|split].
  - intros -> Ha. simpl.
    unfold _check_nowpayments_status, _make_nowpayments_request, rbind.
    pose proof (handle_response_answered (nowpayments_get_invoice papi invoice_id)) as H.
    rewrite Ha in H. destruct H as [e ->]. simpl. eexists; reflexivity.
  - intros Hk Ha. rewrite Hk. simpl.
    unfold _check_btcpay_status, _make_btcpay_request, rbind. rewrite Hk.
    destruct (Py.truthy (btcpay_url svc)); simpl; [|eexists; reflexivity].
    pose proof (handle_response_answered (btcpay_get_invoice papi invoice_id)) as H.
    rewrite Ha in H. destruct H as [e ->]. simpl. eexists; reflexivity.
  - intros Hk Hu. rewrite Hk. simpl.
    unfold _check_btcpay_status, _make_btcpay_request, rbind. rewrite Hu. reflexivity.
Qed.

Lemma failed_status_check_is_unknown_witness :
  exists e, check_payment_status Examples.svc_all Examples.providers_down "np-5"
                                 (Some "nowpayments")
            = mk_report "unknown" None None None None None None None (Some e).
Proof.
  apply (proj1 (failed_status_check_is_unknown Examples.svc_all Examples.providers_down "np-5"));
    reflexivity.
Defined.

Lemma completed_only_when_provider_finished_witness :
  (Some "nowpayments" = Some "nowpayments"
   /\ Py.truthy (nowpayments_api_key Examples.svc_all) = true
   /\ exists response,
        nowpayments_get_invoice Examples.nowpayments_finished "np-6"
        = HttpResponse 200 response
        /\ np_payment_status response = Py.Present (Some "finished"))
  \/ (Some "nowpayments" = Some "btcpay"
      /\ Py.truthy (btcpay_api_key Examples.svc_all) = true
      /\ Py.truthy (btcpay_url Examples.svc_all) = true
      /\ exists response,
           btcpay_get_invoice Examples.nowpayments_finished "np-6" = HttpResponse 200 response
           /\ bp_status response = Py.Present (Some "Complete")).
Proof.
  apply (completed_only_when_provider_finished Examples.svc_all Examples.nowpayments_finished
           "np-6" (Some "nowpayments")).
  vm_compute. reflexivity.
Defined.

End StatusExtras.

Section InfoExtras.
Import Blockchain PaymentSvc PaymentInfo.

Lemma get_supported_currencies_eq (svc : PaymentService) (api : info_api) :
  get_supported_currencies svc api =
    if Py.truthy (nowpayments_api_key svc) then
      match answered (nowpayments_get_currencies api) with
      | Some cs => map (fun c => mk_currency_info c c "auto" (1 # 1000)) cs
      | None => []
      end
    else manual_currencies.
Proof.
  unfold get_supported_currencies, _make_nowpayments_request, rbind.
  pose proof (handle_response_answered (nowpayments_get_currencies api)) as H.
  destruct (Py.truthy (nowpayments_api_key svc)); [|reflexivity].
  destruct (answered (nowpayments_get_currencies api)) as [cs|].
  - now rewrite H.
  - destruct H as [e ->]. reflexivity.
Qed.

(** X18.  The list of supported currencies is empty exactly when
    NowPayments is configured and its call fails or lists nothing (the
    manual currencies are not used as a fallback then); without a key it
    is the three manual entries; with a key and an answer it lists the
    upstream currencies in their order, each on network [auto].  Every
    entry has a positive minimum amount. *)
Theorem supported_currencies_outcome (svc : PaymentService) (api : info_api) :
  let l := get_supported_currencies svc api in
  Forall (fun ci => (0 < ci_min_amount ci)%Q) l
  /\ (l = [] <->
      Py.truthy (nowpayments_api_key svc) = true
      /\ (answered (nowpayments_get_currencies api) = None
          \/ answered (nowpayments_get_currencies api) = Some []))
  /\ (Py.truthy (nowpayments_api_key svc) = false ->
      map ci_currency l = ["BTC"; "USDT"; "USDT"]
      /\ map ci_network l = ["BTC"; "TRC20"; "ERC20"])
  /\ (forall cs,
         Py.truthy (nowpayments_api_key svc) = true ->
         answered (nowpayments_get_currencies api) = Some cs ->
         map ci_currency l = cs
         /\ Forall (fun ci => ci_network ci = "auto" /\ ci_name ci = ci_currency ci) l).
Proof.
  cbv zeta. rewrite get_supported_currencies_eq.
  split; [|split; [|split]].
  - destruct (Py.truthy (nowpayments_api_key svc)).
    + destruct (answered (nowpayments_get_currencies api)) as [cs|]; [|constructor].
      induction cs as [|c cs IH]; simpl; constructor; [reflexivity | exact IH].
    + repeat constructor.
  - destruct (Py.truthy (nowpayments_api_key svc)).
    + destruct (answered (nowpayments_get_currencies api)) as [[|c cs]|]; simpl.
      * split; auto.
      * split; [discriminate | intros [_ [H|H]]; discriminate].
      * split; auto.
    + split; [discriminate | intros [H _]; discriminate].
  - intros ->. split; reflexivity.
  - intros cs -> ->. split.
    + induction cs as [|c cs IH]; simpl; [reflexivity | now rewrite IH].
    + induction cs as [|c cs IH]; simpl; constructor; auto.
Qed.

Lemma supported_currencies_outcome_witness :
  get_supported_currencies Examples.svc_all Examples.info_down = [].
Proof.
  apply (proj1 (proj2 (supported_currencies_outcome Examples.svc_all Examples.info_down))).
  split; [reflexivity | left; reflexivity].
Defined.



End InfoExtras.

(* ===================================================================== *)
(** * Further properties of the chain verifiers and balances *)
(* ===================================================================== *)

Section ChainExtras.
Import Blockchain ChainSpec Balance PaymentSvc.

(** X21.  A verified answer always reports at least one confirmation: the
    count of the explorer on ETH and BSC, and exactly 1 on BTC and TRON,
    where the source only has a confirmed flag. *)
Theorem verified_reports_confirmation
    (n : network) (api : chain_api) (address : string) (amount : float)
    (key : option string) (t : option string) (a : float) (c : Z) (b : option Z) :
  run_verifier n api address amount key = Verified t a c b ->
  (1 <= c)%Z /\ (hex_chain n = false -> c = 1%Z).
Proof.
  intros Hr.
  destruct (accepted_transfers n api address key) as [records|] eqn:Hacc.
  2:{ rewrite (run_verifier_not_fetched _ _ _ _ _ Hacc) in Hr. discriminate. }
  pose proof (run_verifier_answers n api address amount key records Hacc) as Ha.
  rewrite Hr in Ha. destruct Ha as (pre & tr & post & -> & Hq & _ & Hrep).
  unfold spec_qualifies in Hq. apply andb_true_iff in Hq as [_ Hc].
  unfold report in Hrep. injection Hrep as _ _ -> _.
  apply (accepted_transfer_facts n api address key _ tr Hacc); [|exact Hc].
  apply in_or_app. right. now left.
Qed.

Lemma verified_reports_confirmation_witness :
  (1 <= 1)%Z /\ (hex_chain TRC20_USDT = false -> 1%Z = 1%Z).
Proof.
  apply (verified_reports_confirmation TRC20_USDT Examples.api_tron Examples.tron_addr
           Examples.usdt_50 None (Some "trx_2") 60%float 1 (Some 61000002%Z)).
  vm_compute. reflexivity.
Defined.

(** *** Monotonicity of the loops *)

Lemma btc_scan_outputs_mono (address : string) (a a' : float) (tx : btc_tx)
    (outputs : list btc_vout) :
  PrimFloat.leb a' a = true ->
  match btc_scan_outputs address a tx outputs with
  | Some r =>
      verified r = true ->
      exists r', btc_scan_outputs address a' tx outputs = Some r' /\ verified r' = true
  | None =>
      btc_scan_outputs address a' tx outputs = None
      \/ exists r', btc_scan_outputs address a' tx outputs = Some r' /\ verified r' = true
  end.
Proof.
  intros Hle. induction outputs as [|output rest IH]; [now left|].
  cbn [btc_scan_outputs].
  destruct (eq_address (scriptpubkey_address output) address); [|exact IH].
  destruct (Py.truediv_get (value output) 0 100000000) as [x|e]; [|discriminate].
  destruct (tx_confirmed tx) as [c|e]; [|discriminate].
  destruct (PrimFloat.leb a x) eqn:Hax; cbn [andb].
  - rewrite (float_leb_trans _ _ _ Hle Hax). cbn [andb].
    destruct c; [intros _; eexists; split; reflexivity|].
    exact IH.
  - destruct (PrimFloat.leb a' x && c); [|exact IH].
    destruct (btc_scan_outputs address a tx rest) as [r|].
    + intros _. eexists; split; reflexivity.
    + right. eexists; split; reflexivity.
Qed.

Lemma btc_scan_mono (address : string) (a a' : float) (transactions : list btc_tx) :
  PrimFloat.leb a' a = true ->
  verified (btc_scan address a transactions) = true ->
  verified (btc_scan address a' transactions) = true.
Proof.
  intros Hle. induction transactions as [|tx rest IH]; [discriminate|].
  cbn [btc_scan].
  destruct (Py.get_default (vout tx) []) as [outputs|]; [|discriminate].
  pose proof (btc_scan_outputs_mono address a a' tx outputs Hle) as Hin.
  destruct (btc_scan_outputs address a tx outputs) as [r|].
  - intros Hv. destruct (Hin Hv) as (r' & -> & Hv'). exact Hv'.
  - destruct Hin as [->|(r' & -> & Hv')]; [exact IH | intros _; exact Hv'].
Qed.

Lemma tokentx_scan_mono (divisor : Z) (address : string) (a a' : float)
    (transactions : list tokentx) :
  PrimFloat.leb a' a = true ->
  verified (tokentx_scan divisor address a transactions) = true ->
  verified (tokentx_scan divisor address a' transactions) = true.
Proof.
  intros Hle. induction transactions as [|tx rest IH]; [discriminate|].
  cbn [tokentx_scan].
  destruct (tt_to tx) as [to|]; [|discriminate].
  destruct (String.eqb (Py.lower to) (Py.lower address)); [|exact IH].
  destruct (Py.float_get (tt_value tx) 0) as [v|e]; [|discriminate].
  destruct (Py.int_get (tt_confirmations tx) 0) as [c|e]; [|discriminate].
  destruct (PrimFloat.leb a _) eqn:Hax; cbn [andb].
  - rewrite (float_leb_trans _ _ _ Hle Hax). cbn [andb].
    destruct (1 <=? c)%Z; [reflexivity | exact IH].
  - intros H. specialize (IH H).
    destruct (PrimFloat.leb a' _ && (1 <=? c)%Z); [reflexivity | exact IH].
Qed.

Lemma tron_scan_mono (api : chain_api) (address : string) (a a' : float)
    (transactions : list trc20_tx) :
  PrimFloat.leb a' a = true ->
  verified (tron_scan api address a transactions) = true ->
  verified (tron_scan api address a' transactions) = true.
Proof.
  intros Hle. induction transactions as [|tx rest IH]; [discriminate|].
  cbn [tron_scan].
  destruct (eq_address (trc_to tx) address); [|exact IH].
  destruct (Py.float_get (trc_value tx) 0) as [v|e]; [|discriminate].
  destruct (PrimFloat.leb a _) eqn:Hax; cbn [andb].
  - rewrite (float_leb_trans _ _ _ Hle Hax). cbn [andb].
    destruct (match _get_tron_transaction_info api (trc_transaction_id tx) with
              | Some info => info_confirmed info
              | None => false
              end); [reflexivity | exact IH].
  - intros H. specialize (IH H).
    destruct (PrimFloat.leb a' _ && _); [reflexivity | exact IH].
Qed.

(** X22.  Verification is monotone in the expected amount: if a verifier
    answers verified for an amount, it answers verified for every smaller
    amount on the same upstream answers (possibly naming an earlier
    transfer). *)
Theorem verifier_monotone_in_amount
    (n : network) (api : chain_api) (address : string) (a a' : float)
    (key : option string) :
  PrimFloat.leb a' a = true ->
  verified (run_verifier n api address a key) = true ->
  verified (run_verifier n api address a' key) = true.
Proof.
  intros Hle.
  destruct n; simpl;
    unfold verify_btc_payment, verify_eth_usdt_payment, verify_tron_usdt_payment,
           verify_bsc_usdt_payment;
    match goal with |- context [_make_request ?o] => destruct (_make_request o) as [body|] end;
    try discriminate.
  - destruct body as [|tx txs]; [discriminate|]. now apply btc_scan_mono.
  - destruct (negb (bool_decide (resp_status body = Some "1"))); [discriminate|].
    destruct (Py.get_default (resp_result body) []); [|discriminate].
    now apply tokentx_scan_mono.
  - destruct (negb (trc_success body)); [discriminate|].
    destruct (Py.get_default (trc_data body) []); [|discriminate].
    now apply tron_scan_mono.
  - destruct (negb (bool_decide (resp_status body = Some "1"))); [discriminate|].
    destruct (Py.get_default (resp_result body) []); [|discriminate].
    now apply tokentx_scan_mono.
Qed.

Lemma verifier_monotone_in_amount_witness :
  verified (run_verifier TRC20_USDT Examples.api_tron Examples.tron_addr Examples.usdt_5 None)
  = true.
Proof.
  apply (verifier_monotone_in_amount TRC20_USDT Examples.api_tron Examples.tron_addr
           Examples.usdt_50 Examples.usdt_5 None).
  - vm_compute. reflexivity.
  - vm_compute. reflexivity.
Defined.

End ChainExtras.

Section DispatchExtras.
Import Blockchain ChainSpec Balance PaymentSvc.

(** X23.  [verify_payment] knows two currency words, BTC and USDT (in any
    case); every other word is answered with an unsupported-currency
    error, without any upstream call.  The currency codes the manual
    invoices carry for Tether, USDT_TRC20 and USDT_ERC20, are such words:
    handed to [verify_payment] with the invoice's address, a manual
    invoice is checked on chain only when it is a BTC invoice, and is
    refused as unsupported otherwise, whatever network is named. *)
Theorem manual_invoice_verification
    (rnd : entropy) (amount : Q) (currency order_id : string) (description : option string)
    (api : chain_api) (expected : float) (network : option string) :
  let inv := _create_manual_invoice rnd amount currency order_id description in
  (forall word,
      Py.upper word <> "BTC" -> Py.upper word <> "USDT" ->
      forall address,
        verify_payment api word address expected network
        = VerifyError ("Unsupported currency: " ++ Py.upper word))
  /\ exists c a,
       inv_currency inv = Some c /\ inv_address inv = Some a
       /\ verify_payment api c a expected network
          = if String.eqb c "BTC" then verify_btc_payment api a expected 1
            else VerifyError ("Unsupported currency: " ++ c).
Proof.
  cbv zeta. split.
  - intros word Hb Hu address. unfold verify_payment.
    apply String.eqb_neq in Hb. apply String.eqb_neq in Hu. now rewrite Hb, Hu.
  - destruct (manual_invoice_cases rnd amount currency order_id description)
      as (c & a & -> & Hw & _).
    exists c, a. split; [reflexivity|]. split; [reflexivity|].
    destruct (wallet_lookup _ _ Hw) as [[-> _]|[[-> _]|[-> _]]]; reflexivity.
Qed.

Lemma manual_invoice_verification_witness :
  verify_payment Examples.api_tron "usdt_trc20" Examples.tron_addr Examples.usdt_50
                 (Some "TRC20")
  = VerifyError ("Unsupported currency: " ++ Py.upper "usdt_trc20").
Proof.
  refine (proj1 (manual_invoice_verification Examples.rnd0 (50 # 1) "usdt_trc20" "order-1" None
                   Examples.api_tron Examples.usdt_50 (Some "TRC20")) "usdt_trc20" _ _ _);
    vm_compute; discriminate.
Defined.

(** The answers of the four balance queries, one by one. *)
Lemma btc_balance_cases (api : balance_api) (address : string) :
  let r := _get_btc_balance api address in
  (exists e, r = balance_error e)
  \/ (exists b, r = mk_balance (Py.Float b) (Some "BTC") None None).
Proof.
  cbv zeta. unfold _get_btc_balance.
  destruct (_make_request (blockstream_address api address)) as [[|stats]|]; eauto.
  destruct (funded_btc stats); eauto.
Qed.

Lemma tron_balance_cases (api : balance_api) (address : string) :
  let r := _get_tron_usdt_balance api address in
  (exists e, r = balance_error e)
  \/ r = mk_balance (Py.Int 0) (Some "USDT_TRC20")
                    (Some "Balance calculation requires full transaction history") None.
Proof.
  cbv zeta. unfold _get_tron_usdt_balance.
  destruct (_make_request (trongrid_trc20_latest api address usdt_contract_tron)) as [body|];
    [destruct (trc_success body)|]; eauto.
Qed.

Lemma eth_balance_cases (api : balance_api) (address : string) :
  let r := _get_eth_usdt_balance api address in
  (exists e, r = balance_error e)
  \/ (exists b, r = mk_balance (Py.Float b) (Some "USDT_ERC20") None None).
Proof.
  cbv zeta. unfold _get_eth_usdt_balance.
  destruct (_make_request (etherscan_tokenbalance api usdt_contract_eth address)) as [body|];
    [|eauto].
  destruct (bool_decide (bal_status body = Some "1")); [|eauto].
  destruct (Py.float_get (bal_result body) 0); eauto.
Qed.

Lemma bsc_balance_cases (api : balance_api) (address : string) :
  let r := _get_bsc_usdt_balance api address in
  (exists e, r = balance_error e)
  \/ (exists b, r = mk_balance (Py.Float b) (Some "USDT_BEP20") None None).
Proof.
  cbv zeta. unfold _get_bsc_usdt_balance.
  destruct (_make_request (bscscan_tokenbalance api usdt_contract_bsc address)) as [body|];
    [|eauto].
  destruct (bool_decide (bal_status body = Some "1")); [|eauto].
  destruct (Py.float_get (bal_result body) 0); eauto.
Qed.

(** X24.  A balance query never reports a balance together with an error:
    an answer with an error (upstream failure, empty object, status other
    than 1, unsupported currency) has balance 0 and names no currency, and
    an answer without error names its currency.  The TRON query reports 0
    even when the upstream call succeeds. *)
Theorem balance_error_is_zero
    (api : balance_api) (currency address : string) (network : option string) :
  let r := get_address_balance api currency address network in
  (is_Some (bal_error r) -> balance r = Py.Int 0 /\ bal_currency r = None)
  /\ (bal_error r = None -> is_Some (bal_currency r))
  /\ (Py.upper currency = "USDT" ->
      network <> Some "ERC20" -> network <> Some "BEP20" ->
      balance r = Py.Int 0).
Proof.
  cbv zeta. unfold get_address_balance.
  destruct (String.eqb_spec (Py.upper currency) "BTC") as [Hb|Hb].
  - destruct (btc_balance_cases api address) as [[e ->]|[b ->]]; simpl;
      (split; [|split]); try (intros [? H]; discriminate H); try discriminate; eauto;
      rewrite Hb; discriminate.
  - destruct (String.eqb_spec (Py.upper currency) "USDT") as [Hu|Hu].
    + destruct (bool_decide (network = Some "TRC20")) eqn:H1.
      * destruct (tron_balance_cases api address) as [[e ->]| ->]; simpl;
          (split; [|split]); try (intros [? H]; discriminate H); try discriminate; eauto.
      * destruct (bool_decide (network = Some "ERC20")) eqn:H2.
        { apply bool_decide_eq_true_1 in H2.
          destruct (eth_balance_cases api address) as [[e ->]|[b ->]]; simpl;
            (split; [|split]); try (intros [? H]; discriminate H); try discriminate; eauto;
            intros _ Hne; contradiction. }
        destruct (bool_decide (network = Some "BEP20")) eqn:H3.
        { apply bool_decide_eq_true_1 in H3.
          destruct (bsc_balance_cases api address) as [[e ->]|[b ->]]; simpl;
            (split; [|split]); try (intros [? H]; discriminate H); try discriminate; eauto;
            intros _ _ Hne; contradiction. }
        destruct (tron_balance_cases api address) as [[e ->]| ->]; simpl;
          (split; [|split]); try (intros [? H]; discriminate H); try discriminate; eauto.
    + simpl. split; [auto|]. split; [discriminate | contradiction].
Qed.

Lemma balance_error_is_zero_witness :
  balance (get_address_balance Examples.balances_btc "usdt" Examples.eth_addr (Some "ERC20"))
  = Py.Int 0
  /\ bal_currency (get_address_balance Examples.balances_btc "usdt" Examples.eth_addr
                                       (Some "ERC20")) = None.
Proof.
  apply (proj1 (balance_error_is_zero Examples.balances_btc "usdt" Examples.eth_addr
                  (Some "ERC20"))).
  vm_compute. eauto.
Defined.


End DispatchExtras.

Section MoreExtras.
Import Blockchain ChainSpec PaymentSvc PaymentInfo.

(** X20.  Each verifier answers a fetch error, never verified, when its
    upstream call raises or comes back with a status other than 200, and,
    for the three token verifiers, when the answer does not carry the
    success mark ([status] 1, a true [success]). *)
Theorem fetch_failure_is_an_error
    (api : chain_api) (address : string) (amount : float) (key : option string) (mc : Z) :
  (_make_request (blockstream_txs api address) = None ->
   verify_btc_payment api address amount mc = VerifyError msg_fetch_failed)
  /\ (forall o,
         etherscan_tokentx api (mk_query usdt_contract_eth address (apikey_param key)) = o ->
         _make_request o = None
         \/ (exists r, _make_request o = Some r /\ resp_status r <> Some "1") ->
         verify_eth_usdt_payment api address amount key = VerifyError msg_fetch_failed)
  /\ (forall o,
         bscscan_tokentx api (mk_query usdt_contract_bsc address (apikey_param key)) = o ->
         _make_request o = None
         \/ (exists r, _make_request o = Some r /\ resp_status r <> Some "1") ->
         verify_bsc_usdt_payment api address amount key = VerifyError msg_fetch_failed)
  /\ (forall o,
         trongrid_trc20 api address usdt_contract_tron = o ->
         _make_request o = None
         \/ (exists r, _make_request o = Some r /\ trc_success r = false) ->
         verify_tron_usdt_payment api address amount = VerifyError msg_fetch_failed).
Proof.
  split; [|split; [|split]].
  - intros H. unfold verify_btc_payment. now rewrite H.
  - intros o <- [H|(r & H & Hs)]; unfold verify_eth_usdt_payment; simpl; rewrite H;
      [reflexivity|].
    now rewrite bool_decide_eq_false_2.
  - intros o <- [H|(r & H & Hs)]; unfold verify_bsc_usdt_payment; simpl; rewrite H;
      [reflexivity|].
    now rewrite bool_decide_eq_false_2.
  - intros o <- [H|(r & H & Hs)]; unfold verify_tron_usdt_payment; rewrite H;
      [reflexivity|].
    now rewrite Hs.
Qed.

Lemma fetch_failure_is_an_error_witness :
  verify_tron_usdt_payment Examples.api_down Examples.tron_addr Examples.usdt_50
  = VerifyError msg_fetch_failed.
Proof.
  refine (proj2 (proj2 (proj2 (fetch_failure_is_an_error Examples.api_down Examples.tron_addr
                                 Examples.usdt_50 None 1))) _ eq_refl _).
  left. reflexivity.
Defined.



(** X26.  Status updates compose by last write: after two accepted
    updates the status and the update time are those of the second, and
    the transaction id is the last non-empty one given, or the stored one
    when neither update gave one.  Repeating an accepted update changes
    nothing more. *)
Theorem update_status_last_write_wins
    (s1 s2 : string) (t1 t2 : option string) (now1 now2 : datetime) (p : Payment) :
  In s1 valid_statuses ->
  In s2 valid_statuses ->
  let p1 := snd (update_status s1 t1 now1 p) in
  let p2 := snd (update_status s2 t2 now2 p1) in
  status p2 = s2
  /\ updated_at p2 = now2
  /\ transaction_id p2 =
       (if Py.truthy t2 then t2 else if Py.truthy t1 then t1 else transaction_id p)
  /\ payment_data p2 = payment_data p
  /\ update_status s1 t1 now1 p1 = update_status s1 t1 now1 p.
Proof.
  intros H1 H2. cbv zeta.
  rewrite !(update_status_accept s1) by exact H1.
  rewrite (update_status_accept s2) by exact H2.
  destruct (Py.truthy t1), (Py.truthy t2); simpl; auto 10.
Qed.

Lemma update_status_last_write_wins_witness :
  transaction_id (snd (update_status "completed" None Examples.noon
                         (snd (update_status "pending" (Some "tx_c") Examples.noon
                                             Examples.pay1))))
  = Some "tx_c".
Proof.
  exact (proj1 (proj2 (proj2
           (update_status_last_write_wins "pending" "completed" (Some "tx_c") None
              Examples.noon Examples.noon Examples.pay1
              (or_introl eq_refl) (or_intror (or_introl eq_refl)))))).
Defined.



End MoreExtras.
